(** * Kidanta (app.py): a shallow embedding of the Flask handlers and of the
    behaviour-log aggregation, with the properties the specification states.

    Layout:
    - module [Py]: the Python built-ins the handlers call ([str.strip],
      [str.lower], [int], [int / int], [round], [date.strftime], [sorted]);
    - the data model: the five tables, the SQLAlchemy session, requests and
      responses, and the monad the handlers run in;
    - the handlers of app.py, one definition per function, and [serve],
      one request from routing to the end of the session;
    - the vocabulary of the specification and sample data;
    - lemmas, then one theorem per claim, then the claims at concrete
      inputs. *)

From Stdlib Require Import ZArith String Ascii List Lia Bool SpecFloat.
From stdpp Require Import gmap strings list sorting.

Local Open Scope string_scope.
Local Open Scope list_scope.
Local Open Scope Z_scope.

(* ------------------------------------------------------------------ *)
(** * Python built-ins *)
(* ------------------------------------------------------------------ *)

Module Py.

(** Exceptions that the modelled built-ins can raise. *)
Inductive exn : Type :=
| ValueError
| ZeroDivisionError
| OverflowError.

Inductive result (A : Type) : Type :=
| Ok (a : A)
| Raise (e : exn).
Arguments Ok {A} a.
Arguments Raise {A} e.

Definition bind {A B} (r : result A) (k : A -> result B) : result B :=
  match r with
  | Ok a => k a
  | Raise e => Raise e
  end.

#[global] Instance result_ret : MRet result := @Ok.
#[global] Instance result_bind : MBind result := fun A B f r => bind r f.

Fixpoint mapM {A B} (f : A -> result B) (l : list A) : result (list B) :=
  match l with
  | [] => Ok []
  | x :: l' =>
      bind (f x) (fun y => bind (mapM f l') (fun ys => Ok (y :: ys)))
  end.

(** ** [str]

    A [str] is a [string] whose characters are the code points below 256. *)

Definition code (c : ascii) : Z := Z.of_N (N_of_ascii c).

(** [str.isspace] on one character. *)
Definition isspace (c : ascii) : bool :=
  let n := code c in
  ((9 <=? n) && (n <=? 13)) || ((28 <=? n) && (n <=? 32))
  || (n =? 133) || (n =? 160).

Fixpoint lstrip (s : string) : string :=
  match s with
  | EmptyString => EmptyString
  | String c s' => if isspace c then lstrip s' else s
  end.

Fixpoint rstrip (s : string) : string :=
  match s with
  | EmptyString => EmptyString
  | String c s' =>
      let r := rstrip s' in
      if isspace c && (r =? "")%string then EmptyString else String c r
  end.

(** [s.strip()] *)
Definition strip (s : string) : string := rstrip (lstrip s).

Definition lower_char (c : ascii) : ascii :=
  let n := code c in
  if ((65 <=? n) && (n <=? 90))
     || ((192 <=? n) && (n <=? 222) && negb (n =? 215))
  then ascii_of_N (Z.to_N (n + 32))
  else c.

(** [s.lower()] *)
Fixpoint lower (s : string) : string :=
  match s with
  | EmptyString => EmptyString
  | String c s' => String (lower_char c) (lower s')
  end.

(** [not s] for a string. *)
Definition is_empty (s : string) : bool := (s =? "")%string.

(** ** [int(str)], base 10: optional sign, then digits which single
    underscores may separate; white space around the number is skipped.
    Of the characters [str.strip] removes, [int] skips the tab, the line
    breaks U+000A..U+000D, the space, U+0085 and U+00A0, not the separators
    U+001C..U+001F; and it raises ValueError on more than 4300 digits
    ([sys.int_info.default_max_str_digits]), whatever the digits are. *)

Definition int_isspace (c : ascii) : bool :=
  let n := code c in
  ((9 <=? n) && (n <=? 13)) || (n =? 32) || (n =? 133) || (n =? 160).

Fixpoint int_lstrip (s : string) : string :=
  match s with
  | EmptyString => EmptyString
  | String c s' => if int_isspace c then int_lstrip s' else s
  end.

Fixpoint int_rstrip (s : string) : string :=
  match s with
  | EmptyString => EmptyString
  | String c s' =>
      let r := int_rstrip s' in
      if int_isspace c && (r =? "")%string then EmptyString else String c r
  end.

Definition int_max_str_digits : Z := 4300.

Definition digit_val (c : ascii) : option Z :=
  let n := code c in
  if (48 <=? n) && (n <=? 57) then Some (n - 48) else None.

(** The characters after a digit whose accumulated value is [acc]. *)
Fixpoint int_digits (acc : Z) (s : string) : option Z :=
  match s with
  | EmptyString => Some acc
  | String c s' =>
      if (c =? "_")%char then
        match s' with
        | EmptyString => None
        | String d s'' =>
            match digit_val d with
            | Some v => int_digits (10 * acc + v) s''
            | None => None
            end
        end
      else
        match digit_val c with
        | Some v => int_digits (10 * acc + v) s'
        | None => None
        end
  end.

(** The number of digits in [s], underscores not counted. *)
Fixpoint digit_count (s : string) : Z :=
  match s with
  | EmptyString => 0
  | String c s' =>
      (match digit_val c with Some _ => 1 | None => 0 end) + digit_count s'
  end.

Definition int_unsigned (s : string) : option Z :=
  match s with
  | EmptyString => None
  | String c s' =>
      match digit_val c with
      | Some v =>
          if digit_count s <=? int_max_str_digits then int_digits v s'
          else None
      | None => None
      end
  end.

Definition int_of_str (s : string) : result Z :=
  let body :=
    match int_rstrip (int_lstrip s) with
    | String "-" s' => option_map Z.opp (int_unsigned s')
    | String "+" s' => int_unsigned s'
    | s' => int_unsigned s'
    end in
  match body with
  | Some z => Ok z
  | None => Raise ValueError
  end.

(** [int(s or d)]: an empty string is falsy, so the integer [d] is taken. *)
Definition int_or (s : string) (d : Z) : result Z :=
  if is_empty s then Ok d else int_of_str s.

(** ** [float]

    A finite binary64 number is a sign, an integer significand and an
    exponent: [Float s m e] is [(-1)^s * m * 2^e].  In a result of the
    operations below either [m = 0] and [e = 0], or [2^52 <= m < 2^53] and
    [-1074 <= e <= 971], or [0 < m < 2^52] and [e = -1074] (subnormal). *)

Record float : Type := Float { fneg : bool; fmant : Z; fexp : Z }.

(** Nearest integer to the rational [a / b] ([0 <= a], [0 < b]), a tie
    going to the even neighbour. *)
Definition rne_div (a b : Z) : Z :=
  let q := a / b in
  let r := a mod b in
  if 2 * r <? b then q
  else if b <? 2 * r then q + 1
  else if Z.even q then q else q + 1.

(** [b * 2^k <= a] for an exponent of either sign. *)
Definition pow2_le (a b k : Z) : bool :=
  if 0 <=? k then b * 2 ^ k <=? a else b <=? a * 2 ^ (- k).

(** [floor (log2 (a / b))] for [0 < a], [0 < b]. *)
Definition ilog2_quot (a b : Z) : Z :=
  let l := Z.log2 a - Z.log2 b in
  if pow2_le a b l then l else l - 1.

(** The binary64 number nearest to [(-1)^neg * a / b] ([0 <= a], [0 < b]),
    ties to even; [OverflowError] when it is beyond the largest finite
    binary64 number. *)
Definition round_b64 (neg : bool) (a b : Z) : result float :=
  if a =? 0 then Ok (Float neg 0 0)
  else
    let e := Z.max (ilog2_quot a b - 52) (-1074) in
    let m := if 0 <=? e then rne_div a (b * 2 ^ e)
             else rne_div (a * 2 ^ (- e)) b in
    if m =? 0 then Ok (Float neg 0 0)
    else
      let '(m, e) := if m =? 2 ^ 53 then (2 ^ 52, e + 1) else (m, e) in
      if 971 <? e then Raise OverflowError else Ok (Float neg m e).

(** [a / b] on two [int]s: the correctly rounded quotient. *)
Definition truediv (a b : Z) : result float :=
  if b =? 0 then Raise ZeroDivisionError
  else round_b64 (xorb (a <? 0) (b <? 0)) (Z.abs a) (Z.abs b).

(** [round(x, ndigits)] for [0 <= ndigits]: the exact value of [x] is
    rounded to [ndigits] decimals, ties to even, and the decimal obtained is
    converted back to the nearest binary64 number. *)
Definition round (x : float) (ndigits : nat) : result float :=
  let p := 10 ^ Z.of_nat ndigits in
  let h := if 0 <=? fexp x then fmant x * p * 2 ^ fexp x
           else rne_div (fmant x * p) (2 ^ (- fexp x)) in
  round_b64 (fneg x) h p.

(** The same number as a [spec_float] of the standard library. *)
Definition to_spec (x : float) : spec_float :=
  match fmant x with
  | Zpos m => S754_finite (fneg x) m (fexp x)
  | _ => S754_zero (fneg x)
  end.

(** ** [date] and [date.strftime]

    A [datetime.date] has a year in 1..9999.  [%m] and [%d] write two
    digits, zero padded.  [%Y] is left to the C library, and glibc writes
    the year in decimal without padding: four digits from the year 1000
    on, fewer before. *)

Record date : Type := Date { year : Z; month : Z; day : Z }.

Definition digit_char (d : Z) : ascii := ascii_of_N (Z.to_N (48 + d mod 10)).

(** The last [width] decimal digits of [n], zero padded. *)
Fixpoint zero_pad (width : nat) (n : Z) : string :=
  match width with
  | O => EmptyString
  | S w => zero_pad w (n / 10) +:+ String (digit_char n) EmptyString
  end.

(** The year as [%Y] writes it for a [date] (1..9999): in decimal, not
    padded. *)
Definition year_str (y : Z) : string :=
  if y <? 10 then zero_pad 1 y
  else if y <? 100 then zero_pad 2 y
  else if y <? 1000 then zero_pad 3 y
  else zero_pad 4 y.

(** [d.strftime(fmt)] for formats made of the directives [%Y], [%m] and
    [%d] and of literal characters, which are copied. *)
Fixpoint strftime (d : date) (fmt : string) : string :=
  match fmt with
  | String "%" (String "Y" rest) => year_str (year d) +:+ strftime d rest
  | String "%" (String "m" rest) => zero_pad 2 (month d) +:+ strftime d rest
  | String "%" (String "d" rest) => zero_pad 2 (day d) +:+ strftime d rest
  | String c rest => String c (strftime d rest)
  | EmptyString => EmptyString
  end.

(** ** [sorted] on a list of strings *)

Definition str_le (a b : string) : Prop := Is_true (String.leb a b).
Definition str_lt (a b : string) : Prop := Is_true (String.ltb a b).

#[global] Instance str_le_dec (a b : string) : Decision (str_le a b) := _.

Definition sorted (l : list string) : list string := merge_sort str_le l.

End Py.

(* ------------------------------------------------------------------ *)
(** * SQLite as the queries use it *)
(* ------------------------------------------------------------------ *)

Module Sql.

(** What [sqlite3] binds as an integer parameter: an INTEGER has 64 bits,
    and a Python [int] beyond them raises OverflowError. *)
Definition int_ok (z : Z) : bool := (- 2 ^ 63 <=? z) && (z <? 2 ^ 63).

(** [lower(x)] folds the letters A..Z only. *)
Definition lower_char (c : ascii) : ascii :=
  let n := Py.code c in
  if (65 <=? n) && (n <=? 90) then ascii_of_N (Z.to_N (n + 32)) else c.

Fixpoint lower (s : string) : string :=
  match s with
  | EmptyString => EmptyString
  | String c s' => String (lower_char c) (lower s')
  end.

(** The text as LIKE reads it, a C string: what precedes the first
    U+0000. *)
Fixpoint c_str (s : string) : string :=
  match s with
  | EmptyString => EmptyString
  | String c s' => if (c =? "000")%char then EmptyString else String c (c_str s')
  end.

(** [x LIKE p] without ESCAPE, on C strings: [%] stands for any run of
    characters, [_] for any one character, and any other character for
    itself up to the case of A..Z. *)
Fixpoint like (p : string) : string -> bool :=
  match p with
  | EmptyString => fun x => Py.is_empty x
  | String "%" p' =>
      fix skip (x : string) : bool :=
        like p' x
        || match x with
           | EmptyString => false
           | String _ x' => skip x'
           end
  | String "_" p' =>
      fun x => match x with
               | EmptyString => false
               | String _ x' => like p' x'
               end
  | String c p' =>
      fun x => match x with
               | EmptyString => false
               | String c' x' =>
                   (lower_char c' =? lower_char c)%char && like p' x'
               end
  end.

(** [column.ilike(p)], which SQLAlchemy writes for SQLite as
    [lower(column) LIKE lower(p)]; pattern and text end at their first
    U+0000. *)
Definition ilike (x p : string) : bool :=
  like (c_str (lower p)) (c_str (lower x)).

(** [.order_by(col.asc())] on a text column. *)
Definition order_by_asc {A} (col : A -> string) (l : list A) : list A :=
  merge_sort (fun x y => Py.str_le (col x) (col y)) l.

End Sql.

(* ------------------------------------------------------------------ *)
(** * The data model: tables, ORM session, requests and responses *)
(* ------------------------------------------------------------------ *)

(** werkzeug.security, idealised: a hash records the salt and the password
    it was derived from, and checking a password against it succeeds on
    that password only. *)
Inductive pwhash : Type := Hash (salt : string) (pw : string).

Definition generate_password_hash (salt pw : string) : pwhash := Hash salt pw.

Definition check_password_hash (h : pwhash) (pw : string) : bool :=
  match h with
  | Hash _ p => (p =? pw)%string
  end.

(** One module per model class; a row is stored under its primary key, so
    the [id] column is the key of the table and not a field. *)
Module User.
Record t : Type := mk
  { name : string; email : string; password_hash : pwhash; role : string }.
Definition check_password (u : t) (pw : string) : bool :=
  check_password_hash (password_hash u) pw.
End User.

Module Student.
Record t : Type := mk
  { full_name : string; age : Z; gender : string; notes : string;
    created_by : option Z }.
Definition set_full_name (s : t) (v : string) : t :=
  mk v (age s) (gender s) (notes s) (created_by s).
Definition set_age (s : t) (v : Z) : t :=
  mk (full_name s) v (gender s) (notes s) (created_by s).
Definition set_gender (s : t) (v : string) : t :=
  mk (full_name s) (age s) v (notes s) (created_by s).
Definition set_notes (s : t) (v : string) : t :=
  mk (full_name s) (age s) (gender s) v (created_by s).
End Student.

Module Activity.
Record t : Type := mk
  { title : string; description : string; category : string;
    age_min : Z; age_max : Z; created_by : option Z }.
Definition set_title (a : t) (v : string) : t :=
  mk v (description a) (category a) (age_min a) (age_max a) (created_by a).
Definition set_description (a : t) (v : string) : t :=
  mk (title a) v (category a) (age_min a) (age_max a) (created_by a).
Definition set_category (a : t) (v : string) : t :=
  mk (title a) (description a) v (age_min a) (age_max a) (created_by a).
Definition set_age_min (a : t) (v : Z) : t :=
  mk (title a) (description a) (category a) v (age_max a) (created_by a).
Definition set_age_max (a : t) (v : Z) : t :=
  mk (title a) (description a) (category a) (age_min a) v (created_by a).
End Activity.

Module BehaviorLog.
Record t : Type := mk
  { student_id : Z; log_date : Py.date; mood : Z; focus : Z; social : Z;
    notes : string }.
End BehaviorLog.

Module ActivityLog.
Record t : Type := mk
  { student_id : Z; activity_id : Z; done_at : Py.date; remark : string }.
End ActivityLog.

(** The database: one finite map per table, from primary key to row. *)
Record database : Type := Database
  { tbl_user : gmap Z User.t;
    tbl_student : gmap Z Student.t;
    tbl_activity : gmap Z Activity.t;
    tbl_behavior_log : gmap Z BehaviorLog.t;
    tbl_activity_log : gmap Z ActivityLog.t }.

Definition empty_db : database := Database ∅ ∅ ∅ ∅ ∅.

Definition with_users (d : database) (m : gmap Z User.t) : database :=
  Database m (tbl_student d) (tbl_activity d) (tbl_behavior_log d)
    (tbl_activity_log d).
Definition with_students (d : database) (m : gmap Z Student.t) : database :=
  Database (tbl_user d) m (tbl_activity d) (tbl_behavior_log d)
    (tbl_activity_log d).
Definition with_activities (d : database) (m : gmap Z Activity.t) : database :=
  Database (tbl_user d) (tbl_student d) m (tbl_behavior_log d)
    (tbl_activity_log d).

(** The rows of a table, in the order the map enumerates them. *)
Definition rows {A} (m : gmap Z A) : list (Z * A) := map_to_list m.

(** The key an INSERT gives a new row: one more than the largest key. *)
Definition next_id {A} (m : gmap Z A) : Z :=
  1 + foldr Z.max 0 (rows m).*1.

(** What a handler can read besides the request. *)
Record env : Type := Env { today : Py.date; fresh_salt : string }.

Inductive http_method : Type := GET | POST.

Record request : Type := Request
  { method : http_method;
    form : gmap string string;
    args : gmap string string }.

(** [request.form.get(k, d)] and [request.args.get(k, d)] *)
Definition form_get (req : request) (k d : string) : string :=
  default d (form req !! k).
Definition args_get (req : request) (k d : string) : string :=
  default d (args req !! k).

Definition is_post (req : request) : bool :=
  match method req with
  | POST => true
  | GET => false
  end.

(** Targets of [url_for]. *)
Inductive endpoint : Type :=
| EpRegister
| EpLogin
| EpDashboard
| EpStudents
| EpStudentNew
| EpStudentEdit (sid : Z)
| EpStudentDetail (sid : Z)
| EpActivities
| EpActivityNew.

(** The four parallel sequences of the chart endpoint. *)
Module Chart.
Record t : Type := mk
  { labels : list string; mood : list Py.float; focus : list Py.float;
    social : list Py.float }.
End Chart.

(** A rendered template with the values passed to it. *)
Inductive page : Type :=
| RegisterHtml
| LoginHtml
| StudentFormHtml (item : option Student.t)
| ActivityFormHtml (item : option Activity.t)
| StudentDetailHtml (s : Student.t) (logs : list BehaviorLog.t)
    (acts : list ActivityLog.t) (rec_acts : list Activity.t).

Inductive response : Type :=
| Render (p : page)
| Redirect (target : endpoint)
| Json (data : Chart.t)
| NotFound
| MethodNotAllowed
| InternalServerError (e : Py.exn).

(** What ends a handler before its [return]: [abort(404)] or an exception
    nobody catches. *)
Inductive abort : Type :=
| Abort404
| Uncaught (e : Py.exn).

(** The state a handler runs in.  [store] is what the database holds;
    [work] is the SQLAlchemy session's view, where attribute assignments,
    [add] and [delete] take effect; [commit] copies [work] into [store].
    [login_id] is the user id kept in the Flask session, [flashes] the
    messages flashed so far, as (category, message). *)
Record world : Type := World
  { store : database;
    work : database;
    login_id : option Z;
    flashes : list (string * string) }.

(** The handler monad: state, and early exit by [abort]. *)
Definition M (A : Type) : Type := world -> (abort + A) * world.

#[global] Instance M_ret : MRet M := fun A x w => (inr x, w).
#[global] Instance M_bind : MBind M := fun A B f m w =>
  match m w with
  | (inl e, w') => (inl e, w')
  | (inr x, w') => f x w'
  end.

Definition get_db : M database := fun w => (inr (work w), w).

Definition put_db (d : database) : M unit := fun w =>
  (inr tt, World (store w) d (login_id w) (flashes w)).

(** [db.session.commit()] *)
Definition commit : M unit := fun w =>
  (inr tt, World (work w) (work w) (login_id w) (flashes w)).

(** [flash(message, category)] *)
Definition flash (message category : string) : M unit := fun w =>
  (inr tt,
   World (store w) (work w) (login_id w) (flashes w ++ [(category, message)])).

Definition abort_with {A} (e : abort) : M A := fun w => (inl e, w).

(** A built-in that may raise, called from a handler. *)
Definition lift {A} (r : Py.result A) : M A :=
  match r with
  | Py.Ok a => mret a
  | Py.Raise e => abort_with (Uncaught e)
  end.

(** [Model.query.get_or_404(id)]: the row, or 404 when there is none.  The
    URL converter passes integers of any size, and [sqlite3] raises
    OverflowError when the query binds one beyond 64 bits.  The keys of a
    table are INTEGER PRIMARY KEYs, which SQLite holds in 64 bits, so this
    happens for ids that are not in the table only. *)
Definition get_or_404 {A} (tbl : database -> gmap Z A) (id : Z) : M A :=
  d ← get_db;
  match tbl d !! id with
  | Some r => mret r
  | None =>
      if Sql.int_ok id then abort_with Abort404
      else abort_with (Uncaught Py.OverflowError)
  end.

(** [db.session.commit()] of an INSERT or UPDATE that binds the integers
    [ints]: [sqlite3] raises OverflowError on one beyond 64 bits, and
    nothing is committed. *)
Definition commit_ints (ints : list Z) : M unit :=
  if forallb Sql.int_ok ints then commit
  else abort_with (Uncaught Py.OverflowError).

(** [login_user(u)] and [logout_user()] *)
Definition login_user (uid : Z) : M unit := fun w =>
  (inr tt, World (store w) (work w) (Some uid) (flashes w)).
Definition logout_user : M unit := fun w =>
  (inr tt, World (store w) (work w) None (flashes w)).

(** [current_user]: the row [load_user] finds for the id in the session. *)
Definition current_user : M (option (Z * User.t)) := fun w =>
  (inr (match login_id w with
        | Some uid =>
            match tbl_user (work w) !! uid with
            | Some u => Some (uid, u)
            | None => None
            end
        | None => None
        end), w).

(** [@login_required]: an anonymous request is sent to the login view. *)
Definition login_required (h : Z -> M response) : M response :=
  cu ← current_user;
  match cu with
  | Some (uid, _) => h uid
  | None =>
      flash "Please log in to access this page." "message";;
      mret (Redirect EpLogin)
  end.

(* ------------------------------------------------------------------ *)
(** * The handlers of app.py *)
(* ------------------------------------------------------------------ *)

(** Message literals are the UTF-8 text of the source. *)

(** [User.query.filter_by(email=email).first()] *)
Definition user_by_email (d : database) (email : string)
  : option (Z * User.t) :=
  head (filter (fun r => User.email r.2 = email) (rows (tbl_user d))).

(** [db.session.add(row)] for each of the tables written by a handler. *)
Definition add_user (u : User.t) : M unit :=
  d ← get_db;
  put_db (with_users d (<[next_id (tbl_user d) := u]> (tbl_user d))).
Definition add_student (s : Student.t) : M unit :=
  d ← get_db;
  put_db (with_students d (<[next_id (tbl_student d) := s]> (tbl_student d))).
Definition add_activity (a : Activity.t) : M unit :=
  d ← get_db;
  put_db
    (with_activities d (<[next_id (tbl_activity d) := a]> (tbl_activity d))).

(** An attribute assignment on a loaded row: the session's copy changes. *)
Definition assign_student (sid : Z) (s : Student.t) : M unit :=
  d ← get_db;
  put_db (with_students d (<[sid := s]> (tbl_student d))).
Definition assign_activity (aid : Z) (a : Activity.t) : M unit :=
  d ← get_db;
  put_db (with_activities d (<[aid := a]> (tbl_activity d))).

(** [db.session.delete(row)] *)
Definition delete_student (sid : Z) : M unit :=
  d ← get_db;
  put_db (with_students d (delete sid (tbl_student d))).
Definition delete_activity (aid : Z) : M unit :=
  d ← get_db;
  put_db (with_activities d (delete aid (tbl_activity d))).

(** The [initdb] CLI command, on an existing schema. *)
Definition seed_activities : list Activity.t :=
  [ Activity.mk "อ่านนิทานภาพ" "เสริมจินตนาการและการอ่าน" "ภาษา" 6 8 None;
    Activity.mk "เกมต่อบล็อก" "ฝึกตรรกะและมอเตอร์" "STEM" 6 9 None;
    Activity.mk "สะกดคำพื้นฐาน" "ฝึกภาษาไทย" "ภาษา" 7 10 None;
    Activity.mk "วิทย์สนุกที่บ้าน" "ทดลองง่ายๆ" "วิทยาศาสตร์" 8 12 None;
    Activity.mk "ฟุตบอลยิ้ม" "เล่นทีมและกติกา" "กีฬา" 9 12 None ].

Definition initdb (e : env) : M unit :=
  d ← get_db;
  match user_by_email d "admin@kidanta.local" with
  | None =>
      add_user (User.mk "Admin" "admin@kidanta.local"
                  (generate_password_hash (fresh_salt e) "admin123") "admin");;
      commit
  | Some _ => mret tt
  end;;
  d ← get_db;
  if bool_decide (size (tbl_activity d) = 0%nat) then
    mapM add_activity seed_activities;;
    commit
  else mret tt.

(** ** Auth *)

Definition register (e : env) (req : request) : M response :=
  if is_post req then
    let name := Py.strip (form_get req "name" "") in
    let email := Py.lower (Py.strip (form_get req "email" "")) in
    let password := form_get req "password" "" in
    if Py.is_empty name || Py.is_empty email || Py.is_empty password then
      flash "กรอกข้อมูลให้ครบ" "danger";;
      mret (Redirect EpRegister)
    else
      d ← get_db;
      match user_by_email d email with
      | Some _ =>
          flash "อีเมลนี้ถูกใช้แล้ว" "warning";;
          mret (Redirect EpRegister)
      | None =>
          let u := User.mk name email
                     (generate_password_hash (fresh_salt e) password)
                     "teacher" in
          add_user u;;
          commit;;
          flash "สมัครสมาชิกสำเร็จ, กรุณาเข้าสู่ระบบ" "success";;
          mret (Redirect EpLogin)
      end
  else mret (Render RegisterHtml).

Definition login (req : request) : M response :=
  (if is_post req then
     let email := Py.lower (Py.strip (form_get req "email" "")) in
     let password := form_get req "password" "" in
     d ← get_db;
     match user_by_email d email with
     | Some (uid, u) =>
         if User.check_password u password then
           login_user uid;;
           mret (Some (Redirect EpDashboard))
         else
           flash "อีเมลหรือรหัสผ่านไม่ถูกต้อง" "danger";;
           mret None
     | None =>
         flash "อีเมลหรือรหัสผ่านไม่ถูกต้อง" "danger";;
         mret None
     end
   else mret None) ≫= fun returned =>
  match returned with
  | Some r => mret r
  | None => mret (Render LoginHtml)
  end.

Definition logout : M response :=
  login_required (fun _ =>
    logout_user;;
    mret (Redirect EpLogin)).

(** ** Students *)

Definition student_new (req : request) : M response :=
  login_required (fun current_user_id =>
    if is_post req then
      let full_name := Py.strip (form_get req "full_name" "") in
      age ← lift (Py.int_or (form_get req "age" "0") 0);
      let gender := form_get req "gender" "" in
      let notes := form_get req "notes" "" in
      if Py.is_empty full_name || (age <? 6) || (12 <? age) then
        flash "กรอกชื่อและอายุ 6-12 ปีให้ถูกต้อง" "danger";;
        mret (Redirect EpStudentNew)
      else
        add_student
          (Student.mk full_name age gender notes (Some current_user_id));;
        commit;;
        flash "บันทึกข้อมูลนักเรียนแล้ว" "success";;
        mret (Redirect EpStudents)
    else mret (Render (StudentFormHtml None))).

Definition student_edit (sid : Z) (req : request) : M response :=
  login_required (fun _ =>
    s ← get_or_404 tbl_student sid;
    if is_post req then
      let s := Student.set_full_name s
                 (Py.strip (form_get req "full_name" "")) in
      assign_student sid s;;
      age ← lift (Py.int_or (form_get req "age" "0") 0);
      let s := Student.set_age s age in
      assign_student sid s;;
      let s := Student.set_gender s (form_get req "gender" "") in
      assign_student sid s;;
      let s := Student.set_notes s (form_get req "notes" "") in
      assign_student sid s;;
      if Py.is_empty (Student.full_name s)
         || (Student.age s <? 6) || (12 <? Student.age s) then
        flash "กรอกชื่อและอายุ 6-12 ปีให้ถูกต้อง" "danger";;
        mret (Redirect (EpStudentEdit sid))
      else
        commit;;
        flash "แก้ไขข้อมูลแล้ว" "success";;
        mret (Redirect EpStudents)
    else mret (Render (StudentFormHtml (Some s)))).

Definition student_delete (sid : Z) : M response :=
  login_required (fun _ =>
    _ ← get_or_404 tbl_student sid;
    delete_student sid;;
    commit;;
    flash "ลบข้อมูลนักเรียนแล้ว" "info";;
    mret (Redirect EpStudents)).

Definition date_leb (a b : Py.date) : bool :=
  (Py.year a <? Py.year b)
  || ((Py.year a =? Py.year b)
      && ((Py.month a <? Py.month b)
          || ((Py.month a =? Py.month b) && (Py.day a <=? Py.day b)))).

(** [.order_by(col.desc())] on a date column. *)
Definition order_by_desc {A} (col : A -> Py.date) (l : list A) : list A :=
  merge_sort (fun x y => Is_true (date_leb (col y) (col x))) l.

Definition student_detail (sid : Z) : M response :=
  login_required (fun _ =>
    s ← get_or_404 tbl_student sid;
    d ← get_db;
    let logs :=
      take 30 (order_by_desc BehaviorLog.log_date
                 (filter (fun r => BehaviorLog.student_id r = sid)
                    (rows (tbl_behavior_log d)).*2)) in
    let acts :=
      take 30 (order_by_desc ActivityLog.done_at
                 (filter (fun r => ActivityLog.student_id r = sid)
                    (rows (tbl_activity_log d)).*2)) in
    let rec_acts :=
      filter (fun a => Activity.age_min a <= Student.age s
                       /\ Activity.age_max a >= Student.age s)
        (rows (tbl_activity d)).*2 in
    mret (Render (StudentDetailHtml s logs acts rec_acts))).

(** ** Activities *)

Definition activity_new (req : request) : M response :=
  login_required (fun current_user_id =>
    if is_post req then
      let title := Py.strip (form_get req "title" "") in
      if Py.is_empty title then
        flash "กรอกชื่อกิจกรรม" "danger";;
        mret (Redirect EpActivityNew)
      else
        age_min ← lift (Py.int_or (form_get req "age_min" "6") 6);
        age_max ← lift (Py.int_or (form_get req "age_max" "12") 12);
        add_activity
          (Activity.mk title (form_get req "description" "")
             (form_get req "category" "") age_min age_max
             (Some current_user_id));;
        commit_ints [age_min; age_max];;
        flash "เพิ่มกิจกรรมแล้ว" "success";;
        mret (Redirect EpActivities)
    else mret (Render (ActivityFormHtml None))).

Definition activity_edit (aid : Z) (req : request) : M response :=
  login_required (fun _ =>
    item ← get_or_404 tbl_activity aid;
    if is_post req then
      let item := Activity.set_title item
                    (Py.strip (form_get req "title" "")) in
      assign_activity aid item;;
      let item := Activity.set_description item
                    (form_get req "description" "") in
      assign_activity aid item;;
      let item := Activity.set_category item (form_get req "category" "") in
      assign_activity aid item;;
      age_min ← lift (Py.int_or (form_get req "age_min" "6") 6);
      let item := Activity.set_age_min item age_min in
      assign_activity aid item;;
      age_max ← lift (Py.int_or (form_get req "age_max" "12") 12);
      let item := Activity.set_age_max item age_max in
      assign_activity aid item;;
      commit_ints [age_min; age_max];;
      flash "แก้กิจกรรมแล้ว" "success";;
      mret (Redirect EpActivities)
    else mret (Render (ActivityFormHtml (Some item)))).

Definition activity_delete (aid : Z) : M response :=
  login_required (fun _ =>
    _ ← get_or_404 tbl_activity aid;
    delete_activity aid;;
    commit;;
    flash "ลบกิจกรรมแล้ว" "info";;
    mret (Redirect EpActivities)).

(** ** Reports and chart data *)

(** A value of the [defaultdict]: [{"mood":0,"focus":0,"social":0,"n":0}]. *)
Module Bucket.
Record t : Type := mk { mood : Z; focus : Z; social : Z; n : Z }.
Definition zero : t := mk 0 0 0 0.
End Bucket.

(** [buckets[k]] on the [defaultdict]: a missing key reads as a new bucket. *)
Definition bucket_at (buckets : gmap string Bucket.t) (k : string)
  : Bucket.t :=
  default Bucket.zero (buckets !! k).

(** The key chosen for a row by the [if]/[elif]/[else] on [period]. *)
Definition bucket_key (period : string) (d : Py.date) : string :=
  if (period =? "daily")%string then Py.strftime d "%Y-%m-%d"
  else if (period =? "monthly")%string then Py.strftime d "%Y-%m"
  else Py.strftime d "%Y".

(** One iteration of [for row in q]. *)
Definition add_row (period : string) (buckets : gmap string Bucket.t)
    (row : BehaviorLog.t) : gmap string Bucket.t :=
  let key := bucket_key period (BehaviorLog.log_date row) in
  let b := bucket_at buckets key in
  <[key := Bucket.mk (Bucket.mood b + BehaviorLog.mood row)
             (Bucket.focus b + BehaviorLog.focus row)
             (Bucket.social b + BehaviorLog.social row)
             (Bucket.n b + 1)]> buckets.

(** [BehaviorLog.query.filter_by(student_id=sid)] *)
Definition behavior_logs_of (d : database) (sid : Z) : list BehaviorLog.t :=
  filter (fun r => BehaviorLog.student_id r = sid)
    (rows (tbl_behavior_log d)).*2.

(** [round(total / n, 2)] *)
Definition average (total n : Z) : Py.result Py.float :=
  x ← Py.truediv total n;
  Py.round x 2.

(** The same query as the loop of [_aggregate_behavior] runs it, for an id
    that comes from the URL: [sqlite3] raises OverflowError when the id is
    beyond 64 bits. *)
Definition query_logs_of (d : database) (sid : Z)
  : Py.result (list BehaviorLog.t) :=
  if Sql.int_ok sid then Py.Ok (behavior_logs_of d sid)
  else Py.Raise Py.OverflowError.

Definition _aggregate_behavior (d : database) (sid : Z) (period : string)
  : Py.result Chart.t :=
  q ← query_logs_of d sid;
  let buckets := foldl (add_row period) ∅ q in
  let labels := Py.sorted (map_to_list buckets).*1 in
  mood ← Py.mapM (fun k => average (Bucket.mood (bucket_at buckets k))
                              (Bucket.n (bucket_at buckets k))) labels;
  focus ← Py.mapM (fun k => average (Bucket.focus (bucket_at buckets k))
                               (Bucket.n (bucket_at buckets k))) labels;
  social ← Py.mapM (fun k => average (Bucket.social (bucket_at buckets k))
                                (Bucket.n (bucket_at buckets k))) labels;
  mret (Chart.mk labels mood focus social).

Definition api_behavior (sid : Z) (req : request) : M response :=
  login_required (fun _ =>
    let period := args_get req "period" "daily" in
    d ← get_db;
    data ← lift (_aggregate_behavior d sid period);
    mret (Json data)).

(** ** Routing and the request cycle *)

Inductive route : Type :=
| R_register
| R_login
| R_logout
| R_student_new
| R_student_edit (sid : Z)
| R_student_delete (sid : Z)
| R_student_detail (sid : Z)
| R_activity_new
| R_activity_edit (aid : Z)
| R_activity_delete (aid : Z)
| R_api_behavior (sid : Z).

(** The [methods=] of each [@app.route]. *)
Definition allows (r : route) (m : http_method) : bool :=
  match r, m with
  | (R_register | R_login | R_student_new | R_student_edit _
     | R_activity_new | R_activity_edit _), _ => true
  | (R_student_delete _ | R_activity_delete _), POST => true
  | (R_student_delete _ | R_activity_delete _), GET => false
  | (R_logout | R_student_detail _ | R_api_behavior _), GET => true
  | (R_logout | R_student_detail _ | R_api_behavior _), POST => false
  end.

(** The [<int:...>] converter matches unsigned integers only. *)
Definition url_matches (r : route) : bool :=
  match r with
  | R_student_edit i | R_student_delete i | R_student_detail i
  | R_activity_edit i | R_activity_delete i | R_api_behavior i => 0 <=? i
  | _ => true
  end.

Definition view (e : env) (r : route) (req : request) : M response :=
  match r with
  | R_register => register e req
  | R_login => login req
  | R_logout => logout
  | R_student_new => student_new req
  | R_student_edit sid => student_edit sid req
  | R_student_delete sid => student_delete sid
  | R_student_detail sid => student_detail sid
  | R_activity_new => activity_new req
  | R_activity_edit aid => activity_edit aid req
  | R_activity_delete aid => activity_delete aid
  | R_api_behavior sid => api_behavior sid req
  end.

(** What the client and the next request see of one request. *)
Record outcome : Type := Outcome
  { resp : response;
    flashed : list (string * string);
    db_after : database;
    login_after : option Z }.

(** One request: the view runs on a fresh session over the database; what
    was committed stays, what was not is rolled back when the session is
    removed at the end of the request. *)
Definition serve (e : env) (d : database) (who : option Z) (r : route)
    (req : request) : outcome :=
  if negb (url_matches r) then Outcome NotFound [] d who
  else if negb (allows r (method req)) then Outcome MethodNotAllowed [] d who
  else
    match view e r req (World d d who []) with
    | (inr rsp, w) => Outcome rsp (flashes w) (store w) (login_id w)
    | (inl Abort404, w) => Outcome NotFound (flashes w) (store w) (login_id w)
    | (inl (Uncaught x), w) =>
        Outcome (InternalServerError x) (flashes w) (store w) (login_id w)
    end.

(* ------------------------------------------------------------------ *)
(** * Vocabulary of the specification *)
(* ------------------------------------------------------------------ *)

(** The rows of [l] that fall into the bucket of key [k]. *)
Definition bucket_rows (period k : string) (l : list BehaviorLog.t)
  : list BehaviorLog.t :=
  filter (fun r => bucket_key period (BehaviorLog.log_date r) = k) l.

(** The sum of one score over a list of rows. *)
Definition total (score : BehaviorLog.t -> Z) (l : list BehaviorLog.t) : Z :=
  foldr Z.add 0 (score <$> l).

(** The mean of one score over the rows of bucket [k], as the code rounds
    it: the exact sum divided by the number of rows, to 2 decimals. *)
Definition bucket_mean (score : BehaviorLog.t -> Z) (period k : string)
    (l : list BehaviorLog.t) : Py.result Py.float :=
  average (total score (bucket_rows period k l))
    (Z.of_nat (length (bucket_rows period k l))).

(** An INTEGER column of SQLite holds a signed 64-bit value. *)
Definition sqlite_integer (z : Z) : Prop := - 2 ^ 63 <= z < 2 ^ 63.

#[global] Instance sqlite_integer_dec (z : Z) : Decision (sqlite_integer z).
Proof. unfold sqlite_integer. apply _. Defined.

(** The four integers of a behaviour log fit SQLite's INTEGER. *)
Definition log_ints_ok (l : BehaviorLog.t) : Prop :=
  sqlite_integer (BehaviorLog.student_id l)
  /\ sqlite_integer (BehaviorLog.mood l)
  /\ sqlite_integer (BehaviorLog.focus l)
  /\ sqlite_integer (BehaviorLog.social l).

#[global] Instance log_ints_ok_dec (l : BehaviorLog.t)
  : Decision (log_ints_ok l).
Proof. unfold log_ints_ok. apply _. Defined.

(** Every stored behaviour log is one SQLite can hold: an invariant of the
    table, whose columns are INTEGER. *)
Definition logs_in_range (d : database) : Prop :=
  map_Forall (fun _ r => log_ints_ok r) (tbl_behavior_log d).




(** The student has no row in the behaviour-log table. *)
Definition no_logs (d : database) (sid : Z) : Prop :=
  map_Forall (fun _ r => BehaviorLog.student_id r <> sid)
    (tbl_behavior_log d).


(** The request comes with the session of an existing user. *)
Definition logged_in (d : database) (who : option Z) : Prop :=
  exists uid u, who = Some uid /\ tbl_user d !! uid = Some u.

Definition empty_chart : Chart.t := Chart.mk [] [] [] [].

(** The submitted [full_name] is blank or the submitted age is outside
    6..12. *)
Definition student_invalid (full_name : string) (age : Z) : Prop :=
  full_name = "" \/ age < 6 \/ 12 < age.

(** The flashed (category, message) pairs of the student and activity
    forms. *)
Definition flash_student_invalid : string * string :=
  ("danger", "กรอกชื่อและอายุ 6-12 ปีให้ถูกต้อง").
Definition flash_student_saved : string * string :=
  ("success", "บันทึกข้อมูลนักเรียนแล้ว").
Definition flash_student_edited : string * string :=
  ("success", "แก้ไขข้อมูลแล้ว").
Definition flash_student_deleted : string * string :=
  ("info", "ลบข้อมูลนักเรียนแล้ว").
Definition flash_activity_invalid : string * string :=
  ("danger", "กรอกชื่อกิจกรรม").
Definition flash_activity_edited : string * string :=
  ("success", "แก้กิจกรรมแล้ว").
Definition flash_bad_credentials : string * string :=
  ("danger", "อีเมลหรือรหัสผ่านไม่ถูกต้อง").
Definition flash_register_incomplete : string * string :=
  ("danger", "กรอกข้อมูลให้ครบ").
Definition flash_register_taken : string * string :=
  ("warning", "อีเมลนี้ถูกใช้แล้ว").
Definition flash_register_done : string * string :=
  ("success", "สมัครสมาชิกสำเร็จ, กรุณาเข้าสู่ระบบ").

(** Every stored e-mail address is in lower case. *)
Definition emails_normalized (d : database) : Prop :=
  map_Forall (fun _ u => Py.lower (User.email u) = User.email u) (tbl_user d).

(** Some user's address equals [email] up to letter case. *)
Definition email_taken (d : database) (email : string) : Prop :=
  exists id u, tbl_user d !! id = Some u
               /\ Py.lower (User.email u) = Py.lower email.

(** The login attempt of [req] finds a user and the password matches. *)
Definition credentials_ok (d : database) (req : request) : Prop :=
  exists uid u,
    user_by_email d (Py.lower (Py.strip (form_get req "email" "")))
      = Some (uid, u)
    /\ User.check_password u (form_get req "password" "") = true.

(** ** Sample data *)

(** Student 1 with two logs on 2024-01-01 (moods 4 and 2); student 2 with
    three logs in January 2024 and one in February; one registered
    teacher; one activity. *)
Definition sample_user : User.t :=
  User.mk "Kru Mali" "mali@kidanta.local" (Hash "s1" "secret") "teacher".

Definition sample_db : database :=
  Database
    (<[1 := sample_user]> ∅)
    (<[1 := Student.mk "Ploy" 8 "F" "" (Some 1)]>
       (<[2 := Student.mk "Ton" 10 "M" "" (Some 1)]> ∅))
    (<[1 := Activity.mk "Reading" "picture books" "language" 6 8 (Some 1)]> ∅)
    (<[1 := BehaviorLog.mk 1 (Py.Date 2024 1 1) 4 3 5 ""]>
       (<[2 := BehaviorLog.mk 1 (Py.Date 2024 1 1) 2 4 4 ""]>
          (<[3 := BehaviorLog.mk 2 (Py.Date 2024 1 15) 5 5 2 ""]>
             (<[4 := BehaviorLog.mk 2 (Py.Date 2024 2 10) 1 1 1 ""]>
                (<[5 := BehaviorLog.mk 2 (Py.Date 2024 1 20) 3 4 3 ""]>
                   (<[6 := BehaviorLog.mk 2 (Py.Date 2024 1 9) 3 4 3 ""]>
                      ∅))))))
    ∅.

Definition sample_env : env := Env (Py.Date 2024 3 1) "s2".

Definition post (fields : list (string * string)) : request :=
  Request POST (list_to_map fields) ∅.

Definition get (query : list (string * string)) : request :=
  Request GET ∅ (list_to_map query).

(** The binary64 numbers nearest to some two-decimal values. *)
Definition f_1_0 : Py.float := Py.Float false 4503599627370496 (-52).
Definition f_3_0 : Py.float := Py.Float false 6755399441055744 (-51).
Definition f_3_5 : Py.float := Py.Float false 7881299347898368 (-51).
Definition f_4_5 : Py.float := Py.Float false 5066549580791808 (-50).
Definition f_3_67 : Py.float := Py.Float false 8264105316224860 (-51).
Definition f_4_33 : Py.float := Py.Float false 4875146596628562 (-50).
Definition f_2_67 : Py.float := Py.Float false 6012305502539612 (-51).

(* ------------------------------------------------------------------ *)
(** * Further vocabulary *)
(* ------------------------------------------------------------------ *)

(** The request carries no session, or the session of a user that is not
    in the table. *)
Definition anonymous (d : database) (who : option Z) : Prop :=
  match who with
  | None => True
  | Some uid => tbl_user d !! uid = None
  end.

(** What Flask-Login flashes when it refuses a request. *)
Definition flash_login_required : string * string :=
  ("message", "Please log in to access this page.").

Definition flash_activity_added : string * string :=
  ("success", "เพิ่มกิจกรรมแล้ว").
Definition flash_activity_deleted : string * string :=
  ("info", "ลบกิจกรรมแล้ว").

(** The database [initdb] leaves behind. *)
Definition after_initdb (e : env) (d : database) : database :=
  store (initdb e (World d d None [])).2.

(** Newest first, on a date column. *)
Definition newest_first {A} (col : A -> Py.date) (x y : A) : Prop :=
  Is_true (date_leb (col y) (col x)).

(** The seeded administrator of [initdb]. *)
Definition admin_user (e : env) : User.t :=
  User.mk "Admin" "admin@kidanta.local"
    (generate_password_hash (fresh_salt e) "admin123") "admin".

(** A table after [db.session.add] of each row of a list, in turn. *)
Definition add_all {A} (m : gmap Z A) (l : list A) : gmap Z A :=
  foldl (fun m a => <[next_id m := a]> m) m l.

(* ------------------------------------------------------------------ *)
(** * The remaining views: listings, dashboard, logs, print *)
(* ------------------------------------------------------------------ *)

(** ** [datetime.strptime(s, "%Y-%m-%d").date()] *)

Module PyDate.

Definition is_leap (y : Z) : bool :=
  (y mod 4 =? 0) && (negb (y mod 100 =? 0) || (y mod 400 =? 0)).

Definition days_in_month (y m : Z) : Z :=
  if m =? 2 then (if is_leap y then 29 else 28)
  else if (m =? 4) || (m =? 6) || (m =? 9) || (m =? 11) then 30
  else 31.

(** A date of the calendar [datetime.date] accepts. *)
Definition valid (d : Py.date) : Prop :=
  1 <= Py.year d <= 9999 /\ 1 <= Py.month d <= 12
  /\ 1 <= Py.day d <= days_in_month (Py.year d) (Py.month d).

(** [date(y, m, d)]: ValueError outside the calendar. *)
Definition make_date (y m d : Z) : Py.result Py.date :=
  if (1 <=? y) && (y <=? 9999) && (1 <=? m) && (m <=? 12)
     && (1 <=? d) && (d <=? days_in_month y m)
  then Py.Ok (Py.Date y m d)
  else Py.Raise Py.ValueError.

(** The directive [%Y] is the pattern [\d\d\d\d]. *)
Definition match_year (s : string) : option (Z * string) :=
  match s with
  | String a (String b (String c (String d rest))) =>
      match Py.digit_val a, Py.digit_val b, Py.digit_val c, Py.digit_val d with
      | Some a, Some b, Some c, Some d =>
          Some (1000 * a + 100 * b + 10 * c + d, rest)
      | _, _, _, _ => None
      end
  | _ => None
  end.

(** One digit within [lo..hi] at the head of [s]. *)
Definition digit_in (lo hi : Z) (s : string) : option (Z * string) :=
  match s with
  | String c rest =>
      match Py.digit_val c with
      | Some v => if (lo <=? v) && (v <=? hi) then Some (v, rest) else None
      | None => None
      end
  | EmptyString => None
  end.

(** Two digits, the first within [lo1..hi1] and the second within
    [lo2..hi2]. *)
Definition two_digits (lo1 hi1 lo2 hi2 : Z) (s : string)
  : option (Z * string) :=
  match digit_in lo1 hi1 s with
  | Some (a, rest) =>
      match digit_in lo2 hi2 rest with
      | Some (b, rest') => Some (10 * a + b, rest')
      | None => None
      end
  | None => None
  end.

(** The ways [s] can start with a match of an alternation, in the order
    the alternatives are tried. *)
Definition alternatives (alts : list (string -> option (Z * string)))
    (s : string) : list (Z * string) :=
  omap (fun alt => alt s) alts.

(** [%m] is [1[0-2]|0[1-9]|[1-9]]. *)
Definition match_month : string -> list (Z * string) :=
  alternatives [two_digits 1 1 0 2; two_digits 0 0 1 9; digit_in 1 9].

(** [%d] is [3[0-1]|[1-2]\d|0[1-9]|[1-9]| [1-9]]. *)
Definition match_day : string -> list (Z * string) :=
  alternatives
    [two_digits 3 3 0 1; two_digits 1 2 0 9; two_digits 0 0 1 9; digit_in 1 9;
     fun s => match s with
              | String " " rest => digit_in 1 9 rest
              | _ => None
              end].

(** A literal character of the format. *)
Definition match_char (c : ascii) (s : string) : option string :=
  match s with
  | String c' rest => if (c' =? c)%char then Some rest else None
  | EmptyString => None
  end.

(** [re.match] of the pattern for ["%Y-%m-%d"]: the first way, in
    backtracking order, in which a prefix of [s] matches; the fields and
    what is left of [s]. *)
Definition regex_match (s : string) : option (Z * Z * Z * string) :=
  match match_year s with
  | Some (y, r1) =>
      match match_char "-" r1 with
      | Some r2 =>
          head
            (mbind (M := list)
               (fun '(m, r3) =>
                  match match_char "-" r3 with
                  | Some r4 => (fun '(d, r5) => (y, m, d, r5)) <$> match_day r4
                  | None => []
                  end)
               (match_month r2))
      | None => None
      end
  | None => None
  end.

(** ValueError when the string does not match, when unconverted data
    remains after the match, or when the fields are not a date. *)
Definition strptime_ymd (s : string) : Py.result Py.date :=
  match regex_match s with
  | Some (y, m, d, rest) =>
      if Py.is_empty rest then make_date y m d else Py.Raise Py.ValueError
  | None => Py.Raise Py.ValueError
  end.

End PyDate.

(** ** [str.isdigit] *)

(** Digits among the code points below 256: the decimal digits and the
    superscripts two, three and one. *)
Definition isdigit_char (c : ascii) : bool :=
  let n := Py.code c in
  ((48 <=? n) && (n <=? 57)) || (n =? 178) || (n =? 179) || (n =? 185).

Fixpoint all_digits (s : string) : bool :=
  match s with
  | EmptyString => true
  | String c s' => isdigit_char c && all_digits s'
  end.

(** [s.isdigit()]: every character is a digit and there is at least one. *)
Definition isdigit (s : string) : bool := negb (Py.is_empty s) && all_digits s.

(** ** Pages, responses and the guard of the remaining views *)

Inductive view_page : Type :=
| DashboardHtml (student_count activity_count todays_logs : nat)
| StudentsHtml (rows : list (Z * Student.t)) (q : string)
| ActivitiesHtml (rows : list (Z * Activity.t)) (age : string)
| ReportsHtml (students : list (Z * Student.t))
| PrintStudentHtml (s : Student.t) (logs : list BehaviorLog.t)
    (acts : list ActivityLog.t).

(** The responses of the remaining views: those of the first group, the
    pages above, and the 500 of an uncaught TypeError, which [int(None)]
    raises. *)
Inductive full_response : Type :=
| Basic (r : response)
| RenderView (p : view_page)
| InternalServerErrorTypeError.

(** [@login_required] on a view of this group. *)
Definition login_required_view (h : Z -> M full_response) : M full_response :=
  cu ← current_user;
  match cu with
  | Some (uid, _) => h uid
  | None =>
      flash "Please log in to access this page." "message";;
      mret (Basic (Redirect EpLogin))
  end.

(** [db.session.add(log)] on the two log tables. *)
Definition add_behavior_log (l : BehaviorLog.t) : M unit :=
  d ← get_db;
  put_db
    (Database (tbl_user d) (tbl_student d) (tbl_activity d)
       (<[next_id (tbl_behavior_log d) := l]> (tbl_behavior_log d))
       (tbl_activity_log d)).
Definition add_activity_log (l : ActivityLog.t) : M unit :=
  d ← get_db;
  put_db
    (Database (tbl_user d) (tbl_student d) (tbl_activity d)
       (tbl_behavior_log d)
       (<[next_id (tbl_activity_log d) := l]> (tbl_activity_log d))).

(** [datetime.strptime(v, "%Y-%m-%d").date() if v else date.today()] for
    [v = request.form.get(field)]. *)
Definition date_field (e : env) (req : request) (field : string)
  : M Py.date :=
  match form req !! field with
  | Some v =>
      if Py.is_empty v then mret (today e) else lift (PyDate.strptime_ymd v)
  | None => mret (today e)
  end.

(** ** Core pages *)

#[global] Instance date_eq_dec : EqDecision Py.date.
Proof. solve_decision. Defined.

Definition dashboard (e : env) : M full_response :=
  login_required_view (fun _ =>
    d ← get_db;
    let student_count := size (tbl_student d) in
    let activity_count := size (tbl_activity d) in
    let today := today e in
    let todays_logs :=
      length (filter (fun r => BehaviorLog.log_date r = today)
                (rows (tbl_behavior_log d)).*2) in
    mret (RenderView (DashboardHtml student_count activity_count todays_logs))).

Definition students (req : request) : M full_response :=
  login_required_view (fun _ =>
    let q := Py.strip (args_get req "q" "") in
    d ← get_db;
    let query := rows (tbl_student d) in
    let query :=
      if Py.is_empty q then query
      else filter (fun r => Is_true (Sql.ilike (Student.full_name r.2)
                                       ("%" +:+ q +:+ "%"))) query in
    let rows := Sql.order_by_asc (fun r => Student.full_name r.2) query in
    mret (RenderView (StudentsHtml rows q))).

Definition activities (req : request) : M full_response :=
  login_required_view (fun _ =>
    let age := args_get req "age" "" in
    d ← get_db;
    let query := rows (tbl_activity d) in
    query ← (if isdigit age then
               a ← lift (Py.int_of_str age);
               if Sql.int_ok a then
                 mret (filter (fun r => Activity.age_min r.2 <= a
                                        /\ Activity.age_max r.2 >= a) query)
               else abort_with (Uncaught Py.OverflowError)
             else mret query);
    let rows := Sql.order_by_asc (fun r => Activity.title r.2) query in
    mret (RenderView (ActivitiesHtml rows age))).

(** ** Logs *)

Definition behavior_new (e : env) (req : request) : M full_response :=
  login_required_view (fun _ =>
    match form req !! "student_id" with
    | None => mret InternalServerErrorTypeError
    | Some v =>
        sid ← lift (Py.int_of_str v);
        log_date ← date_field e req "log_date";
        mood ← lift (Py.int_or (form_get req "mood" "3") 3);
        focus ← lift (Py.int_or (form_get req "focus" "3") 3);
        social ← lift (Py.int_or (form_get req "social" "3") 3);
        let log := BehaviorLog.mk sid log_date mood focus social
                     (form_get req "notes" "") in
        add_behavior_log log;;
        commit_ints [sid; mood; focus; social];;
        flash "บันทึกพฤติกรรมแล้ว" "success";;
        mret (Basic (Redirect (EpStudentDetail sid)))
    end).

Definition activitylog_new (e : env) (req : request) : M full_response :=
  login_required_view (fun _ =>
    match form req !! "student_id" with
    | None => mret InternalServerErrorTypeError
    | Some v =>
        sid ← lift (Py.int_of_str v);
        match form req !! "activity_id" with
        | None => mret InternalServerErrorTypeError
        | Some v' =>
            aid ← lift (Py.int_of_str v');
            done_at ← date_field e req "done_at";
            let log := ActivityLog.mk sid aid done_at
                         (form_get req "remark" "") in
            add_activity_log log;;
            commit_ints [sid; aid];;
            flash "บันทึกการทำกิจกรรมแล้ว" "success";;
            mret (Basic (Redirect (EpStudentDetail sid)))
        end
    end).

(** ** Reports and the printable profile *)

Definition reports : M full_response :=
  login_required_view (fun _ =>
    d ← get_db;
    let students :=
      Sql.order_by_asc (fun r => Student.full_name r.2) (rows (tbl_student d)) in
    mret (RenderView (ReportsHtml students))).

Definition print_student (sid : Z) : M full_response :=
  login_required_view (fun _ =>
    s ← get_or_404 tbl_student sid;
    d ← get_db;
    let logs :=
      take 30 (order_by_desc BehaviorLog.log_date
                 (filter (fun r => BehaviorLog.student_id r = sid)
                    (rows (tbl_behavior_log d)).*2)) in
    let acts :=
      take 30 (order_by_desc ActivityLog.done_at
                 (filter (fun r => ActivityLog.student_id r = sid)
                    (rows (tbl_activity_log d)).*2)) in
    mret (RenderView (PrintStudentHtml s logs acts))).

(** ** Routing and the request cycle of these views *)

Inductive view_route : Type :=
| R_dashboard
| R_students
| R_activities
| R_behavior_new
| R_activitylog_new
| R_reports
| R_print_student (sid : Z).

Definition view_allows (r : view_route) (m : http_method) : bool :=
  match r, m with
  | (R_behavior_new | R_activitylog_new), POST => true
  | (R_behavior_new | R_activitylog_new), GET => false
  | _, GET => true
  | _, POST => false
  end.

Definition view_url_matches (r : view_route) : bool :=
  match r with
  | R_print_student i => 0 <=? i
  | _ => true
  end.

Definition view_of (e : env) (r : view_route) (req : request)
  : M full_response :=
  match r with
  | R_dashboard => dashboard e
  | R_students => students req
  | R_activities => activities req
  | R_behavior_new => behavior_new e req
  | R_activitylog_new => activitylog_new e req
  | R_reports => reports
  | R_print_student sid => print_student sid
  end.

Record view_outcome : Type := ViewOutcome
  { v_resp : full_response;
    v_flashed : list (string * string);
    v_db_after : database;
    v_login_after : option Z }.

(** One request to a view of this group, as [serve] for the first. *)
Definition serve_view (e : env) (d : database) (who : option Z)
    (r : view_route) (req : request) : view_outcome :=
  if negb (view_url_matches r) then ViewOutcome (Basic NotFound) [] d who
  else if negb (view_allows r (method req)) then
    ViewOutcome (Basic MethodNotAllowed) [] d who
  else
    match view_of e r req (World d d who []) with
    | (inr rsp, w) => ViewOutcome rsp (flashes w) (store w) (login_id w)
    | (inl Abort404, w) =>
        ViewOutcome (Basic NotFound) (flashes w) (store w) (login_id w)
    | (inl (Uncaught x), w) =>
        ViewOutcome (Basic (InternalServerError x)) (flashes w) (store w)
          (login_id w)
    end.

Definition flash_behavior_saved : string * string :=
  ("success", "บันทึกพฤติกรรมแล้ว").
Definition flash_activitylog_saved : string * string :=
  ("success", "บันทึกการทำกิจกรรมแล้ว").

(** ** Vocabulary for the log views *)

(** The date a log gets: the field read with [strptime], or today when the
    field is absent or empty. *)
Definition submitted_date (e : env) (req : request) (field : string)
  : Py.result Py.date :=
  match form req !! field with
  | Some v => if Py.is_empty v then Py.Ok (today e) else PyDate.strptime_ymd v
  | None => Py.Ok (today e)
  end.

Definition with_behavior_logs (d : database) (m : gmap Z BehaviorLog.t)
  : database :=
  Database (tbl_user d) (tbl_student d) (tbl_activity d) m
    (tbl_activity_log d).
Definition with_activity_logs (d : database) (m : gmap Z ActivityLog.t)
  : database :=
  Database (tbl_user d) (tbl_student d) (tbl_activity d)
    (tbl_behavior_log d) m.

(** Every behaviour log carries a date of the calendar. *)
Definition dates_valid (d : database) : Prop :=
  map_Forall (fun _ r => PyDate.valid (BehaviorLog.log_date r))
    (tbl_behavior_log d).

(** ** Vocabulary for the listings *)

(** No character of [q] is one of the wildcards of LIKE. *)
Fixpoint no_wildcards (q : string) : bool :=
  match q with
  | EmptyString => true
  | String c q' =>
      negb (c =? "%")%char && negb (c =? "_")%char && no_wildcards q'
  end.

(** [x] has a piece that is [q] up to the case of the letters A..Z. *)
Definition contains_nocase (x q : string) : Prop :=
  exists pre mid post,
    x = pre +:+ mid +:+ post /\ Sql.lower mid = Sql.lower q.

(** [x] ends with [q] up to the case of the letters A..Z. *)
Definition ends_nocase (x q : string) : Prop :=
  exists pre post, x = pre +:+ post /\ Sql.lower post = Sql.lower q.

(** Ascending by a text column. *)
Definition ascending {A} (col : A -> string) (x y : A) : Prop :=
  Py.str_le (col x) (col y).

(** Every character of [s] is one of 0..9. *)
Fixpoint ascii_digits (s : string) : bool :=
  match s with
  | EmptyString => true
  | String c s' =>
      (48 <=? Py.code c) && (Py.code c <=? 57) && ascii_digits s'
  end.

(** The activities within whose age range [a] lies. *)
Definition suits_age (a : Z) (x : Activity.t) : Prop :=
  Activity.age_min x <= a <= Activity.age_max x.

(** No two accounts have the same address up to letter case. *)
Definition emails_distinct (d : database) : Prop :=
  forall i j u v,
    tbl_user d !! i = Some u -> tbl_user d !! j = Some v ->
    Py.lower (User.email u) = Py.lower (User.email v) -> i = j.

(* PROPERTIES *)

(* ------------------------------------------------------------------ *)
(** * Properties *)
(* ------------------------------------------------------------------ *)

(** ** The order [sorted] uses *)

Section StringOrder.

Lemma ascii_compare_lt_trans a b c :
  Ascii.compare a b = Lt -> Ascii.compare b c = Lt -> Ascii.compare a c = Lt.
Proof.
  unfold Ascii.compare. rewrite !N.compare_lt_iff. lia.
Qed.

Lemma string_compare_refl s : String.compare s s = Eq.
Proof.
  induction s as [|c s IH]; simpl; [done|].
  unfold Ascii.compare. by rewrite N.compare_refl.
Qed.

Lemma string_compare_lt_trans s1 :
  forall s2 s3,
    String.compare s1 s2 = Lt -> String.compare s2 s3 = Lt ->
    String.compare s1 s3 = Lt.
Proof.
  induction s1 as [|c1 s1 IH]; intros [|c2 s2] [|c3 s3]; simpl; try done.
  destruct (Ascii.compare c1 c2) eqn:E12; try done;
    destruct (Ascii.compare c2 c3) eqn:E23; try done; intros H12 H23.
  - apply Ascii.compare_eq_iff in E12, E23. subst.
    unfold Ascii.compare at 1. rewrite N.compare_refl. eauto.
  - apply Ascii.compare_eq_iff in E12. subst. by rewrite E23.
  - apply Ascii.compare_eq_iff in E23. subst. by rewrite E12.
  - by rewrite (ascii_compare_lt_trans _ _ _ E12 E23).
Qed.

Lemma str_le_iff a b : Py.str_le a b <-> Py.str_lt a b \/ a = b.
Proof.
  unfold Py.str_le, Py.str_lt, String.leb, String.ltb.
  destruct (String.compare a b) eqn:E; simpl.
  - apply String.compare_eq_iff in E. tauto.
  - tauto.
  - split; [done|]. intros [[]| ->]. by rewrite string_compare_refl in E.
Qed.

Lemma str_lt_irrefl a : ~ Py.str_lt a a.
Proof.
  unfold Py.str_lt, String.ltb. rewrite string_compare_refl. simpl. tauto.
Qed.

Lemma str_lt_trans : Transitive Py.str_lt.
Proof.
  intros a b c. unfold Py.str_lt, String.ltb.
  destruct (String.compare a b) eqn:E1; try done.
  destruct (String.compare b c) eqn:E2; try done.
  by rewrite (string_compare_lt_trans _ _ _ E1 E2).
Qed.
#[local] Existing Instance str_lt_trans.

Lemma str_le_trans : Transitive Py.str_le.
Proof.
  intros a b c. rewrite !str_le_iff.
  intros [H1| ->] [H2| ->]; eauto. left. by etrans.
Qed.
#[local] Existing Instance str_le_trans.

Lemma str_le_total : Total Py.str_le.
Proof.
  intros a b. unfold Py.str_le.
  destruct (String.leb_total a b) as [-> | ->]; simpl; auto.
Qed.
#[local] Existing Instance str_le_total.

Lemma str_le_antisym : AntiSymm (=) Py.str_le.
Proof.
  intros a b Hab Hba. apply String.leb_antisym; by apply Is_true_true.
Qed.
#[local] Existing Instance str_le_antisym.

(** A list without duplicates that is in order is in strict order. *)
Lemma sorted_strict (l : list string) :
  NoDup l -> StronglySorted Py.str_le l -> StronglySorted Py.str_lt l.
Proof.
  induction 2 as [|x l Hs IH Hx]; constructor.
  - apply IH. by eapply NoDup_cons_1_2.
  - apply NoDup_cons in H as [Hnin _].
    rewrite Forall_forall in Hx |- *. intros y Hy.
    destruct (proj1 (str_le_iff x y) (Hx y Hy)) as [?| ->]; done.
Qed.

(** [sorted] depends on the elements only, not on their order. *)
Lemma sorted_permutation (l1 l2 : list string) :
  l1 ≡ₚ l2 -> Py.sorted l1 = Py.sorted l2.
Proof.
  intros Hp. unfold Py.sorted.
  apply (Sorted_unique Py.str_le); try apply Sorted_merge_sort; try apply _.
  by rewrite !merge_sort_Permutation.
Qed.

End StringOrder.

#[global] Existing Instances str_lt_trans str_le_trans str_le_total
  str_le_antisym.

(** ** The exception monad of the built-ins *)

Lemma mapM_Ok_Forall2 {A B} (f : A -> Py.result B) (l : list A) (ys : list B) :
  Py.mapM f l = Py.Ok ys <-> Forall2 (fun x y => f x = Py.Ok y) l ys.
Proof.
  revert ys. induction l as [|x l IH]; intros ys; simpl.
  - split.
    + intros [= <-]. constructor.
    + by inversion 1.
  - destruct (f x) as [y|e] eqn:Hx; simpl.
    + destruct (Py.mapM f l) as [ys'|e] eqn:Hl; simpl.
      * split.
        -- intros [= <-]. constructor; [done|]. by apply IH.
        -- inversion 1 as [|? y' ? ys'' Hy Hys]; subst.
           apply IH in Hys. congruence.
      * split; [done|]. inversion 1 as [|? y' ? ys'' Hy Hys]; subst.
        by apply IH in Hys.
    + split; [done|]. inversion 1; congruence.
Qed.

Lemma mapM_total {A B} (f : A -> Py.result B) (l : list A) :
  Forall (fun x => exists y, f x = Py.Ok y) l ->
  exists ys, Py.mapM f l = Py.Ok ys.
Proof.
  induction 1 as [|x l [y Hy] _ [ys Hys]]; simpl; [by eexists|].
  rewrite Hy, Hys. by eexists.
Qed.

Lemma mapM_Raise_elem {A B} (f : A -> Py.result B) (l : list A) (e : Py.exn) :
  Py.mapM f l = Py.Raise e -> exists x, x ∈ l /\ f x = Py.Raise e.
Proof.
  induction l as [|x l IH]; simpl; [done|].
  destruct (f x) as [y|e'] eqn:Hx; simpl.
  - destruct (Py.mapM f l) as [ys|e'']; simpl; [done|].
    intros [= ->]. destruct IH as (x' & ? & ?); [done|].
    exists x'. split; [by right|done].
  - intros [= ->]. exists x. split; [by left|done].
Qed.

(** ** Aggregation: what the loop leaves in [buckets] *)

Section Buckets.
Variable period : string.

Lemma total_app score l1 l2 :
  total score (l1 ++ l2) = total score l1 + total score l2.
Proof.
  unfold total. rewrite fmap_app, foldr_app.
  induction (score <$> l1) as [|x xs IH]; simpl; lia.
Qed.

Lemma total_snoc score l x :
  total score (l ++ [x]) = total score l + score x.
Proof. rewrite total_app. unfold total at 2. simpl. lia. Qed.

Lemma bucket_rows_snoc k l x :
  bucket_rows period k (l ++ [x]) =
    bucket_rows period k l ++
      (if decide (bucket_key period (BehaviorLog.log_date x) = k)
       then [x] else []).
Proof.
  unfold bucket_rows. by rewrite filter_app.
Qed.

(** After the loop, a key is present exactly when some row has it, and
    then its bucket holds the three sums and the number of those rows. *)
Lemma buckets_lookup l k :
  foldl (add_row period) ∅ l !! k =
    if decide (bucket_rows period k l = []) then None
    else Some (Bucket.mk (total BehaviorLog.mood (bucket_rows period k l))
                 (total BehaviorLog.focus (bucket_rows period k l))
                 (total BehaviorLog.social (bucket_rows period k l))
                 (Z.of_nat (length (bucket_rows period k l)))).
Proof.
  induction l as [|x l IH] using rev_ind; [done|].
  rewrite foldl_snoc, bucket_rows_snoc. unfold add_row at 1.
  set (kx := bucket_key period (BehaviorLog.log_date x)).
  destruct (decide (kx = k)) as [->|Hne].
  - rewrite lookup_insert_eq. unfold bucket_at. rewrite IH.
    rewrite !total_snoc, length_app, Nat2Z.inj_add.
    rewrite (decide_False (P := _ ++ [x] = [])) by (by intros [_ ?]%app_eq_nil).
    destruct (decide (bucket_rows period k l = [])) as [->|Hl]; simpl; [|done].
    unfold total. simpl. done.
  - rewrite lookup_insert_ne by done. rewrite IH, app_nil_r. done.
Qed.

Lemma bucket_rows_nonempty l k :
  bucket_rows period k l <> [] <->
  exists r, r ∈ l /\ bucket_key period (BehaviorLog.log_date r) = k.
Proof.
  unfold bucket_rows. split.
  - destruct (filter _ l) as [|r rs] eqn:E; [done|]. intros _. exists r.
    assert (Hin : r ∈ filter
              (fun r => bucket_key period (BehaviorLog.log_date r) = k) l)
      by (rewrite E; left).
    apply list_elem_of_filter in Hin. tauto.
  - intros (r & Hr & Hk) Hnil.
    by apply (filter_nil_not_elem_of _ l r Hnil Hk).
Qed.

(** The keys of [buckets] are the keys of the rows. *)
Lemma buckets_keys l k :
  k ∈ (map_to_list (foldl (add_row period) ∅ l)).*1 <->
  exists r, r ∈ l /\ bucket_key period (BehaviorLog.log_date r) = k.
Proof.
  rewrite <- bucket_rows_nonempty, list_elem_of_fmap. split.
  - intros ([k' b] & -> & Hin). apply elem_of_map_to_list in Hin.
    simpl in *. rewrite buckets_lookup in Hin. by case_decide.
  - intros Hnn. pose proof (buckets_lookup l k) as Hl.
    rewrite decide_False in Hl by done.
    eexists (k, _). split; [done|]. by apply elem_of_map_to_list.
Qed.

(** A key of [buckets] reads back its bucket, whose count is positive. *)
Lemma bucket_at_key l k :
  bucket_rows period k l <> [] ->
  bucket_at (foldl (add_row period) ∅ l) k =
    Bucket.mk (total BehaviorLog.mood (bucket_rows period k l))
      (total BehaviorLog.focus (bucket_rows period k l))
      (total BehaviorLog.social (bucket_rows period k l))
      (Z.of_nat (length (bucket_rows period k l)))
  /\ 1 <= Z.of_nat (length (bucket_rows period k l)).
Proof.
  intros Hnn. unfold bucket_at. rewrite buckets_lookup.
  rewrite decide_False by done. split; [done|].
  destruct (bucket_rows period k l); [done|]. simpl. lia.
Qed.

(** The labels: sorted, without repetition, and exactly the keys of the
    rows. *)
Lemma labels_spec l :
  let labels :=
    Py.sorted (map_to_list (foldl (add_row period) ∅ l)).*1 in
  StronglySorted Py.str_lt labels
  /\ forall k, k ∈ labels <->
       exists r, r ∈ l /\ bucket_key period (BehaviorLog.log_date r) = k.
Proof.
  intros labels. subst labels. unfold Py.sorted. split.
  - apply sorted_strict.
    + rewrite merge_sort_Permutation. apply NoDup_fst_map_to_list.
    + apply StronglySorted_merge_sort; apply _.
  - intros k. rewrite merge_sort_Permutation. apply buckets_keys.
Qed.

Lemma total_permutation score l1 l2 :
  l1 ≡ₚ l2 -> total score l1 = total score l2.
Proof.
induction 1 as [|x l1 l2 _ IH|x y l|l1 l2 l3 _ IH1 _ IH2].
- done.
- change (score x + total score l1 = score x + total score l2). lia.
- change (score y + (score x + total score l) =
          score x + (score y + total score l)). lia.
- congruence.
Qed.

(** The query does not fix the order of the rows, and the loop does not
    depend on it: permuted rows leave the same [buckets]. *)
Lemma buckets_permutation l1 l2 :
  l1 ≡ₚ l2 -> foldl (add_row period) ∅ l1 = foldl (add_row period) ∅ l2.
Proof.
intros Hp. apply map_eq. intros k. rewrite !buckets_lookup.
assert (Hrows : bucket_rows period k l1 ≡ₚ bucket_rows period k l2)
  by (unfold bucket_rows; by rewrite Hp).
rewrite !(total_permutation _ _ _ Hrows), (Permutation_length Hrows).
destruct (decide (bucket_rows period k l1 = [])) as [E1|E1],
  (decide (bucket_rows period k l2 = [])) as [E2|E2]; try done.
- exfalso. rewrite E1 in Hrows. symmetry in Hrows.
  by apply Permutation_nil_r in Hrows.
- exfalso. rewrite E2 in Hrows. by apply Permutation_nil_r in Hrows.
Qed.

End Buckets.

(** ** Arithmetic of the binary64 model *)

Section FloatBounds.

Lemma rne_div_bounds a b N :
  0 <= a -> 0 < b -> a <= N * b -> 0 <= Py.rne_div a b <= N.
Proof.
  intros Ha Hb HN. unfold Py.rne_div.
  pose proof (Z.div_mod a b ltac:(lia)) as Hdm.
  pose proof (Z.mod_pos_bound a b Hb) as Hr.
  assert (0 <= a / b) by (apply Z.div_pos; lia).
  assert (a / b <= N) by (apply Z.div_le_upper_bound; lia).
  destruct (2 * (a mod b) <? b) eqn:E1; [lia|].
  apply Z.ltb_ge in E1.
  assert (a / b < N) by nia.
  destruct (b <? 2 * (a mod b)); [lia|].
  destruct (Z.even (a / b)); lia.
Qed.

Lemma ilog2_quot_le a b K :
  0 < a -> 0 < b -> 0 <= K -> a <= b * 2 ^ K -> Py.ilog2_quot a b <= K.
Proof.
  intros Ha Hb HK Hab.
  assert (Z.log2 a - Z.log2 b <= K).
  { destruct (Z.log2_spec a Ha) as [Hla _].
    destruct (Z.log2_spec b Hb) as [_ Hlb].
    pose proof (Z.log2_nonneg a). pose proof (Z.log2_nonneg b).
    assert (Hlt : 2 ^ Z.log2 a < 2 ^ (Z.succ (Z.log2 b) + K)).
    { rewrite Z.pow_add_r by lia.
      assert (0 < 2 ^ K) by (apply Z.pow_pos_nonneg; lia).
      apply Z.le_lt_trans with (b * 2 ^ K); [lia|].
      apply Z.mul_lt_mono_pos_r; lia. }
    apply Z.pow_lt_mono_r_iff in Hlt; lia. }
  unfold Py.ilog2_quot. destruct (Py.pow2_le _ _ _); lia.
Qed.

(** A quotient of magnitude at most [2^K], [K <= 1023], is within the
    binary64 range: it rounds to a number of magnitude at most [2^K]. *)
Lemma round_b64_ok neg a b K :
  0 <= a -> 0 < b -> 0 <= K <= 1023 -> a <= b * 2 ^ K ->
  exists x, Py.round_b64 neg a b = Py.Ok x
    /\ Py.fneg x = neg /\ 0 <= Py.fmant x /\ -1074 <= Py.fexp x
    /\ Py.fmant x * 2 ^ (Py.fexp x + 1074) <= 2 ^ (K + 1074).
Proof.
  intros Ha Hb HK Hab. unfold Py.round_b64.
  assert (Hpow : 0 < 2 ^ (K + 1074)) by (apply Z.pow_pos_nonneg; lia).
  destruct (a =? 0) eqn:Ea.
  { eexists. split; [done|]. simpl. repeat split; lia. }
  apply Z.eqb_neq in Ea.
  pose proof (ilog2_quot_le a b K ltac:(lia) Hb ltac:(lia) Hab) as HL.
  set (e := Z.max (Py.ilog2_quot a b - 52) (-1074)).
  assert (He : -1074 <= e /\ e <= K /\ (e <= K - 52 \/ e = -1074)) by lia.
  set (m := if 0 <=? e then Py.rne_div a (b * 2 ^ e)
            else Py.rne_div (a * 2 ^ (- e)) b).
  assert (Hm : 0 <= m <= 2 ^ (K - e)).
  { subst m. destruct (0 <=? e) eqn:E0.
    - apply Z.leb_le in E0.
      assert (0 < 2 ^ e) by (apply Z.pow_pos_nonneg; lia).
      apply rne_div_bounds; [lia|nia|].
      replace (2 ^ (K - e) * (b * 2 ^ e)) with (b * (2 ^ (K - e) * 2 ^ e))
        by ring.
      rewrite <- Z.pow_add_r by lia. by replace (K - e + e) with K by lia.
    - apply Z.leb_gt in E0.
      assert (0 < 2 ^ (- e)) by (apply Z.pow_pos_nonneg; lia).
      apply rne_div_bounds; [nia|lia|].
      replace (K - e) with (K + - e) by lia.
      rewrite Z.pow_add_r by lia. nia. }
  assert (Hscale : forall m' e', -1074 <= e' -> e' <= K ->
            0 <= m' <= 2 ^ (K - e') ->
            m' * 2 ^ (e' + 1074) <= 2 ^ (K + 1074)).
  { intros m' e' ? ? ?.
    replace (K + 1074) with ((K - e') + (e' + 1074)) by lia.
    rewrite (Z.pow_add_r 2 (K - e') (e' + 1074)) by lia.
    assert (0 < 2 ^ (e' + 1074)) by (apply Z.pow_pos_nonneg; lia).
    apply Z.mul_le_mono_nonneg_r; lia. }
  destruct (m =? 0) eqn:Em0.
  { eexists. split; [done|]. simpl. repeat split; lia. }
  destruct (m =? 2 ^ 53) eqn:Em.
  - apply Z.eqb_eq in Em.
    assert (e + 53 <= K).
    { rewrite Em in Hm. destruct Hm as [_ Hm].
      apply Z.pow_le_mono_r_iff in Hm; lia. }
    rewrite (proj2 (Z.ltb_ge 971 (e + 1))) by lia.
    eexists. split; [done|]. simpl. repeat split; try lia.
    apply Hscale; try lia. split; [lia|].
    apply Z.pow_le_mono_r; lia.
  - destruct (971 <? e) eqn:Eov.
    + apply Z.ltb_lt in Eov. exfalso. lia.
    + eexists. split; [done|]. simpl. repeat split; try lia.
      by apply Hscale; lia.
Qed.

Lemma round_b64_no_zero_division neg a b :
  Py.round_b64 neg a b <> Py.Raise Py.ZeroDivisionError.
Proof.
  unfold Py.round_b64. repeat (case_match; try done).
Qed.

(** [round(total / n, 2)] returns when the quotient is at most [2^63] in
    magnitude. *)
Lemma average_ok total n :
  0 < n -> Z.abs total <= n * 2 ^ 63 ->
  exists x, average total n = Py.Ok x.
Proof.
  intros Hn Hb. unfold average, Py.truediv.
  rewrite (proj2 (Z.eqb_neq n 0)) by lia.
  destruct (round_b64_ok (xorb (total <? 0) (n <? 0)) (Z.abs total)
              (Z.abs n) 63) as (x & -> & Hs & Hm & He & Hx); try lia.
  simpl. unfold Py.round.
  set (h := if 0 <=? Py.fexp x then _ else _).
  assert (Hh : 0 <= h <= 100 * 2 ^ 63).
  { subst h. change (10 ^ Z.of_nat 2) with 100.
    destruct (0 <=? Py.fexp x) eqn:E0.
    - apply Z.leb_le in E0.
      assert (0 < 2 ^ Py.fexp x) by (apply Z.pow_pos_nonneg; lia).
      rewrite !Z.pow_add_r in Hx by lia.
      assert (0 < 2 ^ 1074) by (apply Z.pow_pos_nonneg; lia).
      assert (Py.fmant x * 2 ^ Py.fexp x <= 2 ^ 63) by nia.
      nia.
    - apply Z.leb_gt in E0.
      assert (0 < 2 ^ (- Py.fexp x)) by (apply Z.pow_pos_nonneg; lia).
      apply rne_div_bounds; [lia|lia|].
      assert (Py.fmant x <= 2 ^ 63 * 2 ^ (- Py.fexp x)); [|nia].
      rewrite <- Z.pow_add_r by lia.
      assert (0 < 2 ^ (Py.fexp x + 1074)) by (apply Z.pow_pos_nonneg; lia).
      replace (63 + 1074) with ((63 + - Py.fexp x) + (Py.fexp x + 1074))
        in Hx by lia.
      rewrite (Z.pow_add_r 2 (63 + - Py.fexp x)) in Hx by lia. nia. }
  destruct (round_b64_ok (Py.fneg x) h (10 ^ Z.of_nat 2) 63)
    as (y & -> & _); try lia. by eexists.
Qed.

Lemma average_no_zero_division total n :
  n <> 0 -> average total n <> Py.Raise Py.ZeroDivisionError.
Proof.
  intros Hn. unfold average, Py.truediv.
  rewrite (proj2 (Z.eqb_neq n 0)) by done.
  destruct (Py.round_b64 _ _ _) as [x|e] eqn:E; simpl.
  - apply round_b64_no_zero_division.
  - intros [= ->]. by apply round_b64_no_zero_division in E.
Qed.








End FloatBounds.

(** ** Aggregation: from the table to the chart *)

Section Aggregate.
Variables (d : database) (sid : Z) (period : string).

Lemma behavior_logs_of_elem r :
  r ∈ behavior_logs_of d sid <->
  exists id, tbl_behavior_log d !! id = Some r
             /\ BehaviorLog.student_id r = sid.
Proof.
  unfold behavior_logs_of, rows.
  rewrite list_elem_of_filter, list_elem_of_fmap. split.
  - intros (Hs & [id r'] & -> & Hin%elem_of_map_to_list). by exists id.
  - intros (id & Hl & Hs). split; [done|].
    exists (id, r). split; [done|]. by apply elem_of_map_to_list.
Qed.

Lemma no_logs_nil : no_logs d sid <-> behavior_logs_of d sid = [].
Proof.
  split.
  - intros Hno. destruct (behavior_logs_of d sid) as [|r l] eqn:E; [done|].
    assert (Hr : r ∈ behavior_logs_of d sid) by (rewrite E; left).
    apply behavior_logs_of_elem in Hr as (id & Hl & Hs).
    by destruct (Hno id r Hl).
  - intros Hnil id r Hl Hs.
    assert (Hr : r ∈ behavior_logs_of d sid)
      by (apply behavior_logs_of_elem; eauto).
    rewrite Hnil in Hr. by apply elem_of_nil in Hr.
Qed.


Lemma mapM_ext {A B} (f g : A -> Py.result B) (l : list A) :
  (forall x, x ∈ l -> f x = g x) -> Py.mapM f l = Py.mapM g l.
Proof.
  induction l as [|x l IH]; intros Hfg; simpl; [done|].
  rewrite (Hfg x) by left. rewrite IH; [done|].
  intros y Hy. apply Hfg. by right.
Qed.

(** Each of the three comprehensions computes, for every label, the
    rounded mean over the rows of that label's bucket. *)
Lemma comprehension_means (score : BehaviorLog.t -> Z)
    (field : Bucket.t -> Z) :
  (forall rs, field
     (Bucket.mk (total BehaviorLog.mood rs) (total BehaviorLog.focus rs)
        (total BehaviorLog.social rs) (Z.of_nat (length rs)))
     = total score rs) ->
  let logs := behavior_logs_of d sid in
  let buckets := foldl (add_row period) ∅ logs in
  let labels := Py.sorted (map_to_list buckets).*1 in
  Py.mapM (fun k => average (field (bucket_at buckets k))
                      (Bucket.n (bucket_at buckets k))) labels
  = Py.mapM (fun k => bucket_mean score period k logs) labels.
Proof.
  intros Hfield. cbv zeta. apply mapM_ext. intros k Hk.
  apply (proj2 (labels_spec period _)) in Hk.
  apply bucket_rows_nonempty in Hk.
  destruct (bucket_at_key period _ k Hk) as [-> _].
  by rewrite Hfield.
Qed.

Lemma aggregate_unfold :
  let logs := behavior_logs_of d sid in
  let labels :=
    Py.sorted (map_to_list (foldl (add_row period) ∅ logs)).*1 in
  _aggregate_behavior d sid period =
    if Sql.int_ok sid then
      match Py.mapM (fun k => bucket_mean BehaviorLog.mood period k logs)
              labels,
            Py.mapM (fun k => bucket_mean BehaviorLog.focus period k logs)
              labels,
            Py.mapM (fun k => bucket_mean BehaviorLog.social period k logs)
              labels with
      | Py.Ok mood, Py.Ok focus, Py.Ok social =>
          Py.Ok (Chart.mk labels mood focus social)
      | Py.Raise e, _, _ => Py.Raise e
      | Py.Ok _, Py.Raise e, _ => Py.Raise e
      | Py.Ok _, Py.Ok _, Py.Raise e => Py.Raise e
      end
    else Py.Raise Py.OverflowError.
Proof.
  cbv zeta. unfold _aggregate_behavior, query_logs_of.
  destruct (Sql.int_ok sid); [|reflexivity].
  change (mbind ?f (Py.Ok ?x)) with (f x). cbv beta.
  rewrite (comprehension_means BehaviorLog.mood Bucket.mood) by done.
  rewrite (comprehension_means BehaviorLog.focus Bucket.focus) by done.
  rewrite (comprehension_means BehaviorLog.social Bucket.social) by done.
  unfold mbind, Py.result_bind, Py.bind, mret, Py.result_ret.
  repeat case_match; done.
Qed.

(** What a returned chart holds. *)
Lemma aggregate_Ok_inv c :
  _aggregate_behavior d sid period = Py.Ok c ->
  let logs := behavior_logs_of d sid in
  Chart.labels c
    = Py.sorted (map_to_list (foldl (add_row period) ∅ logs)).*1
  /\ Forall2 (fun k x => bucket_mean BehaviorLog.mood period k logs = Py.Ok x)
       (Chart.labels c) (Chart.mood c)
  /\ Forall2 (fun k x => bucket_mean BehaviorLog.focus period k logs = Py.Ok x)
       (Chart.labels c) (Chart.focus c)
  /\ Forall2 (fun k x => bucket_mean BehaviorLog.social period k logs = Py.Ok x)
       (Chart.labels c) (Chart.social c).
Proof.
  pose proof aggregate_unfold as Hun. cbv zeta in Hun |- *. rewrite Hun.
  destruct (Sql.int_ok sid); [|done].
  intros Hc. repeat case_match; try done. injection Hc as <-. simpl.
  repeat match goal with
         | H : Py.mapM _ _ = Py.Ok _ |- _ => apply mapM_Ok_Forall2 in H
         end.
  auto.
Qed.

Lemma total_abs_bound (score : BehaviorLog.t -> Z) rs :
  Forall (fun r => sqlite_integer (score r)) rs ->
  Z.abs (total score rs) <= Z.of_nat (length rs) * 2 ^ 63.
Proof.
  unfold sqlite_integer. induction 1 as [|r rs Hr _ IH]; [done|].
  change (total score (r :: rs)) with (score r + total score rs).
  change (length (r :: rs)) with (S (length rs)).
  rewrite Nat2Z.inj_succ, Z.mul_succ_l. lia.
Qed.

(** With 64-bit scores no mean leaves the binary64 range. *)
Lemma bucket_mean_ok (score : BehaviorLog.t -> Z) k :
  (forall r, r ∈ behavior_logs_of d sid -> sqlite_integer (score r)) ->
  bucket_rows period k (behavior_logs_of d sid) <> [] ->
  exists x, bucket_mean score period k (behavior_logs_of d sid) = Py.Ok x.
Proof.
  intros Hrange Hnn. unfold bucket_mean. apply average_ok.
  - destruct (bucket_rows _ _ _); [done|]. simpl length. lia.
  - apply total_abs_bound. apply Forall_forall. intros r Hr.
    apply Hrange. unfold bucket_rows in Hr.
    apply list_elem_of_filter in Hr. tauto.
Qed.

End Aggregate.

(** ** Running a handler *)

Section Handlers.

(** A logged-in request passes [@login_required]. *)
Lemma login_required_pass (h : Z -> M response) (w : world) uid u :
  login_id w = Some uid -> tbl_user (work w) !! uid = Some u ->
  login_required h w = h uid w.
Proof.
  intros Hid Hu. unfold login_required, mbind, M_bind, current_user.
  rewrite Hid, Hu. reflexivity.
Qed.

(** An anonymous request is redirected and changes nothing. *)
Lemma login_required_anonymous (h : Z -> M response) (w : world) :
  login_id w = None ->
  login_required h w =
    (inr (Redirect EpLogin),
     World (store w) (work w) (login_id w)
       (flashes w ++ [("message", "Please log in to access this page.")])).
Proof.
  intros Hid. destruct w; simpl in Hid; subst. reflexivity.
Qed.

Lemma zero_pad_length w n : String.length (Py.zero_pad w n) = w.
Proof.
  assert (Happ : forall s c,
             String.length (s +:+ String c EmptyString)
             = S (String.length s)).
  { induction s as [|a s IHs]; intros c; [done|].
    change (S (String.length (s +:+ String c EmptyString))
            = S (S (String.length s))).
    by rewrite IHs. }
  revert n. induction w as [|w IH]; intros n; [done|].
  change (Py.zero_pad (S w) n)
    with (Py.zero_pad w (n / 10) +:+ String (Py.digit_char n) EmptyString).
  by rewrite Happ, IH.
Qed.

Lemma append_empty_r s : s +:+ "" = s.
Proof.
  induction s as [|c s IH]; [done|].
  change (String c (s +:+ "") = String c s). by rewrite IH.
Qed.

Lemma foldl_pointwise {A B} (f g : A -> B -> A) (a : A) (l : list B) :
  (forall x y, f x y = g x y) -> foldl f a l = foldl g a l.
Proof.
  intros Hfg. revert a. induction l as [|y l IH]; intros a; simpl; [done|].
  by rewrite Hfg, IH.
Qed.

(** The aggregation depends on [period] through [bucket_key] only. *)
Lemma aggregate_key_ext d sid p1 p2 :
  (forall dt, bucket_key p1 dt = bucket_key p2 dt) ->
  _aggregate_behavior d sid p1 = _aggregate_behavior d sid p2.
Proof.
  intros Hk. unfold _aggregate_behavior.
  destruct (query_logs_of d sid) as [q|x]; [|reflexivity].
  change (mbind ?f (Py.Ok ?x)) with (f x). cbv beta.
  rewrite (foldl_pointwise (add_row p1) (add_row p2)); [done|].
  intros b r. unfold add_row. by rewrite Hk.
Qed.

(** The chart view reads the request only for its period selector. *)
Lemma api_behavior_period sid req1 req2 w :
  _aggregate_behavior (work w) sid (args_get req1 "period" "daily")
  = _aggregate_behavior (work w) sid (args_get req2 "period" "daily") ->
  api_behavior sid req1 w = api_behavior sid req2 w.
Proof.
  intros Heq. unfold api_behavior, login_required, mbind, M_bind.
  destruct (current_user w) as [[a|[[uid u]|]] w'] eqn:Hcu; try reflexivity.
  unfold current_user in Hcu. injection Hcu as _ <-.
  unfold get_db. by rewrite Heq.
Qed.

End Handlers.

(* ------------------------------------------------------------------ *)
(** * The claims of the specification *)
(* ------------------------------------------------------------------ *)

Lemma int_ok_spec (z : Z) : Sql.int_ok z = true <-> sqlite_integer z.
Proof.
unfold Sql.int_ok, sqlite_integer. rewrite andb_true_iff, Z.leb_le, Z.ltb_lt.
done.
Qed.

Lemma int_ok_false (z : Z) : Sql.int_ok z = false <-> ~ sqlite_integer z.
Proof.
rewrite <- int_ok_spec. destruct (Sql.int_ok z); split; congruence.
Qed.

(** What the chart view answers, the aggregation being known. *)
Lemma api_behavior_get (e : env) (d : database) (uid : Z) (u : User.t)
    (req : request) (sid : Z) :
  tbl_user d !! uid = Some u -> 0 <= sid -> method req = GET ->
  serve e d (Some uid) (R_api_behavior sid) req =
    match _aggregate_behavior d sid (args_get req "period" "daily") with
    | Py.Ok c => Outcome (Json c) [] d (Some uid)
    | Py.Raise x => Outcome (InternalServerError x) [] d (Some uid)
    end.
Proof.
intros Hu Hsid Hget. unfold serve, url_matches, allows. rewrite Hget.
rewrite (proj2 (Z.leb_le 0 sid)) by done. simpl.
unfold api_behavior. erewrite login_required_pass by done.
unfold mbind, M_bind, get_db, lift. simpl.
by destruct (_aggregate_behavior d sid _).
Qed.

(** C5 (amended). An id within SQLite's 64 bits that has no behaviour log,
    whether a student has that id or not, gets four empty sequences for
    every period: the aggregation returns (no exception), and the chart
    endpoint answers with that JSON object and changes nothing.  An id
    beyond 64 bits, which the URL accepts as well and which has no log
    either, makes the query raise OverflowError instead: the endpoint
    answers with a 500. *)
Theorem aggregate_no_logs_empty (d : database) (sid : Z) (period : string) :
  no_logs d sid ->
  (sqlite_integer sid ->
   _aggregate_behavior d sid period = Py.Ok empty_chart
   /\ forall e who req,
        logged_in d who -> 0 <= sid -> method req = GET ->
        args_get req "period" "daily" = period ->
        serve e d who (R_api_behavior sid) req
        = Outcome (Json empty_chart) [] d who)
  /\ (~ sqlite_integer sid ->
      _aggregate_behavior d sid period = Py.Raise Py.OverflowError
      /\ forall e who req,
           logged_in d who -> 0 <= sid -> method req = GET ->
           args_get req "period" "daily" = period ->
           serve e d who (R_api_behavior sid) req
           = Outcome (InternalServerError Py.OverflowError) [] d who).
Proof.
  intros Hno%no_logs_nil. split.
  - intros Hfit%int_ok_spec.
    assert (Hagg : _aggregate_behavior d sid period = Py.Ok empty_chart).
    { unfold _aggregate_behavior, query_logs_of. by rewrite Hfit, Hno. }
    split; [done|].
    intros e who req (uid & u & -> & Hu) Hsid Hget Hp.
    by rewrite (api_behavior_get e d uid u req sid Hu Hsid Hget), Hp, Hagg.
  - intros Hbig%int_ok_false.
    assert (Hagg : _aggregate_behavior d sid period
                   = Py.Raise Py.OverflowError).
    { unfold _aggregate_behavior, query_logs_of. by rewrite Hbig. }
    split; [done|].
    intros e who req (uid & u & -> & Hu) Hsid Hget Hp.
    by rewrite (api_behavior_get e d uid u req sid Hu Hsid Hget), Hp, Hagg.
Qed.

(** C10. Every key among the labels was inserted by a log row of the
    student, so the count [n] of its bucket is at least 1 and none of the
    three divisions per bucket divides by zero; and the four sequences the
    aggregation returns have the same length. *)
Theorem aggregate_counts_positive (d : database) (sid : Z) (period : string) :
  let logs := behavior_logs_of d sid in
  let buckets := foldl (add_row period) ∅ logs in
  let labels := Py.sorted (map_to_list buckets).*1 in
  (forall k, k ∈ labels ->
     (exists r, r ∈ logs /\ bucket_key period (BehaviorLog.log_date r) = k)
     /\ 1 <= Bucket.n (bucket_at buckets k))
  /\ _aggregate_behavior d sid period <> Py.Raise Py.ZeroDivisionError
  /\ forall c, _aggregate_behavior d sid period = Py.Ok c ->
       Chart.labels c = labels
       /\ length (Chart.mood c) = length (Chart.labels c)
       /\ length (Chart.focus c) = length (Chart.labels c)
       /\ length (Chart.social c) = length (Chart.labels c).
Proof.
  cbv zeta.
  assert (Hlab : forall k,
    k ∈ Py.sorted
          (map_to_list (foldl (add_row period) ∅ (behavior_logs_of d sid))).*1
    -> (exists r, r ∈ behavior_logs_of d sid
                  /\ bucket_key period (BehaviorLog.log_date r) = k)
       /\ 1 <= Bucket.n
                 (bucket_at (foldl (add_row period) ∅ (behavior_logs_of d sid))
                    k)).
  { intros k Hk. apply (proj2 (labels_spec period _)) in Hk.
    split; [done|]. apply bucket_rows_nonempty in Hk.
    by destruct (bucket_at_key period _ k Hk) as [-> ?]. }
  split; [done|].
  assert (Hmean : forall score k,
    k ∈ Py.sorted
          (map_to_list (foldl (add_row period) ∅ (behavior_logs_of d sid))).*1
    -> bucket_mean score period k (behavior_logs_of d sid)
       <> Py.Raise Py.ZeroDivisionError).
  { intros score k Hk. apply (proj2 (labels_spec period _)) in Hk.
    apply bucket_rows_nonempty in Hk. unfold bucket_mean.
    apply average_no_zero_division.
    destruct (bucket_rows _ _ _); [done|]. simpl length. lia. }
  pose proof (aggregate_unfold d sid period) as Hun. cbv zeta in Hun.
  split.
  - rewrite Hun. intros Hraise.
    repeat case_match; try done;
      injection Hraise as ->;
      match goal with
      | H : Py.mapM _ _ = Py.Raise _ |- _ =>
          apply mapM_Raise_elem in H as (k & Hk & Hz);
          by apply Hmean in Hz
      end.
  - intros c Hc.
    destruct (aggregate_Ok_inv d sid period c Hc) as (Hl & H1 & H2 & H3).
    apply Forall2_length in H1, H2, H3. auto.
Qed.

(** With rows that SQLite can hold and an id it can bind, the aggregation
    returns a chart. *)
Lemma aggregate_returns (d : database) (sid : Z) (period : string) :
  logs_in_range d -> sqlite_integer sid ->
  exists c, _aggregate_behavior d sid period = Py.Ok c.
Proof.
intros Hrange Hsid%int_ok_spec.
pose proof (aggregate_unfold d sid period) as Hun. cbv zeta in Hun.
rewrite Hsid in Hun.
pose proof (labels_spec period (behavior_logs_of d sid)) as [_ Hkeys].
cbv zeta in Hkeys.
assert (Hmeans : forall score,
  (forall r, r ∈ behavior_logs_of d sid -> sqlite_integer (score r)) ->
  exists xs,
    Py.mapM (fun k => bucket_mean score period k (behavior_logs_of d sid))
      (Py.sorted
         (map_to_list
            (foldl (add_row period) ∅ (behavior_logs_of d sid))).*1)
    = Py.Ok xs).
{ intros score Hscore. apply mapM_total, Forall_forall. intros k Hk.
  apply bucket_mean_ok; [done|]. by apply bucket_rows_nonempty, Hkeys. }
assert (Hrow : forall r, r ∈ behavior_logs_of d sid -> log_ints_ok r).
{ intros r (id & Hl & _)%behavior_logs_of_elem. exact (Hrange id r Hl). }
destruct (Hmeans BehaviorLog.mood) as [ms Hms];
  [intros r Hr; apply (Hrow r Hr)|].
destruct (Hmeans BehaviorLog.focus) as [fs Hfs];
  [intros r Hr; apply (Hrow r Hr)|].
destruct (Hmeans BehaviorLog.social) as [ss Hss];
  [intros r Hr; apply (Hrow r Hr)|].
rewrite Hun, Hms, Hfs, Hss. eauto.
Qed.

(** From the year 1000 on [%Y] writes four digits. *)
Lemma year_str_four (y : Z) :
  1000 <= y ->
  Py.year_str y = Py.zero_pad 4 y /\ String.length (Py.year_str y) = 4%nat.
Proof.
intros Hy. unfold Py.year_str.
rewrite !(proj2 (Z.ltb_ge _ _)) by lia. split; [done|apply zero_pad_length].
Qed.

(** The three keys of a date. *)
Lemma bucket_key_forms (dt : Py.date) :
  bucket_key "daily" dt
  = Py.year_str (Py.year dt) +:+ "-" +:+
    Py.zero_pad 2 (Py.month dt) +:+ "-" +:+ Py.zero_pad 2 (Py.day dt)
  /\ bucket_key "monthly" dt
     = Py.year_str (Py.year dt) +:+ "-" +:+ Py.zero_pad 2 (Py.month dt)
  /\ bucket_key "yearly" dt = Py.year_str (Py.year dt).
Proof.
unfold bucket_key. simpl String.eqb. cbv iota. split; [|split].
- change (Py.strftime dt "%Y-%m-%d")
    with (Py.year_str (Py.year dt) +:+ "-" +:+
          Py.zero_pad 2 (Py.month dt) +:+ "-" +:+
          Py.zero_pad 2 (Py.day dt) +:+ "").
  by rewrite append_empty_r.
- change (Py.strftime dt "%Y-%m")
    with (Py.year_str (Py.year dt) +:+ "-" +:+
          Py.zero_pad 2 (Py.month dt) +:+ "").
  by rewrite append_empty_r.
- change (Py.strftime dt "%Y") with (Py.year_str (Py.year dt) +:+ "").
  by rewrite append_empty_r.
Qed.

(** C9 (amended). Any period other than "daily" and "monthly" ("yearly",
    "weekly", the empty string, ...) buckets by year: the key of a row is
    its year as [%Y] writes it, in decimal, which has four digits from the
    year 1000 on; the result is the result for "yearly"; when the
    aggregation returns, as it does on every table SQLite can hold for
    every id it can bind, the labels are exactly the years of the student's
    rows; and the chart endpoint passes the selector through unchecked, so
    it answers as it does for "yearly". *)
Theorem other_period_is_yearly (d : database) (sid : Z) (period : string) :
  period <> "daily" -> period <> "monthly" ->
  (forall dt, bucket_key period dt = Py.year_str (Py.year dt))
  /\ (forall y, 1000 <= y ->
        Py.year_str y = Py.zero_pad 4 y
        /\ String.length (Py.year_str y) = 4%nat)
  /\ _aggregate_behavior d sid period = _aggregate_behavior d sid "yearly"
  /\ (logs_in_range d -> sqlite_integer sid ->
      exists c, _aggregate_behavior d sid period = Py.Ok c)
  /\ (forall c, _aggregate_behavior d sid period = Py.Ok c ->
        forall k, k ∈ Chart.labels c <->
          exists r, r ∈ behavior_logs_of d sid
            /\ k = Py.year_str (Py.year (BehaviorLog.log_date r)))
  /\ forall e who req,
       args_get req "period" "daily" = period ->
       serve e d who (R_api_behavior sid) req
       = serve e d who (R_api_behavior sid)
           (Request (method req) (form req)
              (<["period" := "yearly"]> (args req))).
Proof.
  intros Hd Hm.
  assert (Hkey : forall dt, bucket_key period dt = Py.year_str (Py.year dt)).
  { intros dt. unfold bucket_key.
    rewrite (proj2 (String.eqb_neq period "daily")) by done.
    rewrite (proj2 (String.eqb_neq period "monthly")) by done.
    change (Py.strftime dt "%Y") with (Py.year_str (Py.year dt) +:+ "").
    apply append_empty_r. }
  assert (Hagg : _aggregate_behavior d sid period
                 = _aggregate_behavior d sid "yearly").
  { apply aggregate_key_ext. intros dt. rewrite Hkey. symmetry.
    apply bucket_key_forms. }
  split; [done|]. split; [exact year_str_four|]. split; [done|].
  split; [apply aggregate_returns|]. split.
  - intros c Hc k.
    destruct (aggregate_Ok_inv d sid period c Hc) as (Hl & _).
    rewrite Hl, (proj2 (labels_spec period _) k).
    split; intros (r & Hr & Hk); exists r; (split; [done|]);
      by rewrite <- Hk, Hkey || rewrite Hk, Hkey.
  - intros e who req Hp. unfold serve. simpl method.
    destruct (negb (url_matches (R_api_behavior sid))); [done|].
    destruct (negb (allows (R_api_behavior sid) (method req))); [done|].
    unfold view. rewrite (api_behavior_period sid req
      (Request (method req) (form req) (<["period" := "yearly"]> (args req))));
      [done|].
    unfold args_get at 2. simpl. rewrite lookup_insert_eq. simpl.
    by rewrite Hp.
Qed.



(** ** Student forms *)

(** Unfold the monad operations of a handler and compute. *)
Ltac run_view :=
  repeat progress
    (unfold mbind, M_bind, mret, M_ret, flash, commit, get_db, put_db,
       abort_with, lift, login_user, logout_user, get_or_404,
       add_user, add_student, add_activity, assign_student, assign_activity,
       delete_student, delete_activity;
     simpl).

Section StudentForms.
Variables (e : env) (d : database) (uid : Z) (u : User.t) (req : request).
Hypothesis Huser : tbl_user d !! uid = Some u.
Hypothesis Hpost : method req = POST.

Lemma student_invalid_test name a :
  Py.is_empty name || (a <? 6) || (12 <? a) = true <-> student_invalid name a.
Proof.
  unfold student_invalid, Py.is_empty.
  rewrite !orb_true_iff, String.eqb_eq, !Z.ltb_lt. tauto.
Qed.

(** What a POST to /students/new does, the age being an integer. *)
Lemma student_new_post a :
  Py.int_or (form_get req "age" "0") 0 = Py.Ok a ->
  let name := Py.strip (form_get req "full_name" "") in
  serve e d (Some uid) R_student_new req =
    if Py.is_empty name || (a <? 6) || (12 <? a) then
      Outcome (Redirect EpStudentNew) [flash_student_invalid] d (Some uid)
    else
      Outcome (Redirect EpStudents) [flash_student_saved]
        (with_students d
           (<[next_id (tbl_student d) :=
                Student.mk name a (form_get req "gender" "")
                  (form_get req "notes" "") (Some uid)]> (tbl_student d)))
        (Some uid).
Proof.
  intros Hage. cbv zeta. unfold serve, url_matches, allows, view.
  simpl negb. cbv iota.
  unfold student_new. erewrite login_required_pass by done.
  unfold is_post. rewrite Hpost.
  unfold mbind, M_bind at 1. rewrite Hage.
  destruct (Py.is_empty _ || _ || _) eqn:Hbad; run_view; rewrite Hbad;
    reflexivity.
Qed.

(** A POST to /students/new whose age is not an integer. *)
Lemma student_new_post_crash x :
  Py.int_or (form_get req "age" "0") 0 = Py.Raise x ->
  serve e d (Some uid) R_student_new req =
    Outcome (InternalServerError x) [] d (Some uid).
Proof.
  intros Hage. unfold serve, url_matches, allows, view.
  simpl negb. cbv iota.
  unfold student_new. erewrite login_required_pass by done.
  unfold is_post. rewrite Hpost.
  unfold mbind, M_bind at 1. rewrite Hage. reflexivity.
Qed.

Variables (sid : Z) (s : Student.t).
Hypothesis Hsid : 0 <= sid.
Hypothesis Hstudent : tbl_student d !! sid = Some s.

(** What a POST to /students/<sid>/edit does, the age being an integer. *)
Lemma student_edit_post a :
  Py.int_or (form_get req "age" "0") 0 = Py.Ok a ->
  let name := Py.strip (form_get req "full_name" "") in
  serve e d (Some uid) (R_student_edit sid) req =
    if Py.is_empty name || (a <? 6) || (12 <? a) then
      Outcome (Redirect (EpStudentEdit sid)) [flash_student_invalid] d
        (Some uid)
    else
      Outcome (Redirect EpStudents) [flash_student_edited]
        (with_students d
           (<[sid := Student.mk name a (form_get req "gender" "")
                       (form_get req "notes" "") (Student.created_by s)]>
              (tbl_student d)))
        (Some uid).
Proof.
  intros Hage. cbv zeta. unfold serve, url_matches, allows, view.
  rewrite (proj2 (Z.leb_le 0 sid)) by done. simpl negb. cbv iota.
  unfold student_edit. erewrite login_required_pass by done.
  unfold mbind, M_bind at 1. unfold get_or_404, mbind, M_bind at 1.
  simpl. rewrite Hstudent. simpl.
  unfold is_post. rewrite Hpost.
  unfold mbind, M_bind, assign_student, get_db, put_db. simpl.
  rewrite Hage. simpl.
  destruct (Py.is_empty _ || _ || _); [reflexivity|].
  simpl. unfold with_students. simpl. by rewrite !insert_insert_eq.
Qed.

(** A POST to /students/<sid>/edit whose age is not an integer. *)
Lemma student_edit_post_crash x :
  Py.int_or (form_get req "age" "0") 0 = Py.Raise x ->
  serve e d (Some uid) (R_student_edit sid) req =
    Outcome (InternalServerError x) [] d (Some uid).
Proof.
  intros Hage. unfold serve, url_matches, allows, view.
  rewrite (proj2 (Z.leb_le 0 sid)) by done. simpl negb. cbv iota.
  unfold student_edit. erewrite login_required_pass by done.
  unfold mbind, M_bind at 1. unfold get_or_404, mbind, M_bind at 1.
  simpl. rewrite Hstudent. simpl.
  unfold is_post. rewrite Hpost.
  unfold mbind, M_bind, assign_student, get_db, put_db. simpl.
  rewrite Hage. reflexivity.
Qed.

End StudentForms.

(** C2 (amended). Student create and update, for a logged-in user.  When
    the submitted age reads as an integer (an absent or empty field reads
    as 0), the submission is rejected (redirect to the same form, the error
    flashed, the database as before) exactly when the stripped full_name is
    empty or the age is outside 6..12; otherwise the row is inserted,
    respectively saved.  Ages 6 and 12 pass, 5 and 13 do not.  When the age
    does not read as an integer, [int] raises ValueError before anything is
    tested: the answer is a 500, whatever the name, and nothing is
    saved. *)
Theorem student_form_validation (e : env) (d : database) (uid : Z)
    (u : User.t) (req : request) :
  tbl_user d !! uid = Some u -> method req = POST ->
  let age := Py.int_or (form_get req "age" "0") 0 in
  let name := Py.strip (form_get req "full_name" "") in
  let gender := form_get req "gender" "" in
  let notes := form_get req "notes" "" in
  let created := serve e d (Some uid) R_student_new req in
  (forall a, age = Py.Ok a ->
   ((student_invalid name a ->
       created = Outcome (Redirect EpStudentNew) [flash_student_invalid] d
                   (Some uid))
    /\ (~ student_invalid name a ->
       created = Outcome (Redirect EpStudents) [flash_student_saved]
                   (with_students d
                      (<[next_id (tbl_student d) :=
                           Student.mk name a gender notes (Some uid)]>
                         (tbl_student d)))
                   (Some uid))
    /\ (resp created = Redirect EpStudentNew <-> student_invalid name a)
    /\ (name <> "" -> a = 6 \/ a = 12 -> resp created = Redirect EpStudents)
    /\ (a = 5 \/ a = 13 -> resp created = Redirect EpStudentNew))
   /\ forall sid s, 0 <= sid -> tbl_student d !! sid = Some s ->
      let updated := serve e d (Some uid) (R_student_edit sid) req in
      (student_invalid name a ->
         updated = Outcome (Redirect (EpStudentEdit sid))
                     [flash_student_invalid] d (Some uid))
      /\ (~ student_invalid name a ->
         updated = Outcome (Redirect EpStudents) [flash_student_edited]
                     (with_students d
                        (<[sid := Student.mk name a gender notes
                                    (Student.created_by s)]> (tbl_student d)))
                     (Some uid))
      /\ (resp updated = Redirect (EpStudentEdit sid)
          <-> student_invalid name a)
      /\ (name <> "" -> a = 6 \/ a = 12 -> resp updated = Redirect EpStudents)
      /\ (a = 5 \/ a = 13 -> resp updated = Redirect (EpStudentEdit sid)))
  /\ (forall x, age = Py.Raise x ->
      created = Outcome (InternalServerError x) [] d (Some uid)
      /\ forall sid s, 0 <= sid -> tbl_student d !! sid = Some s ->
           serve e d (Some uid) (R_student_edit sid) req
           = Outcome (InternalServerError x) [] d (Some uid)).
Proof.
  intros Hu Hpost. cbv zeta. split.
  - intros a Hage.
    pose proof (student_invalid_test
                  (Py.strip (form_get req "full_name" "")) a) as Htest.
    split.
    + rewrite (student_new_post e d uid u req Hu Hpost a Hage). cbv zeta.
      destruct (Py.is_empty _ || _ || _) eqn:Hbad.
      * assert (Hinv : student_invalid
                         (Py.strip (form_get req "full_name" "")) a) by tauto.
        repeat split; try done.
        intros Hname [-> | ->]; destruct Hinv as [?|[?|?]]; done || lia.
      * assert (Hinv : ~ student_invalid
                           (Py.strip (form_get req "full_name" "")) a)
          by (rewrite <- Htest; congruence).
        repeat split; try done.
        intros [-> | ->]; exfalso; apply Hinv; unfold student_invalid; lia.
    + intros sid s Hsid Hs.
      rewrite (student_edit_post e d uid u req Hu Hpost sid s Hsid Hs a Hage).
      cbv zeta.
      destruct (Py.is_empty _ || _ || _) eqn:Hbad.
      * assert (Hinv : student_invalid
                         (Py.strip (form_get req "full_name" "")) a) by tauto.
        repeat split; try done.
        intros Hname [-> | ->]; destruct Hinv as [?|[?|?]]; done || lia.
      * assert (Hinv : ~ student_invalid
                           (Py.strip (form_get req "full_name" "")) a)
          by (rewrite <- Htest; congruence).
        repeat split; try done.
        intros [-> | ->]; exfalso; apply Hinv; unfold student_invalid; lia.
  - intros x Hage. split.
    + by apply (student_new_post_crash e d uid u req).
    + intros sid s Hsid Hs.
      by apply (student_edit_post_crash e d uid u req Hu Hpost sid s).
Qed.

(** C8. Student update is atomic on a validation failure: when the
    stripped full_name is empty or the age is outside 6..12, the database
    after the request is the database before it, so the row keeps its
    full_name, age, gender and notes; the same holds when the age is not an
    integer at all. *)
Theorem student_update_atomic (e : env) (d : database) (uid : Z)
    (u : User.t) (req : request) (sid : Z) (s : Student.t) :
  tbl_user d !! uid = Some u -> method req = POST ->
  0 <= sid -> tbl_student d !! sid = Some s ->
  let after := db_after (serve e d (Some uid) (R_student_edit sid) req) in
  (forall a, Py.int_or (form_get req "age" "0") 0 = Py.Ok a ->
     student_invalid (Py.strip (form_get req "full_name" "")) a ->
     after = d /\ tbl_student after !! sid = Some s)
  /\ (forall x, Py.int_or (form_get req "age" "0") 0 = Py.Raise x ->
     after = d /\ tbl_student after !! sid = Some s).
Proof.
  intros Hu Hpost Hsid Hs. cbv zeta. split.
  - intros a Hage Hinv.
    rewrite (student_edit_post e d uid u req Hu Hpost sid s Hsid Hs a Hage).
    cbv zeta. apply student_invalid_test in Hinv. by rewrite Hinv.
  - intros x Hage.
    by rewrite (student_edit_post_crash e d uid u req Hu Hpost sid s Hsid Hs
                  x Hage).
Qed.

(** ** Accounts *)

Section Accounts.

Lemma lower_char_idem c : Py.lower_char (Py.lower_char c) = Py.lower_char c.
Proof. destruct c as [[] [] [] [] [] [] [] []]; reflexivity. Qed.

Lemma lower_idem s : Py.lower (Py.lower s) = Py.lower s.
Proof.
  induction s as [|c s IH]; simpl; [done|]. by rewrite lower_char_idem, IH.
Qed.

Lemma lower_empty s : Py.is_empty (Py.lower s) = Py.is_empty s.
Proof. by destruct s. Qed.

Lemma is_empty_true s : Py.is_empty s = true <-> s = "".
Proof. unfold Py.is_empty. apply String.eqb_eq. Qed.

(** [filter_by(email=...).first()] finds nothing exactly when no row has
    that address; what it finds is a row with that address. *)
Lemma user_by_email_None d email :
  user_by_email d email = None <->
  forall id u, tbl_user d !! id = Some u -> User.email u <> email.
Proof.
  unfold user_by_email, rows. rewrite head_None. split.
  - intros Hnil id u Hl He.
    apply (filter_nil_not_elem_of _ _ (id, u) Hnil); [done|].
    by apply elem_of_map_to_list.
  - intros Hno. destruct (filter _ _) as [|[id u] l] eqn:E; [done|].
    assert (Hin : (id, u) ∈ filter (fun r : Z * User.t => User.email r.2 = email)
                              (map_to_list (tbl_user d)))
      by (rewrite E; left).
    apply list_elem_of_filter in Hin as [He Hin%elem_of_map_to_list].
    by destruct (Hno id u Hin).
Qed.

Lemma user_by_email_Some d email uid u :
  user_by_email d email = Some (uid, u) ->
  tbl_user d !! uid = Some u /\ User.email u = email.
Proof.
  unfold user_by_email, rows. intros [l Hl]%head_Some.
  assert (Hin : (uid, u) ∈ filter (fun r : Z * User.t => User.email r.2 = email)
                             (map_to_list (tbl_user d)))
    by (rewrite Hl; left).
  apply list_elem_of_filter in Hin as [He Hin%elem_of_map_to_list]. done.
Qed.

(** With lower-case addresses in the table, the exact match of the query
    is a match up to letter case. *)
Lemma user_by_email_taken d email :
  emails_normalized d ->
  is_Some (user_by_email d (Py.lower email)) <-> email_taken d email.
Proof.
  intros Hnorm. split.
  - intros [[uid u] [Hl He]%user_by_email_Some].
    exists uid, u. split; [done|]. by rewrite (Hnorm uid u Hl).
  - intros (id & u & Hl & He). rewrite (Hnorm id u Hl) in He.
    destruct (user_by_email d (Py.lower email)) as [r|] eqn:E; [by eexists|].
    rewrite user_by_email_None in E. by destruct (E id u Hl).
Qed.

(** The key of a new row is not in the table. *)
Lemma next_id_fresh {A} (m : gmap Z A) : m !! next_id m = None.
Proof.
  destruct (m !! next_id m) as [x|] eqn:E; [|done]. exfalso.
  assert (Hin : next_id m ∈ (rows m).*1).
  { apply list_elem_of_fmap. exists (next_id m, x). split; [done|].
    by apply elem_of_map_to_list. }
  assert (Hmax : forall l k, k ∈ l -> k <= foldr Z.max 0 l).
  { induction l as [|y l IH]; intros k Hk; [by apply elem_of_nil in Hk|].
    simpl. apply elem_of_cons in Hk as [->|Hk]; [lia|].
    specialize (IH k Hk). lia. }
  specialize (Hmax _ _ Hin). unfold next_id in Hmax at 1. lia.
Qed.

Variables (e : env) (d : database) (who : option Z) (req : request).
Hypothesis Hpost : method req = POST.

(** What a POST to /register does. *)
Lemma register_post :
  let name := Py.strip (form_get req "name" "") in
  let email := Py.lower (Py.strip (form_get req "email" "")) in
  let password := form_get req "password" "" in
  serve e d who R_register req =
    if Py.is_empty name || Py.is_empty email || Py.is_empty password then
      Outcome (Redirect EpRegister) [flash_register_incomplete] d who
    else
      match user_by_email d email with
      | Some _ => Outcome (Redirect EpRegister) [flash_register_taken] d who
      | None =>
          Outcome (Redirect EpLogin) [flash_register_done]
            (with_users d
               (<[next_id (tbl_user d) :=
                    User.mk name email
                      (generate_password_hash (fresh_salt e) password)
                      "teacher"]> (tbl_user d)))
            who
      end.
Proof.
  cbv zeta. unfold serve, url_matches, allows, view. simpl negb. cbv iota.
  unfold register, is_post. rewrite Hpost.
  destruct (Py.is_empty _ || _ || _) eqn:Hbad; [reflexivity|].
  run_view. destruct (user_by_email d _); reflexivity.
Qed.

(** What a POST to /login does. *)
Lemma login_post :
  serve e d who R_login req =
    match user_by_email d (Py.lower (Py.strip (form_get req "email" ""))) with
    | Some (uid, u) =>
        if User.check_password u (form_get req "password" "") then
          Outcome (Redirect EpDashboard) [] d (Some uid)
        else Outcome (Render LoginHtml) [flash_bad_credentials] d who
    | None => Outcome (Render LoginHtml) [flash_bad_credentials] d who
    end.
Proof.
  unfold serve, url_matches, allows, view. simpl negb. cbv iota.
  unfold login, is_post. rewrite Hpost. run_view.
  destruct (user_by_email d _) as [[uid u]|]; [|reflexivity].
  destruct (User.check_password u _); reflexivity.
Qed.

End Accounts.

(** C3. Register, on a table of lower-case addresses: the request fails
    (redirect back to the form, a message flashed, no User row created)
    exactly when the stripped name, the stripped e-mail address or the
    password is empty, or some user's address equals the submitted one up
    to letter case; otherwise one row is added, its address in lower case,
    and the addresses of the table are lower case again. *)
Theorem register_rejects (e : env) (d : database) (who : option Z)
    (req : request) :
  emails_normalized d -> method req = POST ->
  let name := Py.strip (form_get req "name" "") in
  let email := Py.strip (form_get req "email" "") in
  let password := form_get req "password" "" in
  let o := serve e d who R_register req in
  let rejected := name = "" \/ email = "" \/ password = ""
                  \/ email_taken d email in
  (resp o = Redirect EpRegister /\ flashed o <> [] /\ db_after o = d
   <-> rejected)
  /\ (~ rejected ->
      o = Outcome (Redirect EpLogin) [flash_register_done]
            (with_users d
               (<[next_id (tbl_user d) :=
                    User.mk name (Py.lower email)
                      (generate_password_hash (fresh_salt e) password)
                      "teacher"]> (tbl_user d)))
            who
      /\ tbl_user d !! next_id (tbl_user d) = None)
  /\ emails_normalized (db_after o).
Proof.
  intros Hnorm Hpost. cbv zeta.
  rewrite (register_post e d who req Hpost). cbv zeta.
  pose proof (user_by_email_taken d (Py.strip (form_get req "email" "")) Hnorm)
    as Htaken.
  destruct (Py.is_empty _ || _ || _) eqn:Hbad.
  - apply orb_true_iff in Hbad as [[Hb|Hb]%orb_true_iff|Hb];
      [|rewrite lower_empty in Hb|]; apply is_empty_true in Hb.
    all: split; [split; [intros _; tauto|done]|].
    all: split; [tauto|done].
  - apply orb_false_iff in Hbad as [[Hn He]%orb_false_iff Hp].
    rewrite lower_empty in He.
    assert (Hne : Py.strip (form_get req "name" "") <> ""
                  /\ Py.strip (form_get req "email" "") <> ""
                  /\ form_get req "password" "" <> "").
    { repeat split; intros Heq%is_empty_true; congruence. }
    destruct (user_by_email d _) as [r|] eqn:Hq.
    + assert (Ht : email_taken d (Py.strip (form_get req "email" "")))
        by (apply Htaken; eauto).
      split; [split; [tauto|done]|]. split; [tauto|done].
    + assert (Ht : ~ email_taken d (Py.strip (form_get req "email" ""))).
      { intros [r Hr]%Htaken. congruence. }
      split; [split; [intros (Hr & _); discriminate Hr|tauto]|].
      split; [intros _; split; [done|apply next_id_fresh]|].
      simpl. apply map_Forall_insert_2; [|done]. simpl. apply lower_idem.
Qed.

(** C4. A POST to /login that does not find a user whose password matches,
    whether the address is unknown or the password is wrong, renders the
    login page with the one generic message and leaves the session and the
    database as they were; the two causes give the same outcome. *)
Theorem login_failure_generic (e : env) (d : database) (who : option Z) :
  (forall req, method req = POST -> ~ credentials_ok d req ->
     serve e d who R_login req
     = Outcome (Render LoginHtml) [flash_bad_credentials] d who)
  /\ forall req1 req2 uid u,
       method req1 = POST -> method req2 = POST ->
       user_by_email d (Py.lower (Py.strip (form_get req1 "email" ""))) = None ->
       user_by_email d (Py.lower (Py.strip (form_get req2 "email" "")))
         = Some (uid, u) ->
       User.check_password u (form_get req2 "password" "") = false ->
       serve e d who R_login req1 = serve e d who R_login req2
       /\ login_after (serve e d who R_login req1) = who
       /\ resp (serve e d who R_login req1) = Render LoginHtml
       /\ flashed (serve e d who R_login req1) = [flash_bad_credentials].
Proof.
  assert (Hfail : forall req, method req = POST -> ~ credentials_ok d req ->
            serve e d who R_login req
            = Outcome (Render LoginHtml) [flash_bad_credentials] d who).
  { intros req Hpost Hno. rewrite (login_post e d who req Hpost).
    destruct (user_by_email d _) as [[uid u]|] eqn:Hq; [|done].
    destruct (User.check_password u _) eqn:Hc; [|done].
    exfalso. apply Hno. by exists uid, u. }
  split; [done|].
  intros req1 req2 uid u Hp1 Hp2 Hunknown Hknown Hwrong.
  rewrite (Hfail req1 Hp1), (Hfail req2 Hp2); [done| |].
  - intros (uid' & u' & Hq & Hc). congruence.
  - intros (uid' & u' & Hq & Hc). congruence.
Qed.

(** ** Deleting a student *)

Section StudentDelete.
Variables (e : env) (d : database) (uid : Z) (u : User.t) (req : request).
Hypothesis Huser : tbl_user d !! uid = Some u.

(** What a POST to /students/<sid>/delete does. *)
Lemma student_delete_post sid :
  method req = POST -> 0 <= sid ->
  serve e d (Some uid) (R_student_delete sid) req =
    match tbl_student d !! sid with
    | None =>
        if Sql.int_ok sid then Outcome NotFound [] d (Some uid)
        else Outcome (InternalServerError Py.OverflowError) [] d (Some uid)
    | Some _ =>
        Outcome (Redirect EpStudents) [flash_student_deleted]
          (with_students d (delete sid (tbl_student d))) (Some uid)
    end.
Proof.
  intros Hpost Hsid. unfold serve, url_matches, allows, view.
  rewrite Hpost, (proj2 (Z.leb_le 0 sid)) by done. simpl negb. cbv iota.
  unfold student_delete. erewrite login_required_pass by done.
  run_view. destruct (tbl_student d !! sid); [reflexivity|].
  destruct (Sql.int_ok sid); reflexivity.
Qed.

(** Detail and edit of an id that is not in the table. *)
Lemma student_missing_404 sid :
  tbl_student d !! sid = None -> sqlite_integer sid ->
  (method req = GET ->
   resp (serve e d (Some uid) (R_student_detail sid) req) = NotFound)
  /\ resp (serve e d (Some uid) (R_student_edit sid) req) = NotFound.
Proof.
  intros Hnone Hfit%int_ok_spec. split.
  - intros Hget. unfold serve, url_matches, allows, view. rewrite Hget.
    destruct (0 <=? sid); [|done]. simpl negb. cbv iota.
    unfold student_detail. erewrite login_required_pass by done.
    run_view. by rewrite Hnone, Hfit.
  - unfold serve, url_matches, allows, view.
    destruct (0 <=? sid); [|done]. simpl negb. cbv iota.
    unfold student_edit. erewrite login_required_pass by done.
    run_view. by rewrite Hnone, Hfit.
Qed.

End StudentDelete.

(** C6 (amended). Student delete, by a logged-in user.  An id that is
    not in the table and fits SQLite's 64 bits gives 404 and changes
    nothing; a missing id beyond 64 bits, which the URL accepts as well,
    makes the query raise OverflowError: a 500, and nothing changes either.
    An id that is in the table is removed, every other student row stays,
    the behaviour-log and activity-log tables (and users and activities)
    are untouched, and detail and edit of that id then give 404. *)
Theorem student_delete_frame (e : env) (d : database) (uid : Z) (u : User.t)
    (req : request) (sid : Z) :
  tbl_user d !! uid = Some u -> method req = POST -> 0 <= sid ->
  let o := serve e d (Some uid) (R_student_delete sid) req in
  (tbl_student d !! sid = None -> sqlite_integer sid ->
   o = Outcome NotFound [] d (Some uid))
  /\ (tbl_student d !! sid = None -> ~ sqlite_integer sid ->
      o = Outcome (InternalServerError Py.OverflowError) [] d (Some uid))
  /\ forall s, tbl_student d !! sid = Some s ->
       resp o = Redirect EpStudents
       /\ tbl_student (db_after o) = delete sid (tbl_student d)
       /\ tbl_student (db_after o) !! sid = None
       /\ (forall j, j <> sid ->
             tbl_student (db_after o) !! j = tbl_student d !! j)
       /\ tbl_behavior_log (db_after o) = tbl_behavior_log d
       /\ tbl_activity_log (db_after o) = tbl_activity_log d
       /\ tbl_user (db_after o) = tbl_user d
       /\ tbl_activity (db_after o) = tbl_activity d
       /\ forall e' req', sqlite_integer sid ->
            (method req' = GET ->
             resp (serve e' (db_after o) (login_after o)
                     (R_student_detail sid) req') = NotFound)
            /\ resp (serve e' (db_after o) (login_after o)
                       (R_student_edit sid) req') = NotFound.
Proof.
  intros Hu Hpost Hsid. cbv zeta.
  rewrite (student_delete_post e d uid u req Hu sid Hpost Hsid).
  split; [|split].
  - by intros -> ->%int_ok_spec.
  - by intros -> ->%int_ok_false.
  - intros s ->. simpl.
    split; [done|]. split; [done|]. split; [apply lookup_delete_eq|].
    split; [by intros j Hj; apply lookup_delete_ne|].
    do 4 (split; [done|]).
    intros e' req' Hfit.
    apply (student_missing_404 e' _ uid u req'); [done| |done].
    apply lookup_delete_eq.
Qed.

(** C7 (the code departs from the claim). On the sample database, an edit
    of activity 1 that submits a blank title is saved: the stored title
    becomes the empty string and the success message is flashed, whereas
    the same form sent to /activities/new is rejected. *)
Theorem activity_edit_saves_blank_title :
  let req := post [("title", "   "); ("description", "picture books");
                   ("category", "language")] in
  serve sample_env sample_db (Some 1) (R_activity_edit 1) req
  = Outcome (Redirect EpActivities) [flash_activity_edited]
      (with_activities sample_db
         (<[1 := Activity.mk "" "picture books" "language" 6 12 (Some 1)]>
            (tbl_activity sample_db)))
      (Some 1)
  /\ serve sample_env sample_db (Some 1) R_activity_new req
     = Outcome (Redirect EpActivityNew) [flash_activity_invalid] sample_db
         (Some 1).
Proof. split; vm_compute; reflexivity. Qed.

(* ------------------------------------------------------------------ *)
(** * The claims at concrete inputs *)
(* ------------------------------------------------------------------ *)

(** The numbers named in the sample charts are the binary64 numbers
    nearest to 1, 3, 3.5, 4.5, 3.67, 4.33 and 2.67. *)
Example sample_floats :
  Py.round_b64 false 100 100 = Py.Ok f_1_0
  /\ Py.round_b64 false 300 100 = Py.Ok f_3_0
  /\ Py.round_b64 false 350 100 = Py.Ok f_3_5
  /\ Py.round_b64 false 450 100 = Py.Ok f_4_5
  /\ Py.round_b64 false 367 100 = Py.Ok f_3_67
  /\ Py.round_b64 false 433 100 = Py.Ok f_4_33
  /\ Py.round_b64 false 267 100 = Py.Ok f_2_67.
Proof. repeat split; vm_compute; reflexivity. Qed.

(** The model agrees with the standard library's IEEE 754 division. *)
Example truediv_agrees_with_SFdiv :
  (Py.to_spec <$> [f_3_67; f_4_33; f_2_67; f_3_5])
  = [SFdiv 53 1024 (S754_finite false 367 0) (S754_finite false 100 0);
     SFdiv 53 1024 (S754_finite false 433 0) (S754_finite false 100 0);
     SFdiv 53 1024 (S754_finite false 267 0) (S754_finite false 100 0);
     SFdiv 53 1024 (S754_finite false 7 0) (S754_finite false 2 0)].
Proof. vm_compute. reflexivity. Qed.

(** [round] follows the binary value, ties to even: 0.125 is a tie and goes
    to 0.12, 0.015 lies below the tie and goes to 0.01, 0.025 above and goes
    to 0.03; a negative mean that rounds to zero keeps its sign. *)
Example round_half_even :
  average 1 8 = Py.round_b64 false 12 100
  /\ average 3 200 = Py.round_b64 false 1 100
  /\ average 5 200 = Py.round_b64 false 3 100
  /\ average (-1) 1000 = Py.Ok (Py.Float true 0 0).
Proof. repeat split; vm_compute; reflexivity. Qed.

(** Two daily logs on 2024-01-01 with moods 4 and 2: one bucket
    "2024-01-01" with mood average 3.0. *)
Example aggregate_daily_sample :
  _aggregate_behavior sample_db 1 "daily"
  = Py.Ok (Chart.mk ["2024-01-01"] [f_3_0] [f_3_5] [f_4_5]).
Proof. vm_compute. reflexivity. Qed.

(** Monthly aggregation over dates in January and February 2024: two
    buckets, the means rounded to 2 decimals. *)
Example aggregate_monthly_sample :
  _aggregate_behavior sample_db 2 "monthly"
  = Py.Ok (Chart.mk ["2024-01"; "2024-02"] [f_3_67; f_1_0] [f_4_33; f_1_0]
             [f_2_67; f_1_0]).
Proof. vm_compute. reflexivity. Qed.

Example strip_sample : Py.strip "  Ann Lee  " = "Ann Lee".
Proof. reflexivity. Qed.

Example lower_sample : Py.lower "Ann@Ex.ORG" = "ann@ex.org".
Proof. reflexivity. Qed.

(** [int] skips a tab, a space and U+00A0 around the number but not the
    separator U+001F, which [str.strip] removes. *)
Example int_samples :
  Py.int_of_str " -1_2 " = Py.Ok (-12)
  /\ Py.int_of_str "1__2" = Py.Raise Py.ValueError
  /\ Py.int_of_str "abc" = Py.Raise Py.ValueError
  /\ Py.int_of_str (String "009" (String "7" (String (ascii_of_N 160) "")))
     = Py.Ok 7
  /\ Py.int_of_str (String "031" "7") = Py.Raise Py.ValueError
  /\ Py.strip (String "031" "7") = "7"
  /\ Py.int_or "" 0 = Py.Ok 0
  /\ Py.int_or "007" 0 = Py.Ok 7.
Proof. repeat split; reflexivity. Qed.

(** LIKE stops at the first U+0000 of the pattern and of the text. *)
Example like_samples :
  Sql.ilike "Ploy" "%LO%" = true
  /\ Sql.ilike "Ploy" "%l_y" = true
  /\ Sql.ilike (String "a" (String "000" "b")) "%b%" = false
  /\ Sql.ilike "Ploy" (String "%" (String "000" "%")) = true
  /\ Sql.ilike "Lola" (String "%" (String "a" (String "000" "%"))) = true
  /\ Sql.ilike "Ploy" (String "%" (String "a" (String "000" "%"))) = false.
Proof. repeat split; reflexivity. Qed.

Example strftime_sample :
  Py.strftime (Py.Date 2024 1 5) "%Y-%m-%d" = "2024-01-05"
  /\ Py.strftime (Py.Date 999 12 31) "%Y-%m-%d" = "999-12-31"
  /\ Py.strftime (Py.Date 7 3 1) "%Y-%m" = "7-03".
Proof. repeat split; reflexivity. Qed.

Example sorted_sample :
  Py.sorted ["2024-02"; "2023-12"; "2024-01"]
  = ["2023-12"; "2024-01"; "2024-02"].
Proof. reflexivity. Qed.

Lemma sample_logs_in_range : logs_in_range sample_db.
Proof.
  unfold logs_in_range. apply (bool_decide_unpack _). vm_compute. exact I.
Defined.

Lemma sample_emails_normalized : emails_normalized sample_db.
Proof.
  unfold emails_normalized. apply (bool_decide_unpack _). vm_compute. exact I.
Defined.


Lemma aggregate_no_logs_empty_witness :
  no_logs sample_db 3
  /\ _aggregate_behavior sample_db 3 "monthly" = Py.Ok empty_chart
  /\ serve sample_env sample_db (Some 1) (R_api_behavior 3)
       (get [("period", "monthly")])
     = Outcome (Json empty_chart) [] sample_db (Some 1).
Proof.
  assert (H : no_logs sample_db 3)
    by (unfold no_logs; apply (bool_decide_unpack _); vm_compute; exact I).
  split; [exact H|].
  destruct (aggregate_no_logs_empty sample_db 3 "monthly" H) as [Hfit _].
  destruct Hfit as [Hagg Hserve]; [unfold sqlite_integer; lia|].
  split; [exact Hagg|].
  apply Hserve; [|lia|reflexivity|reflexivity].
  exists 1, sample_user. split; reflexivity.
Defined.

(** C5 as stated fails at the id [2^63], which has no log and which the
    URL accepts: the query raises and the endpoint answers with a 500. *)
Lemma aggregate_no_logs_empty_counterexample :
  no_logs sample_db (2 ^ 63)
  /\ _aggregate_behavior sample_db (2 ^ 63) "daily"
     = Py.Raise Py.OverflowError
  /\ serve sample_env sample_db (Some 1) (R_api_behavior (2 ^ 63)) (get [])
     = Outcome (InternalServerError Py.OverflowError) [] sample_db (Some 1).
Proof.
  split; [|split; vm_compute; reflexivity].
  unfold no_logs. apply (bool_decide_unpack _). vm_compute. exact I.
Qed.

Lemma other_period_is_yearly_witness :
  _aggregate_behavior sample_db 2 "weekly"
  = _aggregate_behavior sample_db 2 "yearly"
  /\ _aggregate_behavior sample_db 2 "" = _aggregate_behavior sample_db 2 "yearly".
Proof.
  split.
  - destruct (other_period_is_yearly sample_db 2 "weekly")
      as (_ & _ & Heq & _); [discriminate|discriminate|exact Heq].
  - destruct (other_period_is_yearly sample_db 2 "")
      as (_ & _ & Heq & _); [discriminate|discriminate|exact Heq].
Defined.

(** C9 as stated fails for a log dated in the year 999, a date the log
    form reads: its year key has three digits, not four. *)
Lemma other_period_is_yearly_counterexample :
  PyDate.strptime_ymd "0999-12-31" = Py.Ok (Py.Date 999 12 31)
  /\ _aggregate_behavior
       (Database ∅ ∅ ∅
          (<[1 := BehaviorLog.mk 1 (Py.Date 999 12 31) 3 3 3 ""]> ∅) ∅)
       1 "weekly"
     = Py.Ok (Chart.mk ["999"] [f_3_0] [f_3_0] [f_3_0])
  /\ String.length "999" = 3%nat.
Proof. repeat split; vm_compute; reflexivity. Qed.

Lemma student_form_validation_witness :
  tbl_user sample_db !! 1 = Some sample_user
  /\ resp (serve sample_env sample_db (Some 1) R_student_new
             (post [("full_name", "Nid"); ("age", "6")]))
     = Redirect EpStudents
  /\ serve sample_env sample_db (Some 1) R_student_new
       (post [("full_name", "Nid"); ("age", "13")])
     = Outcome (Redirect EpStudentNew) [flash_student_invalid] sample_db
         (Some 1).
Proof.
  assert (Hu : tbl_user sample_db !! 1 = Some sample_user) by reflexivity.
  split; [exact Hu|]. split.
  - destruct (student_form_validation sample_env sample_db 1 sample_user
                (post [("full_name", "Nid"); ("age", "6")]) Hu)
      as [Hint _]; [reflexivity|].
    destruct (Hint 6) as [(_ & _ & _ & Hacc & _) _]; [reflexivity|].
    apply Hacc; [discriminate|by left].
  - destruct (student_form_validation sample_env sample_db 1 sample_user
                (post [("full_name", "Nid"); ("age", "13")]) Hu)
      as [Hint _]; [reflexivity|].
    destruct (Hint 13) as [(Hrej & _) _]; [reflexivity|].
    apply Hrej. right. right. reflexivity.
Defined.

(** C2 as stated fails for a blank full_name sent with an age that is
    not a number: the form is not shown again, [int] raises and the answer
    is a 500, from create and from update alike. *)
Lemma student_form_validation_counterexample :
  Py.strip (form_get (post [("full_name", "  "); ("age", "abc")])
              "full_name" "") = ""
  /\ serve sample_env sample_db (Some 1) R_student_new
       (post [("full_name", "  "); ("age", "abc")])
     = Outcome (InternalServerError Py.ValueError) [] sample_db (Some 1)
  /\ serve sample_env sample_db (Some 1) (R_student_edit 1)
       (post [("full_name", "  "); ("age", "abc")])
     = Outcome (InternalServerError Py.ValueError) [] sample_db (Some 1).
Proof. repeat split; vm_compute; reflexivity. Qed.

Lemma student_update_atomic_witness :
  db_after (serve sample_env sample_db (Some 1) (R_student_edit 1)
              (post [("full_name", "   "); ("age", "9"); ("notes", "new")]))
  = sample_db
  /\ db_after (serve sample_env sample_db (Some 1) (R_student_edit 1)
                 (post [("full_name", "Ploy"); ("age", "nine")]))
     = sample_db.
Proof.
  split.
  - destruct (student_update_atomic sample_env sample_db 1 sample_user
                (post [("full_name", "   "); ("age", "9"); ("notes", "new")])
                1 (Student.mk "Ploy" 8 "F" "" (Some 1)))
      as [Hinv _]; [reflexivity|reflexivity|lia|reflexivity|].
    apply (Hinv 9); [reflexivity|]. left. reflexivity.
  - destruct (student_update_atomic sample_env sample_db 1 sample_user
                (post [("full_name", "Ploy"); ("age", "nine")])
                1 (Student.mk "Ploy" 8 "F" "" (Some 1)))
      as [_ Hcrash]; [reflexivity|reflexivity|lia|reflexivity|].
    apply (Hcrash Py.ValueError). reflexivity.
Defined.

Lemma register_rejects_witness :
  emails_normalized sample_db
  /\ db_after (serve sample_env sample_db None R_register
                 (post [("name", "Mali"); ("email", " MALI@Kidanta.Local ");
                        ("password", "pw")]))
     = sample_db.
Proof.
  split; [exact sample_emails_normalized|].
  destruct (register_rejects sample_env sample_db None
              (post [("name", "Mali"); ("email", " MALI@Kidanta.Local ");
                     ("password", "pw")]) sample_emails_normalized)
    as [Hiff _]; [reflexivity|].
  apply Hiff. right. right. right.
  exists 1, sample_user. split; reflexivity.
Defined.

Lemma student_delete_frame_witness :
  tbl_student
    (db_after (serve sample_env sample_db (Some 1) (R_student_delete 1)
                 (post []))) !! 1 = None
  /\ tbl_behavior_log
       (db_after (serve sample_env sample_db (Some 1) (R_student_delete 1)
                    (post [])))
     = tbl_behavior_log sample_db
  /\ serve sample_env sample_db (Some 1) (R_student_delete 7) (post [])
     = Outcome NotFound [] sample_db (Some 1).
Proof.
  destruct (student_delete_frame sample_env sample_db 1 sample_user (post [])
              1) as (_ & _ & Hdel); [reflexivity|reflexivity|lia|].
  destruct (Hdel (Student.mk "Ploy" 8 "F" "" (Some 1)))
    as (_ & _ & Hgone & _ & Hlogs & _); [reflexivity|].
  split; [exact Hgone|]. split; [exact Hlogs|].
  destruct (student_delete_frame sample_env sample_db 1 sample_user (post [])
              7) as [Hnf _]; [reflexivity|reflexivity|lia|].
  apply Hnf; [reflexivity|unfold sqlite_integer; lia].
Defined.

(** C6 as stated fails at the id [2^63], which no student has and which
    the URL accepts: the answer is a 500, not a 404. *)
Lemma student_delete_frame_counterexample :
  tbl_student sample_db !! (2 ^ 63) = None
  /\ serve sample_env sample_db (Some 1) (R_student_delete (2 ^ 63)) (post [])
     = Outcome (InternalServerError Py.OverflowError) [] sample_db (Some 1).
Proof. split; vm_compute; reflexivity. Qed.

(** ** The user table over the life of the application *)

(** Only /register writes the user table. *)
Lemma serve_keeps_users (e : env) (d : database) (who : option Z) (r : route)
    (req : request) :
  r <> R_register -> tbl_user (db_after (serve e d who r req)) = tbl_user d.
Proof.
intros Hr. unfold serve.
destruct (negb (url_matches r)); [done|].
destruct (negb (allows r (method req))); [done|].
destruct r; try done; unfold view, login, logout, student_new, student_edit,
  student_delete, student_detail, activity_new, activity_edit,
  activity_delete, api_behavior, login_required, current_user, commit_ints;
  run_view; repeat (case_match; run_view; simplify_eq); done.
Qed.

(** Lower-case addresses are an invariant of every request and of the
    seeding command. *)
Lemma serve_emails_normalized (e : env) (d : database) (who : option Z)
    (r : route) (req : request) :
  emails_normalized d -> emails_normalized (db_after (serve e d who r req)).
Proof.
intros Hnorm.
assert (Hcase : r = R_register \/ r <> R_register)
  by (destruct r; (by left) || (by right)).
destruct Hcase as [->|Hr].
- destruct (method req) eqn:Hm.
  + unfold serve, view, register, is_post. rewrite Hm. done.
  + rewrite (register_post e d who req Hm). cbv zeta.
    repeat case_match; try done. simpl.
    apply map_Forall_insert_2; [|done]. simpl. apply lower_idem.
- unfold emails_normalized. by rewrite serve_keeps_users.
Qed.

Lemma initdb_emails_normalized (e : env) (d : database) (w : world) :
  emails_normalized (work w) -> emails_normalized (store w) ->
  emails_normalized (store (initdb e w).2)
  /\ emails_normalized (work (initdb e w).2).
Proof.
intros Hwork Hstore. unfold initdb. run_view.
assert (Hadmin : emails_normalized
          (with_users (work w)
             (<[next_id (tbl_user (work w)) :=
                  User.mk "Admin" "admin@kidanta.local"
                    (generate_password_hash (fresh_salt e) "admin123")
                    "admin"]> (tbl_user (work w))))).
{ unfold emails_normalized. simpl. by apply map_Forall_insert_2. }
repeat (case_match; run_view; simplify_eq); done.
Qed.

(* ------------------------------------------------------------------ *)
(** * Further properties of the handlers *)
(* ------------------------------------------------------------------ *)

(** ** The login guard *)

Lemma login_required_refuses (h : Z -> M response) (d : database)
    (who : option Z) :
  anonymous d who ->
  login_required h (World d d who [])
  = (inr (Redirect EpLogin), World d d who [flash_login_required]).
Proof.
intros Hanon. unfold login_required, current_user, mbind, M_bind. simpl.
destruct who as [uid|]; simpl in Hanon; [rewrite Hanon|]; reflexivity.
Qed.

(** X1. Every view of the account, student, activity and chart group
    except /register and /login sits behind [@login_required]: a request
    without the session of an existing user is answered with a redirect to
    the login page and the Flask-Login message, and neither the database nor
    the session changes. *)
Theorem anonymous_request_refused (e : env) (d : database) (who : option Z)
    (r : route) (req : request) :
  anonymous d who -> r <> R_register -> r <> R_login ->
  url_matches r = true -> allows r (method req) = true ->
  serve e d who r req
  = Outcome (Redirect EpLogin) [flash_login_required] d who.
Proof.
intros Hanon Hreg Hlog Hurl Hallow. unfold serve. rewrite Hurl, Hallow.
simpl negb. cbv iota.
destruct r; try done; unfold view, logout, student_new, student_edit,
  student_delete, student_detail, activity_new, activity_edit,
  activity_delete, api_behavior;
  by rewrite login_required_refuses.
Qed.

Lemma anonymous_request_refused_witness :
  serve sample_env sample_db None (R_student_delete 1) (post [])
  = Outcome (Redirect EpLogin) [flash_login_required] sample_db None
  /\ serve sample_env sample_db (Some 9) (R_api_behavior 1) (get [])
     = Outcome (Redirect EpLogin) [flash_login_required] sample_db (Some 9).
Proof.
split.
- apply anonymous_request_refused; [exact I|discriminate|discriminate| |];
    reflexivity.
- apply anonymous_request_refused; [reflexivity|discriminate|discriminate| |];
    reflexivity.
Defined.

(** ** Sessions *)

(** The query finds the row just inserted under a fresh key when no other
    row has its address. *)
Lemma user_by_email_inserted (d : database) (u : User.t) :
  user_by_email d (User.email u) = None ->
  user_by_email
    (with_users d (<[next_id (tbl_user d) := u]> (tbl_user d)))
    (User.email u)
  = Some (next_id (tbl_user d), u).
Proof.
intros Hfree.
destruct (user_by_email (with_users d _) (User.email u)) as [[uid' u']|] eqn:E.
- apply user_by_email_Some in E as [Hl He]. simpl in Hl.
  destruct (decide (uid' = next_id (tbl_user d))) as [->|Hne].
  + rewrite lookup_insert_eq in Hl. by injection Hl as <-.
  + rewrite lookup_insert_ne in Hl by done.
    rewrite user_by_email_None in Hfree. by destruct (Hfree uid' u' Hl).
- rewrite user_by_email_None in E.
  destruct (E (next_id (tbl_user d)) u); [|done]. simpl.
  apply lookup_insert_eq.
Qed.

(** X2. Register then log in: after a registration that succeeded, a
    login with the same address, in any letter case and with surrounding
    blanks, and the same password opens a session for the user just
    created; with another password it is refused (a hash being checked
    against the password it was made from). *)
Theorem register_then_login (e e' : env) (d : database) (who who' : option Z)
    (req req' : request) :
  emails_normalized d -> method req = POST -> method req' = POST ->
  resp (serve e d who R_register req) = Redirect EpLogin ->
  Py.lower (Py.strip (form_get req' "email" ""))
  = Py.lower (Py.strip (form_get req "email" "")) ->
  let d' := db_after (serve e d who R_register req) in
  let uid := next_id (tbl_user d) in
  tbl_user d !! uid = None
  /\ (exists u, tbl_user d' !! uid = Some u
        /\ User.name u = Py.strip (form_get req "name" "")
        /\ User.role u = "teacher")
  /\ (form_get req' "password" "" = form_get req "password" "" ->
      serve e' d' who' R_login req'
      = Outcome (Redirect EpDashboard) [] d' (Some uid))
  /\ (form_get req' "password" "" <> form_get req "password" "" ->
      serve e' d' who' R_login req'
      = Outcome (Render LoginHtml) [flash_bad_credentials] d' who').
Proof.
intros Hnorm Hpost Hpost' Hok Hmail. cbv zeta.
rewrite (register_post e d who req Hpost) in Hok |- *. cbv zeta in Hok |- *.
destruct (Py.is_empty _ || _ || _); [discriminate Hok|].
destruct (user_by_email d _) as [r|] eqn:Hfree; [discriminate Hok|]. simpl.
split; [apply next_id_fresh|].
split.
{ eexists. split; [apply lookup_insert_eq|]. done. }
set (u := User.mk _ _ _ _).
assert (Hq : user_by_email
               (with_users d (<[next_id (tbl_user d) := u]> (tbl_user d)))
               (Py.lower (Py.strip (form_get req' "email" "")))
             = Some (next_id (tbl_user d), u)).
{ rewrite Hmail. by apply (user_by_email_inserted d u). }
split; intros Hpw; rewrite (login_post e' _ who' req' Hpost'), Hq;
  unfold User.check_password, u; simpl.
- by rewrite Hpw, String.eqb_refl.
- rewrite (proj2 (String.eqb_neq _ _)); [done|]. congruence.
Qed.

Lemma register_then_login_witness :
  let reg := post [("name", "Noi"); ("email", " Noi@Kidanta.Local ");
                   ("password", "pw1")] in
  let d' := db_after (serve sample_env sample_db None R_register reg) in
  serve sample_env d' None R_login
    (post [("email", "NOI@kidanta.local"); ("password", "pw1")])
  = Outcome (Redirect EpDashboard) [] d' (Some 2).
Proof.
cbv zeta.
destruct (register_then_login sample_env sample_env sample_db None None
            (post [("name", "Noi"); ("email", " Noi@Kidanta.Local ");
                   ("password", "pw1")])
            (post [("email", "NOI@kidanta.local"); ("password", "pw1")]))
  as (_ & _ & Hlogin & _);
  [exact sample_emails_normalized|reflexivity|reflexivity|reflexivity
  |reflexivity|].
apply Hlogin. reflexivity.
Defined.

(** X3. Logout: for a logged-in user the session is cleared and the
    database untouched; the very next request to any guarded view of this
    group is then refused like an anonymous one. *)
Theorem logout_ends_session (e : env) (d : database) (uid : Z) (u : User.t)
    (req : request) :
  tbl_user d !! uid = Some u -> method req = GET ->
  serve e d (Some uid) R_logout req = Outcome (Redirect EpLogin) [] d None
  /\ forall e' r req',
       r <> R_register -> r <> R_login ->
       url_matches r = true -> allows r (method req') = true ->
       serve e' (db_after (serve e d (Some uid) R_logout req))
         (login_after (serve e d (Some uid) R_logout req)) r req'
       = Outcome (Redirect EpLogin) [flash_login_required] d None.
Proof.
intros Hu Hget.
assert (Hout : serve e d (Some uid) R_logout req
               = Outcome (Redirect EpLogin) [] d None).
{ unfold serve, url_matches, allows, view. rewrite Hget. simpl negb. cbv iota.
  unfold logout. erewrite login_required_pass by done. reflexivity. }
split; [done|]. intros e' r req' Hreg Hlog Hurl Hallow. rewrite Hout. simpl.
unfold serve. rewrite Hurl, Hallow. simpl negb. cbv iota.
destruct r; try done; unfold view, logout, student_new, student_edit,
  student_delete, student_detail, activity_new, activity_edit,
  activity_delete, api_behavior;
  by rewrite login_required_refuses.
Qed.

Lemma logout_ends_session_witness :
  serve sample_env sample_db (Some 1) R_logout (get [])
  = Outcome (Redirect EpLogin) [] sample_db None.
Proof.
apply (logout_ends_session sample_env sample_db 1 sample_user (get []));
  reflexivity.
Defined.

(** ** Students and activities *)

(** X4. Create then read: a student accepted by /students/new (the age
    being one that [int] reads, the name not blank, the age from 6 to 12)
    is stored under a key that was free, every row that was there before is
    still there unchanged, and the detail page and the edit form of the new
    id show exactly what was submitted, with the creating user recorded. *)
Theorem student_new_then_read (e : env) (d : database) (uid : Z)
    (u : User.t) (req : request) (a : Z) :
  tbl_user d !! uid = Some u -> method req = POST ->
  Py.int_or (form_get req "age" "0") 0 = Py.Ok a ->
  ~ student_invalid (Py.strip (form_get req "full_name" "")) a ->
  let d' := db_after (serve e d (Some uid) R_student_new req) in
  let sid := next_id (tbl_student d) in
  let s := Student.mk (Py.strip (form_get req "full_name" "")) a
             (form_get req "gender" "") (form_get req "notes" "")
             (Some uid) in
  tbl_student d !! sid = None
  /\ 0 < sid
  /\ tbl_student d' !! sid = Some s
  /\ (forall j, j <> sid -> tbl_student d' !! j = tbl_student d !! j)
  /\ forall e' req', method req' = GET ->
       (exists logs acts rec_acts,
          serve e' d' (Some uid) (R_student_detail sid) req'
          = Outcome (Render (StudentDetailHtml s logs acts rec_acts)) [] d'
              (Some uid))
       /\ serve e' d' (Some uid) (R_student_edit sid) req'
          = Outcome (Render (StudentFormHtml (Some s))) [] d' (Some uid).
Proof.
intros Hu Hpost Hage Hvalid. cbv zeta.
rewrite (student_new_post e d uid u req Hu Hpost a Hage). cbv zeta.
destruct (Py.is_empty _ || _ || _) eqn:Hbad.
{ by apply student_invalid_test in Hbad. }
simpl.
assert (Hpos : 0 < next_id (tbl_student d)).
{ unfold next_id. generalize (rows (tbl_student d)).*1.
  induction l as [|x l IH]; simpl; lia. }
split; [apply next_id_fresh|]. split; [done|].
split; [apply lookup_insert_eq|].
split; [by intros j Hj; apply lookup_insert_ne|].
intros e' req' Hget. split.
- do 3 eexists. unfold serve, url_matches, allows, view. rewrite Hget.
  rewrite (proj2 (Z.leb_le 0 _)) by lia. simpl negb. cbv iota.
  unfold student_detail. erewrite login_required_pass by done.
  run_view. rewrite lookup_insert_eq. reflexivity.
- unfold serve, url_matches, allows, view.
  rewrite (proj2 (Z.leb_le 0 _)) by lia. simpl negb. cbv iota.
  unfold student_edit. erewrite login_required_pass by done.
  run_view. rewrite lookup_insert_eq. unfold is_post. rewrite Hget.
  reflexivity.
Qed.

Lemma student_new_then_read_witness :
  let req := post [("full_name", " Fah "); ("age", "7"); ("gender", "F")] in
  let d' := db_after (serve sample_env sample_db (Some 1) R_student_new req) in
  tbl_student d' !! 3 = Some (Student.mk "Fah" 7 "F" "" (Some 1)).
Proof.
cbv zeta.
destruct (student_new_then_read sample_env sample_db 1 sample_user
            (post [("full_name", " Fah "); ("age", "7"); ("gender", "F")]) 7)
  as (_ & _ & Hnew & _); [reflexivity|reflexivity|reflexivity| |exact Hnew].
intros [Hn|[Hlo|Hhi]]; [discriminate Hn|lia|lia].
Defined.

Section ActivityForms.
Variables (e : env) (d : database) (uid : Z) (u : User.t) (req : request).
Hypothesis Huser : tbl_user d !! uid = Some u.
Hypothesis Hpost : method req = POST.

(** What a POST to /activities/new does, the two ages being integers:
    the INSERT raises when one of them does not fit 64 bits. *)
Lemma activity_new_post lo hi :
  Py.int_or (form_get req "age_min" "6") 6 = Py.Ok lo ->
  Py.int_or (form_get req "age_max" "12") 12 = Py.Ok hi ->
  serve e d (Some uid) R_activity_new req =
    if Py.is_empty (Py.strip (form_get req "title" "")) then
      Outcome (Redirect EpActivityNew) [flash_activity_invalid] d (Some uid)
    else if Sql.int_ok lo && Sql.int_ok hi then
      Outcome (Redirect EpActivities) [flash_activity_added]
        (with_activities d
           (<[next_id (tbl_activity d) :=
                Activity.mk (Py.strip (form_get req "title" ""))
                  (form_get req "description" "") (form_get req "category" "")
                  lo hi (Some uid)]> (tbl_activity d)))
        (Some uid)
    else Outcome (InternalServerError Py.OverflowError) [] d (Some uid).
Proof.
intros Hlo Hhi. unfold serve, url_matches, allows, view. simpl negb. cbv iota.
unfold activity_new. erewrite login_required_pass by done.
unfold is_post. rewrite Hpost.
destruct (Py.is_empty _) eqn:Hblank; [reflexivity|].
unfold mbind, M_bind at 1. rewrite Hlo. simpl lift.
unfold mret, M_ret at 1. unfold M_bind at 1. rewrite Hhi.
unfold commit_ints. run_view.
destruct (Sql.int_ok lo), (Sql.int_ok hi); reflexivity.
Qed.

(** What a POST to /activities/<aid>/delete does. *)
Lemma activity_delete_post aid :
  0 <= aid ->
  serve e d (Some uid) (R_activity_delete aid) req =
    match tbl_activity d !! aid with
    | None =>
        if Sql.int_ok aid then Outcome NotFound [] d (Some uid)
        else Outcome (InternalServerError Py.OverflowError) [] d (Some uid)
    | Some _ =>
        Outcome (Redirect EpActivities) [flash_activity_deleted]
          (with_activities d (delete aid (tbl_activity d))) (Some uid)
    end.
Proof.
intros Haid. unfold serve, url_matches, allows, view.
rewrite Hpost, (proj2 (Z.leb_le 0 aid)) by done. simpl negb. cbv iota.
unfold activity_delete. erewrite login_required_pass by done.
run_view. destruct (tbl_activity d !! aid); [reflexivity|].
destruct (Sql.int_ok aid); reflexivity.
Qed.

End ActivityForms.

(** X5. Activity create, the two ages being ones that [int] reads and
    that fit SQLite's 64-bit integers: a blank title is rejected and nothing
    is stored; any other title is stored under a fresh key with the two ages
    exactly as submitted, 6 and 12 standing in for an absent or empty field,
    and without any check that age_min is at most age_max. *)
Theorem activity_new_stores (e : env) (d : database) (uid : Z) (u : User.t)
    (req : request) (lo hi : Z) :
  tbl_user d !! uid = Some u -> method req = POST ->
  Py.int_or (form_get req "age_min" "6") 6 = Py.Ok lo ->
  Py.int_or (form_get req "age_max" "12") 12 = Py.Ok hi ->
  sqlite_integer lo -> sqlite_integer hi ->
  let title := Py.strip (form_get req "title" "") in
  let o := serve e d (Some uid) R_activity_new req in
  (title = "" ->
     o = Outcome (Redirect EpActivityNew) [flash_activity_invalid] d (Some uid))
  /\ (title <> "" ->
     o = Outcome (Redirect EpActivities) [flash_activity_added]
           (with_activities d
              (<[next_id (tbl_activity d) :=
                   Activity.mk title (form_get req "description" "")
                     (form_get req "category" "") lo hi (Some uid)]>
                 (tbl_activity d)))
           (Some uid)
     /\ tbl_activity d !! next_id (tbl_activity d) = None)
  /\ (form req !! "age_min" = None \/ form req !! "age_min" = Some ""
        -> lo = 6)
  /\ (form req !! "age_max" = None \/ form req !! "age_max" = Some ""
        -> hi = 12).
Proof.
intros Hu Hpost Hlo Hhi Hflo Hfhi. cbv zeta.
rewrite (activity_new_post e d uid u req Hu Hpost lo hi Hlo Hhi).
rewrite (proj2 (int_ok_spec lo) Hflo), (proj2 (int_ok_spec hi) Hfhi).
simpl andb. cbv iota.
split; [|split; [|split]].
- intros Hblank. by rewrite Hblank.
- intros Hne. unfold Py.is_empty. rewrite (proj2 (String.eqb_neq _ _) Hne).
  split; [done|apply next_id_fresh].
- unfold form_get in Hlo. intros [Hf|Hf]; rewrite Hf in Hlo;
    vm_compute in Hlo; congruence.
- unfold form_get in Hhi. intros [Hf|Hf]; rewrite Hf in Hhi;
    vm_compute in Hhi; congruence.
Qed.

Lemma activity_new_stores_witness :
  serve sample_env sample_db (Some 1) R_activity_new
    (post [("title", "Chess"); ("age_min", "11"); ("age_max", "")])
  = Outcome (Redirect EpActivities) [flash_activity_added]
      (with_activities sample_db
         (<[2 := Activity.mk "Chess" "" "" 11 12 (Some 1)]>
            (tbl_activity sample_db)))
      (Some 1).
Proof.
destruct (activity_new_stores sample_env sample_db 1 sample_user
            (post [("title", "Chess"); ("age_min", "11"); ("age_max", "")])
            11 12) as (_ & Hstore & _);
  [reflexivity|reflexivity|reflexivity|reflexivity
  |unfold sqlite_integer; lia|unfold sqlite_integer; lia|].
apply Hstore. discriminate.
Defined.

(** X6. Activity delete: a missing id that fits SQLite's 64-bit integers
    gives 404 and no change, a missing id beyond them a 500 (the query
    raises OverflowError) and no change; an existing id is removed from the
    activity table, every other activity stays, and the students and both
    log tables are untouched, so the activity logs that name the deleted
    activity remain; the edit page of the deleted id then answers 404. *)
Theorem activity_delete_frame (e : env) (d : database) (uid : Z) (u : User.t)
    (req : request) (aid : Z) :
  tbl_user d !! uid = Some u -> method req = POST -> 0 <= aid ->
  let o := serve e d (Some uid) (R_activity_delete aid) req in
  (tbl_activity d !! aid = None -> sqlite_integer aid ->
     o = Outcome NotFound [] d (Some uid))
  /\ (tbl_activity d !! aid = None -> ~ sqlite_integer aid ->
     o = Outcome (InternalServerError Py.OverflowError) [] d (Some uid))
  /\ forall a, tbl_activity d !! aid = Some a ->
       resp o = Redirect EpActivities
       /\ tbl_activity (db_after o) !! aid = None
       /\ (forall j, j <> aid ->
             tbl_activity (db_after o) !! j = tbl_activity d !! j)
       /\ tbl_activity_log (db_after o) = tbl_activity_log d
       /\ tbl_behavior_log (db_after o) = tbl_behavior_log d
       /\ tbl_student (db_after o) = tbl_student d
       /\ tbl_user (db_after o) = tbl_user d
       /\ forall e' req', sqlite_integer aid ->
            resp (serve e' (db_after o) (login_after o)
                    (R_activity_edit aid) req') = NotFound.
Proof.
intros Hu Hpost Haid. cbv zeta.
rewrite (activity_delete_post e d uid u req Hu Hpost aid Haid).
split; [|split].
- intros -> Hfit. by rewrite (proj2 (int_ok_spec aid) Hfit).
- intros -> Hfit. by rewrite (proj2 (int_ok_false aid) Hfit).
- intros a ->. simpl. split; [done|]. split; [apply lookup_delete_eq|].
  split; [by intros j Hj; apply lookup_delete_ne|].
  do 4 (split; [done|]). intros e' req' Hfit.
  unfold serve, url_matches, allows, view.
  rewrite (proj2 (Z.leb_le 0 aid)) by done. simpl negb. cbv iota.
  unfold activity_edit. erewrite login_required_pass by done.
  run_view. rewrite lookup_delete_eq.
  by rewrite (proj2 (int_ok_spec aid) Hfit).
Qed.

Lemma activity_delete_frame_witness :
  tbl_activity
    (db_after (serve sample_env sample_db (Some 1) (R_activity_delete 1)
                 (post []))) !! 1 = None
  /\ serve sample_env sample_db (Some 1) (R_activity_delete 5) (post [])
     = Outcome NotFound [] sample_db (Some 1)
  /\ serve sample_env sample_db (Some 1) (R_activity_delete (2 ^ 63))
       (post [])
     = Outcome (InternalServerError Py.OverflowError) [] sample_db (Some 1).
Proof.
split; [|split].
- destruct (activity_delete_frame sample_env sample_db 1 sample_user (post [])
              1) as (_ & _ & Hdel); [reflexivity|reflexivity|lia|].
  destruct (Hdel (Activity.mk "Reading" "picture books" "language" 6 8
                    (Some 1))) as (_ & Hgone & _); [reflexivity|exact Hgone].
- destruct (activity_delete_frame sample_env sample_db 1 sample_user (post [])
              5) as [Hnf _]; [reflexivity|reflexivity|lia|].
  apply Hnf; [reflexivity|unfold sqlite_integer; lia].
- destruct (activity_delete_frame sample_env sample_db 1 sample_user (post [])
              (2 ^ 63)) as (_ & Hof & _); [reflexivity|reflexivity|lia|].
  apply Hof; [reflexivity|unfold sqlite_integer; lia].
Defined.

(** ** The detail page *)

Lemma date_leb_total (a b : Py.date) : date_leb a b = true \/ date_leb b a = true.
Proof.
unfold date_leb.
destruct (Z.ltb_spec (Py.year a) (Py.year b)),
  (Z.ltb_spec (Py.year b) (Py.year a)),
  (Z.eqb_spec (Py.year a) (Py.year b)),
  (Z.eqb_spec (Py.year b) (Py.year a)),
  (Z.ltb_spec (Py.month a) (Py.month b)),
  (Z.ltb_spec (Py.month b) (Py.month a)),
  (Z.eqb_spec (Py.month a) (Py.month b)),
  (Z.eqb_spec (Py.month b) (Py.month a)),
  (Z.leb_spec (Py.day a) (Py.day b)),
  (Z.leb_spec (Py.day b) (Py.day a)); simpl; auto; lia.
Qed.

Lemma newest_first_total {A} (col : A -> Py.date) : Total (newest_first col).
Proof.
intros x y. unfold newest_first.
destruct (date_leb_total (col y) (col x)) as [-> | ->]; simpl; auto.
Qed.

Lemma Sorted_take {A} (R : relation A) (n : nat) (l : list A) :
  Sorted R l -> Sorted R (take n l).
Proof.
intros Hs. revert n. induction Hs as [|x l Hs IH Hhd]; intros [|n]; simpl;
  try constructor.
- apply IH.
- destruct Hhd as [|y l' Hxy]; destruct n; simpl; constructor. done.
Qed.

(** The thirty newest rows of a query. *)
Lemma take_newest_spec {A} (col : A -> Py.date) (q : list A) :
  let shown := take 30 (order_by_desc col q) in
  (length shown <= 30)%nat
  /\ Sorted (newest_first col) shown
  /\ (forall x, x ∈ shown -> x ∈ q)
  /\ ((length q <= 30)%nat -> shown ≡ₚ q).
Proof.
cbv zeta. unfold order_by_desc.
pose proof (merge_sort_Permutation (newest_first col) q) as Hperm.
fold (newest_first col).
change (merge_sort (fun x y : A => Is_true (date_leb (col y) (col x))) q)
  with (merge_sort (newest_first col) q).
split; [rewrite length_take; lia|]. split.
{ apply Sorted_take, Sorted_merge_sort, newest_first_total. }
split.
{ intros x Hx. rewrite <- Hperm. by apply (subseteq_take 30). }
intros Hlen. rewrite take_ge; [done|]. by rewrite Hperm.
Qed.

(** X7. The detail page of an existing student shows that student; at
    most thirty of the student's behaviour logs, newest first, and all of
    them when there are no more than thirty; at most thirty of the
    student's activity logs, newest first; and as recommended activities exactly the stored activities whose range
    age_min..age_max contains the student's age.  Nothing is written. *)
Theorem student_detail_page (e : env) (d : database) (uid : Z) (u : User.t)
    (req : request) (sid : Z) (s : Student.t) :
  tbl_user d !! uid = Some u -> method req = GET -> 0 <= sid ->
  tbl_student d !! sid = Some s ->
  exists logs acts rec_acts,
    serve e d (Some uid) (R_student_detail sid) req
    = Outcome (Render (StudentDetailHtml s logs acts rec_acts)) [] d (Some uid)
    /\ (length logs <= 30)%nat
    /\ Sorted (newest_first BehaviorLog.log_date) logs
    /\ (forall l, l ∈ logs -> l ∈ behavior_logs_of d sid)
    /\ ((length (behavior_logs_of d sid) <= 30)%nat ->
        logs ≡ₚ behavior_logs_of d sid)
    /\ (length acts <= 30)%nat
    /\ Sorted (newest_first ActivityLog.done_at) acts
    /\ (forall l, l ∈ acts ->
          ActivityLog.student_id l = sid
          /\ exists id, tbl_activity_log d !! id = Some l)
    /\ forall a, a ∈ rec_acts <->
         (exists id, tbl_activity d !! id = Some a)
         /\ Activity.age_min a <= Student.age s <= Activity.age_max a.
Proof.
intros Hu Hget Hsid Hs. do 3 eexists. split.
{ unfold serve, url_matches, allows, view. rewrite Hget.
  rewrite (proj2 (Z.leb_le 0 sid)) by done. simpl negb. cbv iota.
  unfold student_detail. erewrite login_required_pass by done.
  run_view. rewrite Hs. reflexivity. }
pose proof (take_newest_spec BehaviorLog.log_date (behavior_logs_of d sid))
  as (Hl1 & Hl2 & Hl3 & Hl4).
pose proof (take_newest_spec ActivityLog.done_at
              (filter (fun r => ActivityLog.student_id r = sid)
                 (rows (tbl_activity_log d)).*2))
  as (Ha1 & Ha2 & Ha3 & _).
cbv zeta in Hl1, Hl2, Hl3, Hl4, Ha1, Ha2, Ha3.
split; [exact Hl1|]. split; [exact Hl2|]. split; [exact Hl3|].
split; [exact Hl4|]. split; [exact Ha1|]. split; [exact Ha2|]. split.
- intros l Hl. apply Ha3 in Hl.
  apply list_elem_of_filter in Hl as [Hsid' Hl]. split; [done|].
  apply list_elem_of_fmap in Hl as ([id l'] & -> & Hin).
  exists id. by apply elem_of_map_to_list.
- intros a. rewrite list_elem_of_filter, list_elem_of_fmap. split.
  + intros ([Hlo Hhi] & [id a'] & -> & Hin). simpl in Hlo, Hhi |- *.
    split; [|lia].
    exists id. by apply elem_of_map_to_list.
  + intros ([id Hin] & Hrange). split; [lia|].
    exists (id, a). split; [done|]. by apply elem_of_map_to_list.
Qed.

Lemma student_detail_page_witness :
  exists logs acts rec_acts,
    serve sample_env sample_db (Some 1) (R_student_detail 1) (get [])
    = Outcome
        (Render (StudentDetailHtml (Student.mk "Ploy" 8 "F" "" (Some 1))
                   logs acts rec_acts))
        [] sample_db (Some 1)
    /\ (length logs <= 30)%nat.
Proof.
destruct (student_detail_page sample_env sample_db 1 sample_user (get []) 1
            (Student.mk "Ploy" 8 "F" "" (Some 1)))
  as (logs & acts & recs & Hpage & Hlen & _);
  [reflexivity|reflexivity|lia|reflexivity|].
exists logs, acts, recs. split; [exact Hpage|exact Hlen].
Defined.

(** ** Seeding *)

(** What [initdb] leaves in the database. *)
Lemma after_initdb_eq (e : env) (d : database) :
  after_initdb e d =
    let d1 := match user_by_email d "admin@kidanta.local" with
              | None =>
                  with_users d
                    (<[next_id (tbl_user d) := admin_user e]> (tbl_user d))
              | Some _ => d
              end in
    if bool_decide (size (tbl_activity d1) = 0%nat)
    then with_activities d1 (add_all (tbl_activity d1) seed_activities)
    else d1.
Proof.
unfold after_initdb, initdb. cbv zeta. run_view.
destruct (user_by_email d "admin@kidanta.local"); run_view;
  case_bool_decide; reflexivity.
Qed.

Lemma add_all_keeps {A} (l : list A) (m : gmap Z A) (k : Z) (x : A) :
  m !! k = Some x -> add_all m l !! k = Some x.
Proof.
revert m. induction l as [|a l IH]; intros m Hk; [done|].
apply IH. rewrite lookup_insert_ne; [done|].
intros <-. by rewrite next_id_fresh in Hk.
Qed.

Lemma add_all_size {A} (l : list A) (m : gmap Z A) :
  size (add_all m l) = (size m + length l)%nat.
Proof.
revert m. induction l as [|a l IH]; intros m; simpl; [lia|].
unfold add_all in IH |- *. simpl. rewrite IH.
rewrite map_size_insert_None by apply next_id_fresh. lia.
Qed.

(** X8. [initdb]: afterwards an account with the address
    admin@kidanta.local exists and the activity table is not empty; no row
    that was there is changed, and students and logs are untouched; the
    administrator and the five seed activities are added only when missing,
    so that a second run changes nothing; on an empty database the seeded
    administrator can log in with the seeded password. *)
Theorem initdb_seeds_once (e e' : env) (d : database) :
  let d' := after_initdb e d in
  is_Some (user_by_email d' "admin@kidanta.local")
  /\ size (tbl_activity d') <> 0%nat
  /\ (forall id u, tbl_user d !! id = Some u -> tbl_user d' !! id = Some u)
  /\ (forall id a, tbl_activity d !! id = Some a ->
        tbl_activity d' !! id = Some a)
  /\ (is_Some (user_by_email d "admin@kidanta.local") ->
        tbl_user d' = tbl_user d)
  /\ (size (tbl_activity d) <> 0%nat -> tbl_activity d' = tbl_activity d)
  /\ (size (tbl_activity d) = 0%nat ->
        size (tbl_activity d') = 5%nat)
  /\ tbl_student d' = tbl_student d
  /\ tbl_behavior_log d' = tbl_behavior_log d
  /\ tbl_activity_log d' = tbl_activity_log d
  /\ after_initdb e' d' = d'
  /\ forall who,
       serve e' (after_initdb e empty_db) who R_login
         (post [("email", "admin@kidanta.local"); ("password", "admin123")])
       = Outcome (Redirect EpDashboard) [] (after_initdb e empty_db) (Some 1).
Proof.
cbv zeta.
assert (Hadmin : is_Some (user_by_email (after_initdb e d)
                            "admin@kidanta.local")).
{ rewrite after_initdb_eq. cbv zeta.
  destruct (user_by_email d "admin@kidanta.local") as [r|] eqn:Hq.
  - case_bool_decide; simpl; unfold user_by_email in *; simpl; by rewrite Hq.
  - pose proof (user_by_email_inserted d (admin_user e) Hq) as Hins.
    case_bool_decide; simpl; unfold user_by_email in *; simpl in *;
      by rewrite Hins. }
assert (Hact : size (tbl_activity (after_initdb e d)) <> 0%nat).
{ rewrite after_initdb_eq. cbv zeta. case_bool_decide as Hz; [|done].
  unfold with_activities. cbn [tbl_activity]. rewrite add_all_size.
  simpl length. lia. }
split; [done|]. split; [done|].
split.
{ intros id u Hl. rewrite after_initdb_eq. cbv zeta.
  assert (Hl' : tbl_user
                  match user_by_email d "admin@kidanta.local" with
                  | Some _ => d
                  | None => with_users d
                      (<[next_id (tbl_user d) := admin_user e]> (tbl_user d))
                  end !! id = Some u).
  { destruct (user_by_email d _); [done|]. simpl.
    rewrite lookup_insert_ne; [done|].
    intros <-. by rewrite next_id_fresh in Hl. }
  by case_bool_decide. }
split.
{ intros id a Hl. rewrite after_initdb_eq. cbv zeta.
  assert (Hl' : tbl_activity
                  match user_by_email d "admin@kidanta.local" with
                  | Some _ => d
                  | None => with_users d
                      (<[next_id (tbl_user d) := admin_user e]> (tbl_user d))
                  end !! id = Some a)
    by (by destruct (user_by_email d _)).
  case_bool_decide; [|done]. unfold with_activities. cbn [tbl_activity].
  by apply add_all_keeps. }
split.
{ intros [r Hq]. rewrite after_initdb_eq, Hq. cbv zeta.
  by case_bool_decide. }
split.
{ intros Hne. rewrite after_initdb_eq. cbv zeta.
  destruct (user_by_email d _); simpl; by rewrite bool_decide_false. }
split.
{ intros Hz. rewrite after_initdb_eq. cbv zeta.
  destruct (user_by_email d _); cbn [tbl_activity with_users];
    rewrite bool_decide_true by done; unfold with_activities;
    cbn [tbl_activity with_users]; rewrite add_all_size, Hz; done. }
split.
{ rewrite after_initdb_eq. cbv zeta.
  destruct (user_by_email d _); case_bool_decide; done. }
split.
{ rewrite after_initdb_eq. cbv zeta.
  destruct (user_by_email d _); case_bool_decide; done. }
split.
{ rewrite after_initdb_eq. cbv zeta.
  destruct (user_by_email d _); case_bool_decide; done. }
split.
{ rewrite (after_initdb_eq e' (after_initdb e d)). cbv zeta.
  destruct Hadmin as [r ->]. by rewrite bool_decide_false. }
intros who. vm_compute. reflexivity.
Qed.

(** ** Charts and the other views *)

(** The aggregation reads the rows of the student and nothing else. *)
Lemma aggregate_rows_ext (d1 d2 : database) (sid : Z) (period : string) :
  behavior_logs_of d1 sid ≡ₚ behavior_logs_of d2 sid ->
  _aggregate_behavior d1 sid period = _aggregate_behavior d2 sid period.
Proof.
intros Hp. unfold _aggregate_behavior, query_logs_of.
destruct (Sql.int_ok sid); [|reflexivity].
change (mbind ?f (Py.Ok (behavior_logs_of d1 sid)))
  with (f (behavior_logs_of d1 sid)).
change (mbind ?f (Py.Ok (behavior_logs_of d2 sid)))
  with (f (behavior_logs_of d2 sid)).
cbv beta. by rewrite (buckets_permutation period _ _ Hp).
Qed.

(** X9. The chart of a student depends only on which behaviour-log rows
    the student has, not on their keys, the order in which the query
    returns them, or anything else in the database: two databases in which
    the student's rows are the same up to order give the same chart for
    every period. *)
Theorem aggregate_depends_on_rows_only (d1 d2 : database) (sid : Z)
    (period : string) :
  behavior_logs_of d1 sid ≡ₚ behavior_logs_of d2 sid ->
  _aggregate_behavior d1 sid period = _aggregate_behavior d2 sid period.
Proof.
intros Hp. unfold _aggregate_behavior, query_logs_of.
destruct (Sql.int_ok sid); [|reflexivity].
change (mbind ?f (Py.Ok (behavior_logs_of d1 sid)))
  with (f (behavior_logs_of d1 sid)).
change (mbind ?f (Py.Ok (behavior_logs_of d2 sid)))
  with (f (behavior_logs_of d2 sid)).
cbv beta. by rewrite (buckets_permutation period _ _ Hp).
Qed.

Lemma aggregate_depends_on_rows_only_witness :
  _aggregate_behavior sample_db 1 "monthly"
  = _aggregate_behavior
      (Database ∅ ∅ ∅
         (<[8 := BehaviorLog.mk 1 (Py.Date 2024 1 1) 2 4 4 ""]>
            (<[3 := BehaviorLog.mk 1 (Py.Date 2024 1 1) 4 3 5 ""]> ∅)) ∅)
      1 "monthly".
Proof.
apply aggregate_depends_on_rows_only. vm_compute. apply perm_swap.
Defined.

(** The account, student and activity views leave both log tables as they
    were. *)
Lemma serve_keeps_log_tables (e : env) (d : database) (who : option Z)
    (r : route) (req : request) :
  tbl_behavior_log (db_after (serve e d who r req)) = tbl_behavior_log d
  /\ tbl_activity_log (db_after (serve e d who r req)) = tbl_activity_log d.
Proof.
unfold serve.
destruct (negb (url_matches r)); [done|].
destruct (negb (allows r (method req))); [done|].
destruct r; unfold view, register, login, logout, student_new, student_edit,
  student_delete, student_detail, activity_new, activity_edit,
  activity_delete, api_behavior, login_required, current_user, commit_ints;
  run_view; repeat (case_match; run_view; simplify_eq); done.
Qed.

(** X10. None of the account, student and activity views writes the log
    tables: after any request served by them the behaviour-log and
    activity-log tables are what they were, and so is every chart; in
    particular deleting a student leaves the student's chart as it was. *)
Theorem serve_keeps_logs (e : env) (d : database) (who : option Z) (r : route)
    (req : request) :
  tbl_behavior_log (db_after (serve e d who r req)) = tbl_behavior_log d
  /\ tbl_activity_log (db_after (serve e d who r req)) = tbl_activity_log d
  /\ forall sid period,
       _aggregate_behavior (db_after (serve e d who r req)) sid period
       = _aggregate_behavior d sid period.
Proof.
destruct (serve_keeps_log_tables e d who r req) as [Hb Ha].
split; [done|]. split; [done|].
intros sid period.
unfold _aggregate_behavior, query_logs_of, behavior_logs_of.
by rewrite Hb.
Qed.

(** ** Dates *)

Lemma digit_val_digit_char (k : Z) :
  Py.digit_val (Py.digit_char k) = Some (k mod 10).
Proof.
unfold Py.digit_char.
pose proof (Z.mod_pos_bound k 10 ltac:(lia)) as Hr.
assert (Hcase : k mod 10 = 0 \/ k mod 10 = 1 \/ k mod 10 = 2 \/ k mod 10 = 3
                \/ k mod 10 = 4 \/ k mod 10 = 5 \/ k mod 10 = 6
                \/ k mod 10 = 7 \/ k mod 10 = 8 \/ k mod 10 = 9) by lia.
destruct Hcase as [->|[->|[->|[->|[->|[->|[->|[->|[->| ->]]]]]]]]];
  reflexivity.
Qed.

(** [%Y] reads back what [%Y] wrote. *)
Lemma match_year_zero_pad (y : Z) (rest : string) :
  0 <= y <= 9999 ->
  PyDate.match_year (Py.zero_pad 4 y +:+ rest) = Some (y, rest).
Proof.
intros Hy.
change (Py.zero_pad 4 y +:+ rest)
  with (String (Py.digit_char (y / 10 / 10 / 10))
          (String (Py.digit_char (y / 10 / 10))
             (String (Py.digit_char (y / 10))
                (String (Py.digit_char y) rest)))).
unfold PyDate.match_year. rewrite !digit_val_digit_char.
f_equal. f_equal.
pose proof (Z.div_mod y 10 ltac:(lia)).
pose proof (Z.div_mod (y / 10) 10 ltac:(lia)).
pose proof (Z.div_mod (y / 10 / 10) 10 ltac:(lia)).
assert (y / 10 / 10 / 10 < 10)
  by (repeat (apply Z.div_lt_upper_bound; [lia|]); lia).
assert (0 <= y / 10 / 10 / 10) by (repeat apply Z.div_pos; lia).
rewrite (Z.mod_small (y / 10 / 10 / 10) 10) by lia. lia.
Qed.

(** X11. Round trip of the date format: a calendar date from the year
    1000 on, where [%Y] writes four digits, written with
    [strftime("%Y-%m-%d")], the format of the daily chart labels, is read
    back by the [strptime] of the log forms as the same date. *)
Theorem strptime_strftime_roundtrip (d : Py.date) :
  PyDate.valid d -> 1000 <= Py.year d ->
  PyDate.strptime_ymd (Py.strftime d "%Y-%m-%d") = Py.Ok d.
Proof.
destruct d as [y m dd]. unfold PyDate.valid. simpl Py.year. simpl Py.month.
simpl Py.day. intros (Hy & Hm & Hd) Hfour.
change (Py.strftime (Py.Date y m dd) "%Y-%m-%d")
  with (Py.year_str y +:+
        String "-" (Py.zero_pad 2 m +:+ String "-" (Py.zero_pad 2 dd +:+ ""))).
rewrite (proj1 (year_str_four y Hfour)).
unfold PyDate.strptime_ymd, PyDate.regex_match.
rewrite match_year_zero_pad by lia.
assert (Hdays : PyDate.days_in_month y m <= 31).
{ unfold PyDate.days_in_month. repeat case_match; lia. }
assert (Hmake : PyDate.make_date y m dd = Py.Ok (Py.Date y m dd)).
{ unfold PyDate.make_date.
  rewrite !(proj2 (Z.leb_le _ _)) by lia. reflexivity. }
assert (Hmc : m = 1 \/ m = 2 \/ m = 3 \/ m = 4 \/ m = 5 \/ m = 6 \/ m = 7
              \/ m = 8 \/ m = 9 \/ m = 10 \/ m = 11 \/ m = 12) by lia.
assert (Hdc : dd = 1 \/ dd = 2 \/ dd = 3 \/ dd = 4 \/ dd = 5 \/ dd = 6
              \/ dd = 7 \/ dd = 8 \/ dd = 9 \/ dd = 10 \/ dd = 11 \/ dd = 12
              \/ dd = 13 \/ dd = 14 \/ dd = 15 \/ dd = 16 \/ dd = 17
              \/ dd = 18 \/ dd = 19 \/ dd = 20 \/ dd = 21 \/ dd = 22
              \/ dd = 23 \/ dd = 24 \/ dd = 25 \/ dd = 26 \/ dd = 27
              \/ dd = 28 \/ dd = 29 \/ dd = 30 \/ dd = 31) by lia.
clear Hm Hd Hdays.
repeat (destruct Hmc as [Hmc|Hmc]); subst m;
  repeat (destruct Hdc as [Hdc|Hdc]); subst dd; exact Hmake.
Qed.

Lemma strptime_strftime_roundtrip_witness :
  PyDate.strptime_ymd (Py.strftime (Py.Date 2024 2 29) "%Y-%m-%d")
  = Py.Ok (Py.Date 2024 2 29).
Proof.
apply strptime_strftime_roundtrip; [|simpl; lia]. unfold PyDate.valid.
repeat split; vm_compute; discriminate.
Defined.

(** [date(y, m, d)] returns calendar dates only. *)
Lemma make_date_valid (y m dd : Z) (d : Py.date) :
  PyDate.make_date y m dd = Py.Ok d -> PyDate.valid d /\ d = Py.Date y m dd.
Proof.
unfold PyDate.make_date. destruct (_ && _) eqn:Hok; [|done]. intros [= <-].
repeat (apply andb_prop in Hok as [Hok ?]).
unfold PyDate.valid. simpl. split; [lia|done].
Qed.

(** ** Recording logs *)

(** Unfold the monad operations of the remaining views and compute. *)
Ltac run_more :=
  repeat progress
    (unfold login_required_view, current_user, add_behavior_log,
       add_activity_log, commit_ints, date_field;
     run_view).

Lemma login_required_view_pass (h : Z -> M full_response) (w : world) uid u :
  login_id w = Some uid -> tbl_user (work w) !! uid = Some u ->
  login_required_view h w = h uid w.
Proof.
intros Hid Hu. unfold login_required_view, mbind, M_bind, current_user.
rewrite Hid, Hu. reflexivity.
Qed.

Lemma login_required_view_refuses (h : Z -> M full_response) (d : database)
    (who : option Z) :
  anonymous d who ->
  login_required_view h (World d d who [])
  = (inr (Basic (Redirect EpLogin)), World d d who [flash_login_required]).
Proof.
intros Hanon. unfold login_required_view, current_user, mbind, M_bind. simpl.
destruct who as [uid|]; simpl in Hanon; [rewrite Hanon|]; reflexivity.
Qed.

Lemma date_field_lift (e : env) (req : request) (field : string) :
  date_field e req field = lift (submitted_date e req field).
Proof.
unfold date_field, submitted_date.
destruct (form req !! field) as [v|]; [|done]. by destruct (Py.is_empty v).
Qed.

(** What a POST to /logs/behavior/new does once every field is read. *)
Lemma behavior_new_post (e : env) (d : database) (uid : Z) (u : User.t)
    (req : request) (v : string) (sid mood focus social : Z) (dt : Py.date) :
  tbl_user d !! uid = Some u -> method req = POST ->
  form req !! "student_id" = Some v -> Py.int_of_str v = Py.Ok sid ->
  submitted_date e req "log_date" = Py.Ok dt ->
  Py.int_or (form_get req "mood" "3") 3 = Py.Ok mood ->
  Py.int_or (form_get req "focus" "3") 3 = Py.Ok focus ->
  Py.int_or (form_get req "social" "3") 3 = Py.Ok social ->
  serve_view e d (Some uid) R_behavior_new req =
    if forallb Sql.int_ok [sid; mood; focus; social] then
      ViewOutcome (Basic (Redirect (EpStudentDetail sid)))
        [flash_behavior_saved]
        (with_behavior_logs d
           (<[next_id (tbl_behavior_log d) :=
                BehaviorLog.mk sid dt mood focus social
                  (form_get req "notes" "")]> (tbl_behavior_log d)))
        (Some uid)
    else
      ViewOutcome (Basic (InternalServerError Py.OverflowError)) [] d
        (Some uid).
Proof.
intros Hu Hpost Hv Hsid Hdt Hmood Hfocus Hsocial.
unfold serve_view, view_url_matches, view_allows, view_of. rewrite Hpost.
simpl negb. cbv iota.
unfold behavior_new. erewrite login_required_view_pass by done.
rewrite Hv, Hsid, date_field_lift, Hdt, Hmood, Hfocus, Hsocial.
run_more. destruct (Sql.int_ok sid && _); reflexivity.
Qed.

(** X13. Recording a behaviour log: when [int] reads the student id and
    the three scores, the date parses and the four integers fit SQLite's 64
    bits, exactly one row is appended under a free key, with the submitted
    student id, the parsed date (today when the
    date field is absent or empty), the three scores (3 when absent or
    empty) and the notes; every row that was stored stays, the other tables
    are untouched, and the answer is a redirect to the detail page of that
    student id, which is not checked against the student table nor the
    scores against 1..5. *)
Theorem behavior_new_appends (e : env) (d : database) (uid : Z) (u : User.t)
    (req : request) (v : string) (sid mood focus social : Z) (dt : Py.date) :
  tbl_user d !! uid = Some u -> method req = POST ->
  form req !! "student_id" = Some v -> Py.int_of_str v = Py.Ok sid ->
  submitted_date e req "log_date" = Py.Ok dt ->
  Py.int_or (form_get req "mood" "3") 3 = Py.Ok mood ->
  Py.int_or (form_get req "focus" "3") 3 = Py.Ok focus ->
  Py.int_or (form_get req "social" "3") 3 = Py.Ok social ->
  sqlite_integer sid -> sqlite_integer mood -> sqlite_integer focus ->
  sqlite_integer social ->
  let o := serve_view e d (Some uid) R_behavior_new req in
  let key := next_id (tbl_behavior_log d) in
  let row := BehaviorLog.mk sid dt mood focus social
               (form_get req "notes" "") in
  v_resp o = Basic (Redirect (EpStudentDetail sid))
  /\ v_flashed o = [flash_behavior_saved]
  /\ tbl_behavior_log d !! key = None
  /\ tbl_behavior_log (v_db_after o) !! key = Some row
  /\ (forall j, j <> key ->
        tbl_behavior_log (v_db_after o) !! j = tbl_behavior_log d !! j)
  /\ tbl_student (v_db_after o) = tbl_student d
  /\ tbl_activity (v_db_after o) = tbl_activity d
  /\ tbl_activity_log (v_db_after o) = tbl_activity_log d
  /\ tbl_user (v_db_after o) = tbl_user d
  /\ (form req !! "log_date" = None \/ form req !! "log_date" = Some ""
        -> dt = today e)
  /\ (form req !! "mood" = None \/ form req !! "mood" = Some "" -> mood = 3).
Proof.
intros Hu Hpost Hv Hsid Hdt Hmood Hfocus Hsocial Hi1 Hi2 Hi3 Hi4. cbv zeta.
rewrite (behavior_new_post e d uid u req v sid mood focus social dt)
  by done.
assert (Hok : forallb Sql.int_ok [sid; mood; focus; social] = true).
{ simpl. rewrite !(proj2 (int_ok_spec _)) by done. reflexivity. }
rewrite Hok. simpl.
split; [done|]. split; [done|]. split; [apply next_id_fresh|].
split; [apply lookup_insert_eq|].
split; [by intros j Hj; apply lookup_insert_ne|].
do 4 (split; [done|]). split.
- unfold submitted_date in Hdt.
  intros [Hf|Hf]; rewrite Hf in Hdt; simpl in Hdt; congruence.
- unfold form_get in Hmood.
  intros [Hf|Hf]; rewrite Hf in Hmood; vm_compute in Hmood; congruence.
Qed.

Lemma behavior_new_appends_witness :
  let req := post [("student_id", "77"); ("log_date", "2024-3-5");
                   ("mood", "9"); ("focus", "")] in
  tbl_behavior_log
    (v_db_after (serve_view sample_env sample_db (Some 1) R_behavior_new req))
    !! 7
  = Some (BehaviorLog.mk 77 (Py.Date 2024 3 5) 9 3 3 "")
  /\ tbl_student sample_db !! 77 = None.
Proof.
cbv zeta. split; [|reflexivity].
destruct (behavior_new_appends sample_env sample_db 1 sample_user
            (post [("student_id", "77"); ("log_date", "2024-3-5");
                   ("mood", "9"); ("focus", "")])
            "77" 77 9 3 3 (Py.Date 2024 3 5))
  as (_ & _ & _ & Hrow & _);
  [reflexivity|reflexivity|reflexivity|reflexivity
  |reflexivity|reflexivity
  |reflexivity|reflexivity|unfold sqlite_integer; lia
  |unfold sqlite_integer; lia|unfold sqlite_integer; lia
  |unfold sqlite_integer; lia|].
exact Hrow.
Defined.

Ltac nothing_stored :=
  split; [done|left; split; [done|intros ?; discriminate]].

(** A request to /logs/behavior/new either stores nothing or ends with the
    redirect after storing one row whose integers fit and whose date is the
    submitted one. *)
Lemma behavior_new_cases (e : env) (d : database) (who : option Z)
    (req : request) :
  let o := serve_view e d who R_behavior_new req in
  v_login_after o = who
  /\ ((v_db_after o = d /\ forall sid, v_resp o <> Basic (Redirect (EpStudentDetail sid)))
      \/ exists row,
           v_db_after o
           = with_behavior_logs d
               (<[next_id (tbl_behavior_log d) := row]> (tbl_behavior_log d))
           /\ log_ints_ok row
           /\ submitted_date e req "log_date"
              = Py.Ok (BehaviorLog.log_date row)
           /\ v_resp o
              = Basic (Redirect (EpStudentDetail (BehaviorLog.student_id row)))
           /\ v_flashed o = [flash_behavior_saved]).
Proof.
cbv zeta. unfold serve_view, view_url_matches, view_allows, view_of.
simpl negb. cbv iota.
destruct (method req); simpl negb; cbv iota; [nothing_stored|].
unfold behavior_new.
assert (Hwho : anonymous d who \/ exists uid u,
                 who = Some uid /\ tbl_user d !! uid = Some u).
{ destruct who as [uid|]; [|by left].
  destruct (tbl_user d !! uid) as [u|] eqn:Hu; [right; eauto|by left]. }
destruct Hwho as [Hanon|(uid & u & -> & Hu)].
{ rewrite login_required_view_refuses by done. nothing_stored. }
erewrite login_required_view_pass by done.
destruct (form req !! "student_id") as [v|]; [|run_more; nothing_stored].
destruct (Py.int_of_str v) as [sid|x]; [|run_more; nothing_stored].
rewrite date_field_lift.
destruct (submitted_date e req "log_date") as [dt|x] eqn:Hdt;
  [|run_more; nothing_stored].
destruct (Py.int_or (form_get req "mood" "3") 3) as [mood|x];
  [|run_more; nothing_stored].
destruct (Py.int_or (form_get req "focus" "3") 3) as [focus|x];
  [|run_more; nothing_stored].
destruct (Py.int_or (form_get req "social" "3") 3) as [social|x];
  [|run_more; nothing_stored].
run_more.
destruct (Sql.int_ok sid && _) eqn:Hok; simpl; [|nothing_stored].
split; [reflexivity|]. right.
exists (BehaviorLog.mk sid dt mood focus social (form_get req "notes" "")).
split; [done|]. split; [|done].
repeat (apply andb_prop in Hok as [?%int_ok_spec Hok]).
unfold log_ints_ok. simpl. tauto.
Qed.

(** The other views of this group leave the behaviour logs alone. *)
Lemma serve_view_keeps_behavior_logs (e : env) (d : database)
    (who : option Z) (r : view_route) (req : request) :
  r <> R_behavior_new ->
  tbl_behavior_log (v_db_after (serve_view e d who r req))
  = tbl_behavior_log d.
Proof.
intros Hr. unfold serve_view.
destruct (negb (view_url_matches r)); [done|].
destruct (negb (view_allows r (method req))); [done|].
destruct r; try done;
  unfold view_of, dashboard, students, activities, activitylog_new, reports,
    print_student;
  rewrite ?date_field_lift; run_more;
  repeat (case_match; run_more; simplify_eq); done.
Qed.

(** X14. Recording a behaviour log is all or nothing: whatever the
    request, either the answer is the redirect to the student's page and
    exactly one row was appended, or nothing at all was stored: not when
    student_id is missing (TypeError), not when a number or the date does
    not parse (ValueError), not when an integer exceeds 64 bits
    (OverflowError), not when the request is anonymous.  The session is
    never changed. *)
Theorem behavior_new_all_or_nothing (e : env) (d : database)
    (who : option Z) (req : request) :
  let o := serve_view e d who R_behavior_new req in
  v_login_after o = who
  /\ ((exists sid, v_resp o = Basic (Redirect (EpStudentDetail sid)))
      -> exists row,
           v_db_after o
           = with_behavior_logs d
               (<[next_id (tbl_behavior_log d) := row]> (tbl_behavior_log d))
           /\ tbl_behavior_log d !! next_id (tbl_behavior_log d) = None)
  /\ ((forall sid, v_resp o <> Basic (Redirect (EpStudentDetail sid)))
      -> v_db_after o = d)
  /\ (form req !! "student_id" = None -> logged_in d who ->
      method req = POST ->
      o = ViewOutcome InternalServerErrorTypeError [] d who).
Proof.
cbv zeta. destruct (behavior_new_cases e d who req) as [Hlogin Hcases].
cbv zeta in Hlogin, Hcases. split; [done|]. split; [|split].
- intros [sid Hresp]. destruct Hcases as [[_ Hno]|(row & Hdb & _)].
  + by destruct (Hno sid).
  + exists row. split; [done|apply next_id_fresh].
- intros Hno. destruct Hcases as [[Hdb _]|(row & _ & _ & _ & Hresp & _)];
    [done|]. by destruct (Hno (BehaviorLog.student_id row)).
- intros Hmissing (uid & u & -> & Hu) Hpost.
  unfold serve_view, view_url_matches, view_allows, view_of. rewrite Hpost.
  simpl negb. cbv iota.
  unfold behavior_new. erewrite login_required_view_pass by done.
  by rewrite Hmissing.
Qed.

(** ** Invariants of the log table *)

(** The date a log gets is a calendar date when today is one. *)
Lemma submitted_date_valid (e : env) (req : request) (field : string)
    (dt : Py.date) :
  PyDate.valid (today e) ->
  submitted_date e req field = Py.Ok dt -> PyDate.valid dt.
Proof.
intros Htoday. unfold submitted_date, PyDate.strptime_ymd.
destruct (form req !! field) as [v|]; [|by intros [= <-]].
destruct (Py.is_empty v); [by intros [= <-]|].
destruct (PyDate.regex_match v) as [[[[y m] dd] rest]|]; [|done].
destruct (Py.is_empty rest); [|done].
by intros [Hv _]%make_date_valid.
Qed.

(** X15. Every stored behaviour log carries a date of the calendar, and
    no request changes that: whatever any view of either group is sent,
    by whomever, the dates in the table are calendar dates afterwards if
    they were before and today is one. *)
Theorem log_dates_stay_valid (e : env) (d : database) (who : option Z)
    (req : request) :
  PyDate.valid (today e) -> dates_valid d ->
  (forall r, dates_valid (db_after (serve e d who r req)))
  /\ (forall r, dates_valid (v_db_after (serve_view e d who r req))).
Proof.
intros Htoday Hd. split; intros r.
- unfold dates_valid.
  by rewrite (proj1 (serve_keeps_log_tables e d who r req)).
- assert (Hcases : r = R_behavior_new \/ r <> R_behavior_new)
    by (destruct r; (by left) || (by right)).
  destruct Hcases as [->|Hr].
  + destruct (behavior_new_cases e d who req) as [_ Hcases].
    cbv zeta in Hcases.
    destruct Hcases as [[-> _]|(row & -> & _ & Hdt & _)]; [done|].
    unfold dates_valid, with_behavior_logs. cbn [tbl_behavior_log].
    apply map_Forall_insert_2; [|done].
    by apply (submitted_date_valid e req "log_date").
  + unfold dates_valid. by rewrite serve_view_keeps_behavior_logs.
Qed.

Lemma log_dates_stay_valid_witness :
  dates_valid
    (v_db_after
       (serve_view sample_env sample_db (Some 1) R_behavior_new
          (post [("student_id", "1"); ("log_date", "2024-02-29")]))).
Proof.
apply (log_dates_stay_valid sample_env sample_db (Some 1)
         (post [("student_id", "1"); ("log_date", "2024-02-29")])).
- unfold PyDate.valid. repeat split; vm_compute; discriminate.
- unfold dates_valid. apply (bool_decide_unpack _). vm_compute. exact I.
Defined.

(** An id beyond 64 bits cannot be bound to the query. *)
Lemma aggregate_overflow (d : database) (sid : Z) (period : string) :
  ~ sqlite_integer sid ->
  _aggregate_behavior d sid period = Py.Raise Py.OverflowError.
Proof.
intros Hsid%int_ok_false. unfold _aggregate_behavior, query_logs_of.
by rewrite Hsid.
Qed.

(** X16. The integers of every stored behaviour log (student id and the
    three scores) fit SQLite's 64-bit INTEGER, and no request changes that:
    an integer beyond 64 bits makes the INSERT fail, so the table never
    holds one.  Hence after any request the aggregation returns a chart for
    every period and every student id that fits 64 bits (no mean leaves the
    range of a float), and raises OverflowError for every other id. *)
Theorem scores_stay_in_range (e : env) (d : database) (who : option Z)
    (req : request) :
  logs_in_range d ->
  (forall r,
     let d' := db_after (serve e d who r req) in
     logs_in_range d'
     /\ forall sid period,
          (sqlite_integer sid ->
           exists c, _aggregate_behavior d' sid period = Py.Ok c)
          /\ (~ sqlite_integer sid ->
              _aggregate_behavior d' sid period = Py.Raise Py.OverflowError))
  /\ (forall r,
       let d' := v_db_after (serve_view e d who r req) in
       logs_in_range d'
       /\ forall sid period,
            (sqlite_integer sid ->
             exists c, _aggregate_behavior d' sid period = Py.Ok c)
            /\ (~ sqlite_integer sid ->
                _aggregate_behavior d' sid period
                = Py.Raise Py.OverflowError)).
Proof.
intros Hd.
assert (Hserve : forall r, logs_in_range (db_after (serve e d who r req))).
{ intros r. unfold logs_in_range.
  by rewrite (proj1 (serve_keeps_log_tables e d who r req)). }
assert (Hview : forall r,
          logs_in_range (v_db_after (serve_view e d who r req))).
{ intros r.
  assert (Hcases : r = R_behavior_new \/ r <> R_behavior_new)
    by (destruct r; (by left) || (by right)).
  destruct Hcases as [->|Hr].
  - destruct (behavior_new_cases e d who req) as [_ Hcases].
    cbv zeta in Hcases.
    destruct Hcases as [[-> _]|(row & -> & Hints & _)]; [done|].
    unfold logs_in_range, with_behavior_logs. cbn [tbl_behavior_log].
    by apply map_Forall_insert_2.
  - unfold logs_in_range. by rewrite serve_view_keeps_behavior_logs. }
split; intros r; cbv zeta; (split; [done|]); intros sid period;
  (split; [by apply aggregate_returns|apply aggregate_overflow]).
Qed.

Lemma scores_stay_in_range_witness :
  logs_in_range
    (v_db_after
       (serve_view sample_env sample_db (Some 1) R_behavior_new
          (post [("student_id", "1"); ("mood", "9223372036854775807")])))
  /\ tbl_behavior_log
       (v_db_after
          (serve_view sample_env sample_db (Some 1) R_behavior_new
             (post [("student_id", "1"); ("mood", "9223372036854775808")])))
     = tbl_behavior_log sample_db.
Proof.
split.
- destruct (scores_stay_in_range sample_env sample_db (Some 1)
              (post [("student_id", "1"); ("mood", "9223372036854775807")]))
    as [_ Hview]; [apply sample_logs_in_range|].
  apply (Hview R_behavior_new).
- reflexivity.
Defined.

(** ** From a recorded log to the chart *)

(** The rows of a student after one more row went into the table. *)
Lemma behavior_logs_of_insert (d : database) (row : BehaviorLog.t) (sid : Z) :
  behavior_logs_of
    (with_behavior_logs d
       (<[next_id (tbl_behavior_log d) := row]> (tbl_behavior_log d))) sid
  ≡ₚ (if decide (BehaviorLog.student_id row = sid)
      then row :: behavior_logs_of d sid else behavior_logs_of d sid).
Proof.
unfold behavior_logs_of, rows, with_behavior_logs. cbn [tbl_behavior_log].
rewrite map_to_list_insert by apply next_id_fresh.
rewrite fmap_cons, filter_cons. simpl. by case_decide.
Qed.

(** X17. From the form to the chart: after a behaviour log was recorded
    for student id [sid] with date [dt] ([int] having read the id and the
    three scores, the four integers fitting 64 bits like those of the rows
    already stored), the chart of that id exists for every period and its
    labels are the labels it had together with the key of [dt]; the chart of
    every other id is what it was. *)
Theorem behavior_new_then_chart (e : env) (d : database) (uid : Z)
    (u : User.t) (req : request) (v : string) (sid mood focus social : Z)
    (dt : Py.date) :
  tbl_user d !! uid = Some u -> method req = POST ->
  form req !! "student_id" = Some v -> Py.int_of_str v = Py.Ok sid ->
  submitted_date e req "log_date" = Py.Ok dt ->
  Py.int_or (form_get req "mood" "3") 3 = Py.Ok mood ->
  Py.int_or (form_get req "focus" "3") 3 = Py.Ok focus ->
  Py.int_or (form_get req "social" "3") 3 = Py.Ok social ->
  sqlite_integer sid -> sqlite_integer mood -> sqlite_integer focus ->
  sqlite_integer social ->
  logs_in_range d ->
  let d' := v_db_after (serve_view e d (Some uid) R_behavior_new req) in
  forall period,
    (exists c0 c,
       _aggregate_behavior d sid period = Py.Ok c0
       /\ _aggregate_behavior d' sid period = Py.Ok c
       /\ bucket_key period dt ∈ Chart.labels c
       /\ (forall k, k ∈ Chart.labels c <->
             k ∈ Chart.labels c0 \/ k = bucket_key period dt))
    /\ (forall sid', sid' <> sid ->
          _aggregate_behavior d' sid' period
          = _aggregate_behavior d sid' period).
Proof.
intros Hu Hpost Hv Hsid Hdt Hmood Hfocus Hsocial Hi1 Hi2 Hi3 Hi4 Hrange.
cbv zeta.
rewrite (behavior_new_post e d uid u req v sid mood focus social dt)
  by done.
assert (Hok : forallb Sql.int_ok [sid; mood; focus; social] = true).
{ simpl. rewrite !(proj2 (int_ok_spec _)) by done. reflexivity. }
rewrite Hok. cbn [v_db_after]. intros period.
set (row := BehaviorLog.mk sid dt mood focus social (form_get req "notes" "")).
set (d' := with_behavior_logs d _).
assert (Hrange' : logs_in_range d').
{ unfold logs_in_range, d', with_behavior_logs. cbn [tbl_behavior_log].
  apply map_Forall_insert_2; [|done]. by subst row. }
split.
- destruct (aggregate_returns d sid period Hrange Hi1) as [c0 Hc0].
  destruct (aggregate_returns d' sid period Hrange' Hi1) as [c Hc].
  exists c0, c. split; [done|]. split; [done|].
  apply aggregate_Ok_inv in Hc0 as [Hl0 _]. apply aggregate_Ok_inv in Hc as [Hl _].
  cbv zeta in Hl0, Hl.
  pose proof (labels_spec period (behavior_logs_of d sid)) as [_ Hk0].
  pose proof (labels_spec period (behavior_logs_of d' sid)) as [_ Hk].
  cbv zeta in Hk0, Hk. rewrite <- Hl0 in Hk0. rewrite <- Hl in Hk.
  assert (Hrows : behavior_logs_of d' sid ≡ₚ row :: behavior_logs_of d sid).
  { unfold d'. rewrite behavior_logs_of_insert.
    by rewrite decide_True by done. }
  assert (Hall : forall k, k ∈ Chart.labels c <->
                   k ∈ Chart.labels c0 \/ k = bucket_key period dt).
  { intros k. rewrite Hk, Hk0. split.
    - intros (r & Hr & Hkey). rewrite Hrows in Hr.
      apply elem_of_cons in Hr as [->|Hr]; [by right|left; eauto].
    - intros [(r & Hr & Hkey)| ->].
      + exists r. split; [|done]. rewrite Hrows. by right.
      + exists row. split; [|done]. rewrite Hrows. by left. }
  split; [|done]. apply Hall. by right.
- intros sid' Hne. apply aggregate_rows_ext. unfold d'.
  rewrite behavior_logs_of_insert. by rewrite decide_False by done.
Qed.

Lemma behavior_new_then_chart_witness :
  _aggregate_behavior
    (v_db_after
       (serve_view sample_env sample_db (Some 1) R_behavior_new
          (post [("student_id", "1"); ("log_date", "2025-07-04")])))
    2 "yearly"
  = _aggregate_behavior sample_db 2 "yearly".
Proof.
destruct (behavior_new_then_chart sample_env sample_db 1 sample_user
            (post [("student_id", "1"); ("log_date", "2025-07-04")])
            "1" 1 3 3 3 (Py.Date 2025 7 4)) with (period := "yearly")
  as [_ Hothers];
  [reflexivity|reflexivity|reflexivity|reflexivity
  |reflexivity|reflexivity
  |reflexivity|reflexivity|unfold sqlite_integer; lia
  |unfold sqlite_integer; lia|unfold sqlite_integer; lia
  |unfold sqlite_integer; lia|apply sample_logs_in_range|].
apply Hothers. discriminate.
Defined.

(** ** Recording activity logs *)

(** What a POST to /logs/activity/new does once its fields are read. *)
Lemma activitylog_new_post (e : env) (d : database) (uid : Z) (u : User.t)
    (req : request) (v v' : string) (sid aid : Z) (dt : Py.date) :
  tbl_user d !! uid = Some u -> method req = POST ->
  form req !! "student_id" = Some v -> Py.int_of_str v = Py.Ok sid ->
  form req !! "activity_id" = Some v' -> Py.int_of_str v' = Py.Ok aid ->
  submitted_date e req "done_at" = Py.Ok dt ->
  serve_view e d (Some uid) R_activitylog_new req =
    if forallb Sql.int_ok [sid; aid] then
      ViewOutcome (Basic (Redirect (EpStudentDetail sid)))
        [flash_activitylog_saved]
        (with_activity_logs d
           (<[next_id (tbl_activity_log d) :=
                ActivityLog.mk sid aid dt (form_get req "remark" "")]>
              (tbl_activity_log d)))
        (Some uid)
    else
      ViewOutcome (Basic (InternalServerError Py.OverflowError)) [] d
        (Some uid).
Proof.
intros Hu Hpost Hv Hsid Hv' Haid Hdt.
unfold serve_view, view_url_matches, view_allows, view_of. rewrite Hpost.
simpl negb. cbv iota.
unfold activitylog_new. erewrite login_required_view_pass by done.
rewrite Hv, Hsid, Hv', Haid, date_field_lift, Hdt.
run_more. destruct (Sql.int_ok sid && _); reflexivity.
Qed.

(** X18. Recording an activity log: when [int] reads both ids, they fit
    SQLite's 64 bits and the date parses (today when the field is absent or
    empty), exactly one row is appended to the activity-log table under
    a free key; every other row and every other table stay, and the answer
    is a redirect to the detail page of the submitted student id.  Neither
    id is looked up: the row is stored whether or not such a student or
    activity exists. *)
Theorem activitylog_new_appends (e : env) (d : database) (uid : Z)
    (u : User.t) (req : request) (v v' : string) (sid aid : Z)
    (dt : Py.date) :
  tbl_user d !! uid = Some u -> method req = POST ->
  form req !! "student_id" = Some v -> Py.int_of_str v = Py.Ok sid ->
  form req !! "activity_id" = Some v' -> Py.int_of_str v' = Py.Ok aid ->
  submitted_date e req "done_at" = Py.Ok dt ->
  sqlite_integer sid -> sqlite_integer aid ->
  let o := serve_view e d (Some uid) R_activitylog_new req in
  let key := next_id (tbl_activity_log d) in
  v_resp o = Basic (Redirect (EpStudentDetail sid))
  /\ v_flashed o = [flash_activitylog_saved]
  /\ tbl_activity_log d !! key = None
  /\ tbl_activity_log (v_db_after o) !! key
     = Some (ActivityLog.mk sid aid dt (form_get req "remark" ""))
  /\ (forall j, j <> key ->
        tbl_activity_log (v_db_after o) !! j = tbl_activity_log d !! j)
  /\ tbl_behavior_log (v_db_after o) = tbl_behavior_log d
  /\ tbl_student (v_db_after o) = tbl_student d
  /\ tbl_activity (v_db_after o) = tbl_activity d
  /\ tbl_user (v_db_after o) = tbl_user d
  /\ (form req !! "done_at" = None \/ form req !! "done_at" = Some ""
        -> dt = today e).
Proof.
intros Hu Hpost Hv Hsid Hv' Haid Hdt Hi1 Hi2. cbv zeta.
rewrite (activitylog_new_post e d uid u req v v' sid aid dt) by done.
assert (Hok : forallb Sql.int_ok [sid; aid] = true).
{ simpl. rewrite !(proj2 (int_ok_spec _)) by done. reflexivity. }
rewrite Hok. simpl.
split; [done|]. split; [done|]. split; [apply next_id_fresh|].
split; [apply lookup_insert_eq|].
split; [by intros j Hj; apply lookup_insert_ne|].
do 4 (split; [done|]).
unfold submitted_date in Hdt.
intros [Hf|Hf]; rewrite Hf in Hdt; simpl in Hdt; congruence.
Qed.

Lemma activitylog_new_appends_witness :
  let req := post [("student_id", "77"); ("activity_id", "99")] in
  tbl_activity_log
    (v_db_after
       (serve_view sample_env sample_db (Some 1) R_activitylog_new req))
    !! next_id (tbl_activity_log sample_db)
  = Some (ActivityLog.mk 77 99 (today sample_env) "")
  /\ tbl_student sample_db !! 77 = None
  /\ tbl_activity sample_db !! 99 = None.
Proof.
cbv zeta. split; [|split; reflexivity].
destruct (activitylog_new_appends sample_env sample_db 1 sample_user
            (post [("student_id", "77"); ("activity_id", "99")])
            "77" "99" 77 99 (today sample_env))
  as (_ & _ & _ & Hrow & _);
  [reflexivity|reflexivity|reflexivity|reflexivity
  |reflexivity|reflexivity
  |reflexivity|unfold sqlite_integer; lia|unfold sqlite_integer; lia|].
exact Hrow.
Defined.

(** X19. Recording an activity log is all or nothing: whatever the
    request, either the answer is the redirect to a student's page and
    exactly one row, holding the submitted date, went into the activity-log
    table under a free key, or nothing at all was stored; the behaviour
    logs and the session are never touched. *)
Theorem activitylog_new_all_or_nothing (e : env) (d : database)
    (who : option Z) (req : request) :
  let o := serve_view e d who R_activitylog_new req in
  v_login_after o = who
  /\ ((v_db_after o = d
       /\ forall sid, v_resp o <> Basic (Redirect (EpStudentDetail sid)))
      \/ exists row,
           v_db_after o
           = with_activity_logs d
               (<[next_id (tbl_activity_log d) := row]> (tbl_activity_log d))
           /\ tbl_activity_log d !! next_id (tbl_activity_log d) = None
           /\ sqlite_integer (ActivityLog.student_id row)
           /\ sqlite_integer (ActivityLog.activity_id row)
           /\ submitted_date e req "done_at"
              = Py.Ok (ActivityLog.done_at row)
           /\ v_resp o
              = Basic (Redirect (EpStudentDetail (ActivityLog.student_id row)))
           /\ v_flashed o = [flash_activitylog_saved]).
Proof.
cbv zeta. unfold serve_view, view_url_matches, view_allows, view_of.
simpl negb. cbv iota.
destruct (method req); simpl negb; cbv iota; [nothing_stored|].
unfold activitylog_new.
assert (Hwho : anonymous d who \/ exists uid u,
                 who = Some uid /\ tbl_user d !! uid = Some u).
{ destruct who as [uid|]; [|by left].
  destruct (tbl_user d !! uid) as [u|] eqn:Hu; [right; eauto|by left]. }
destruct Hwho as [Hanon|(uid & u & -> & Hu)].
{ rewrite login_required_view_refuses by done. nothing_stored. }
erewrite login_required_view_pass by done.
destruct (form req !! "student_id") as [v|]; [|run_more; nothing_stored].
destruct (Py.int_of_str v) as [sid|x]; [|run_more; nothing_stored].
destruct (form req !! "activity_id") as [v'|]; [|run_more; nothing_stored].
destruct (Py.int_of_str v') as [aid|x]; [|run_more; nothing_stored].
rewrite date_field_lift.
destruct (submitted_date e req "done_at") as [dt|x] eqn:Hdt;
  [|run_more; nothing_stored].
run_more.
destruct (Sql.int_ok sid && _) eqn:Hok; simpl; [|nothing_stored].
split; [reflexivity|]. right.
exists (ActivityLog.mk sid aid dt (form_get req "remark" "")).
split; [done|]. split; [apply next_id_fresh|].
apply andb_prop in Hok as [H1%int_ok_spec Hok].
apply andb_prop in Hok as [H2%int_ok_spec _].
simpl. done.
Qed.

(** ** Listings *)

Section Like.

Lemma app_nil_string (s : string) : "" +:+ s = s.
Proof. reflexivity. Qed.

Lemma app_cons_string (c : ascii) (a b : string) :
  String c a +:+ b = String c (a +:+ b).
Proof. reflexivity. Qed.

Lemma like_percent (p x : string) :
  Sql.like (String "%" p) x
  = Sql.like p x
    || match x with
       | EmptyString => false
       | String _ x' => Sql.like (String "%" p) x'
       end.
Proof. destruct x; reflexivity. Qed.

Lemma like_percent_spec (p x : string) :
  Sql.like (String "%" p) x = true <->
  exists pre post, x = pre +:+ post /\ Sql.like p post = true.
Proof.
induction x as [|c x IH]; rewrite like_percent, orb_true_iff.
- split.
  + intros [H|H]; [|done]. by exists "", "".
  + intros (pre & post & Hx & H). left.
    destruct pre; [|done]. rewrite app_nil_string in Hx. by subst post.
- rewrite IH. split.
  + intros [H|(pre & post & -> & H)]; [by exists "", (String c x)|].
    by exists (String c pre), post.
  + intros (pre & post & Hx & H). destruct pre as [|c' pre].
    * rewrite app_nil_string in Hx. subst post. by left.
    * rewrite app_cons_string in Hx. injection Hx as -> ->. right.
      by exists pre, post.
Qed.

Lemma like_literal (c : ascii) (p x : string) :
  c <> "%"%char -> c <> "_"%char ->
  Sql.like (String c p) x
  = match x with
    | EmptyString => false
    | String c' x' =>
        (Sql.lower_char c' =? Sql.lower_char c)%char && Sql.like p x'
    end.
Proof.
intros H1 H2.
destruct c as [[] [] [] [] [] [] [] []]; try done; by destruct x.
Qed.

Lemma sql_lower_char_idem (c : ascii) :
  Sql.lower_char (Sql.lower_char c) = Sql.lower_char c.
Proof. by destruct c as [[] [] [] [] [] [] [] []]. Qed.

Lemma sql_lower_idem (s : string) : Sql.lower (Sql.lower s) = Sql.lower s.
Proof.
induction s as [|c s IH]; [done|]. simpl. by rewrite sql_lower_char_idem, IH.
Qed.

Lemma sql_lower_app (a b : string) :
  Sql.lower (a +:+ b) = Sql.lower a +:+ Sql.lower b.
Proof.
induction a as [|c a IH]; [done|].
rewrite app_cons_string. simpl. by rewrite IH, app_cons_string.
Qed.

Lemma sql_lower_app_inv (x a b : string) :
  Sql.lower x = a +:+ b ->
  exists xa xb, x = xa +:+ xb /\ Sql.lower xa = a /\ Sql.lower xb = b.
Proof.
revert x. induction a as [|c a IH]; intros x Hx.
- by exists "", x.
- destruct x as [|c' x]; [done|]. rewrite app_cons_string in Hx.
  simpl in Hx. injection Hx as <- Hx.
  destruct (IH x Hx) as (xa & xb & -> & <- & <-).
  by exists (String c' xa), xb.
Qed.

Lemma no_wildcards_lower (q : string) :
  no_wildcards q = true -> no_wildcards (Sql.lower q) = true.
Proof.
induction q as [|c q IH]; [done|]. simpl.
intros [[H1 H2]%andb_prop H3]%andb_prop. rewrite (IH H3), andb_true_r.
clear -H1 H2. by destruct c as [[] [] [] [] [] [] [] []].
Qed.

(** A pattern that starts with literal characters matches a text that
    starts with them, up to the case of A..Z. *)
Lemma like_literal_prefix (p r x : string) :
  no_wildcards p = true ->
  Sql.like (p +:+ r) x = true <->
  exists x1 x2, x = x1 +:+ x2 /\ Sql.lower x1 = Sql.lower p
                /\ Sql.like r x2 = true.
Proof.
revert x. induction p as [|c p IH]; intros x Hp.
- rewrite app_nil_string. split.
  + intros H. by exists "", x.
  + intros (x1 & x2 & -> & Hl & H). by destruct x1.
- simpl in Hp. apply andb_prop in Hp as [[H1 H2]%andb_prop Hp].
  apply negb_true_iff, Ascii.eqb_neq in H1, H2.
  change (String c p +:+ r) with (String c (p +:+ r)).
  rewrite like_literal by done. destruct x as [|c' x].
  + split; [done|]. intros (x1 & x2 & Hx & Hl & _). by destruct x1.
  + rewrite andb_true_iff, Ascii.eqb_eq, (IH x Hp). split.
    * intros (Hc & x1 & x2 & -> & Hl & H).
      exists (String c' x1), x2. rewrite app_cons_string. simpl.
      by rewrite Hc, Hl.
    * intros (x1 & x2 & Hx & Hl & H). destruct x1 as [|c'' x1]; [done|].
      rewrite app_cons_string in Hx. simpl in Hl.
      injection Hx as <- ->. injection Hl as Hc Hl.
      split; [done|]. by exists x1, x2.
Qed.

(** [%] alone matches every text. *)
Lemma like_any (x : string) : Sql.like "%" x = true.
Proof.
apply like_percent_spec. exists x, "". split; [|done].
induction x as [|c x IH]; [done|]. rewrite app_cons_string. by rewrite <- IH.
Qed.

(** Folding the case neither makes nor removes a U+0000. *)
Lemma c_str_lower (s : string) : Sql.c_str (Sql.lower s) = Sql.lower (Sql.c_str s).
Proof.
induction s as [|c s IH]; [done|]. simpl. rewrite IH.
by destruct c as [[] [] [] [] [] [] [] []].
Qed.

Lemma c_str_app_whole (a b : string) :
  Sql.c_str a = a -> Sql.c_str (a +:+ b) = a +:+ Sql.c_str b.
Proof.
induction a as [|c a IH]; [done|]. rewrite app_cons_string. simpl.
destruct (c =? "000")%char; [done|]. intros [= Ha]. by rewrite IH.
Qed.

Lemma c_str_app_cut (a b : string) :
  Sql.c_str a <> a -> Sql.c_str (a +:+ b) = Sql.c_str a.
Proof.
induction a as [|c a IH]; [done|]. rewrite app_cons_string. simpl.
destruct (c =? "000")%char; [done|]. intros Ha. rewrite IH; [done|].
intros Ha'. apply Ha. by rewrite Ha'.
Qed.

Lemma no_wildcards_c_str (q : string) :
  no_wildcards q = true -> no_wildcards (Sql.c_str q) = true.
Proof.
induction q as [|c q IH]; [done|]. simpl.
intros [H12 H3]%andb_prop. destruct (c =? "000")%char; [done|].
simpl. by rewrite H12, (IH H3).
Qed.

(** A pattern [%q%] without U+0000 and without wildcards in [q]. *)
Lemma like_contains (x q : string) :
  no_wildcards q = true ->
  Sql.like (String "%" (Sql.lower q +:+ "%")) (Sql.lower x) = true
  <-> contains_nocase x q.
Proof.
intros Hq. unfold contains_nocase.
rewrite like_percent_spec. split.
- intros (pre & post & Hx & H).
  apply like_literal_prefix in H as (x1 & x2 & -> & Hl & _);
    [|by apply no_wildcards_lower].
  apply sql_lower_app_inv in Hx as (xa & xb & -> & <- & Hx).
  apply sql_lower_app_inv in Hx as (xm & xc & -> & <- & <-).
  exists xa, xm, xc. split; [done|].
  by rewrite sql_lower_idem in Hl; rewrite sql_lower_idem in Hl.
- intros (pre & mid & post & -> & Hl).
  exists (Sql.lower pre), (Sql.lower mid +:+ Sql.lower post).
  split; [by rewrite !sql_lower_app|].
  apply like_literal_prefix; [by apply no_wildcards_lower|].
  exists (Sql.lower mid), (Sql.lower post).
  split; [done|]. split; [by rewrite !sql_lower_idem|apply like_any].
Qed.

(** A pattern [%q] without wildcards in [q]. *)
Lemma like_ends (x q : string) :
  no_wildcards q = true ->
  Sql.like (String "%" (Sql.lower q)) (Sql.lower x) = true
  <-> ends_nocase x q.
Proof.
intros Hq. unfold ends_nocase.
rewrite like_percent_spec. split.
- intros (pre & post & Hx & H).
  rewrite <- (append_empty_r (Sql.lower q)) in H.
  apply like_literal_prefix in H as (x1 & x2 & -> & Hl & Hrest);
    [|by apply no_wildcards_lower].
  destruct x2; [|done]. rewrite append_empty_r in Hx.
  apply sql_lower_app_inv in Hx as (xa & xb & -> & <- & <-).
  exists xa, xb. split; [done|].
  by rewrite sql_lower_idem in Hl; rewrite sql_lower_idem in Hl.
- intros (pre & post & -> & Hl).
  exists (Sql.lower pre), (Sql.lower post).
  split; [by rewrite !sql_lower_app|].
  rewrite <- (append_empty_r (Sql.lower q)).
  apply like_literal_prefix; [by apply no_wildcards_lower|].
  exists (Sql.lower post), "".
  split; [by rewrite append_empty_r|].
  split; [by rewrite !sql_lower_idem|done].
Qed.

(** The search of the student list, for a term without wildcards: LIKE
    reads the name up to its first U+0000 and looks for the term in it;
    when the term holds a U+0000 the pattern ends there, before the closing
    [%], and the name has to end with what precedes it. *)
Lemma ilike_contains (x q : string) :
  no_wildcards (Sql.c_str q) = true ->
  Sql.ilike x ("%" +:+ q +:+ "%") = true
  <-> if decide (Sql.c_str q = q) then contains_nocase (Sql.c_str x) q
      else ends_nocase (Sql.c_str x) (Sql.c_str q).
Proof.
intros Hq. unfold Sql.ilike.
change ("%" +:+ q +:+ "%") with (String "%" (q +:+ "%")).
change (Sql.lower (String "%" (q +:+ "%")))
  with (String "%" (Sql.lower (q +:+ "%"))).
change (Sql.c_str (String "%" (Sql.lower (q +:+ "%"))))
  with (String "%" (Sql.c_str (Sql.lower (q +:+ "%")))).
rewrite !c_str_lower. case_decide as Hnul.
- rewrite c_str_app_whole by done. change (Sql.c_str "%") with "%".
  rewrite sql_lower_app. change (Sql.lower "%") with "%".
  apply like_contains. by rewrite <- Hnul.
- rewrite c_str_app_cut by done. by apply like_ends.
Qed.

End Like.

Lemma ascending_total {A} (col : A -> string) : Total (ascending col).
Proof. intros x y. apply str_le_total. Qed.

(** [ORDER BY] sorts and neither drops nor repeats a row. *)
Lemma order_by_asc_spec {A} (col : A -> string) (l : list A) :
  Sorted (ascending col) (Sql.order_by_asc col l)
  /\ Sql.order_by_asc col l ≡ₚ l.
Proof.
unfold Sql.order_by_asc. split.
- pose proof (ascending_total col) as Htotal.
  apply (Sorted_merge_sort (ascending col)).
- apply (merge_sort_Permutation (ascending col)).
Qed.

(** X20. The student list, for a search term of at most 24999
    characters (SQLite refuses a LIKE pattern beyond 50000 bytes): a
    logged-in GET answers with the page of the stripped search term and
    rows in ascending order of name, each a row of the student table and
    none twice.  Without a term every student is listed.  LIKE reads
    pattern and name up to their first U+0000: a term without [%], [_] and
    U+0000 lists exactly the students whose name, up to its first U+0000,
    contains it up to the case of the letters A..Z; a term with a U+0000
    and no wildcard before it lists exactly the students whose name, up to
    its first U+0000, ends with what precedes the U+0000 of the term, so
    that the term U+0000 alone lists every student.  The term is not
    escaped: searching for [%] lists every student.  Nothing is stored. *)
Theorem students_search (e : env) (d : database) (uid : Z) (u : User.t)
    (req : request) :
  tbl_user d !! uid = Some u -> method req = GET ->
  Z.of_nat (String.length (Py.strip (args_get req "q" ""))) <= 24999 ->
  let q := Py.strip (args_get req "q" "") in
  exists rows,
    serve_view e d (Some uid) R_students req
    = ViewOutcome (RenderView (StudentsHtml rows q)) [] d (Some uid)
    /\ Sorted (ascending (fun r => Student.full_name r.2)) rows
    /\ NoDup rows
    /\ (forall id s, (id, s) ∈ rows -> tbl_student d !! id = Some s)
    /\ (q = "" \/ q = "%" ->
        forall id s, tbl_student d !! id = Some s -> (id, s) ∈ rows)
    /\ (q <> "" -> no_wildcards q = true -> Sql.c_str q = q ->
        forall id s, (id, s) ∈ rows <->
          tbl_student d !! id = Some s
          /\ contains_nocase (Sql.c_str (Student.full_name s)) q)
    /\ (no_wildcards (Sql.c_str q) = true -> Sql.c_str q <> q ->
        forall id s, (id, s) ∈ rows <->
          tbl_student d !! id = Some s
          /\ ends_nocase (Sql.c_str (Student.full_name s)) (Sql.c_str q))
    /\ (Sql.c_str q = "" -> q <> "" ->
        forall id s, tbl_student d !! id = Some s -> (id, s) ∈ rows).
Proof.
intros Hu Hget _. cbv zeta.
unfold serve_view, view_url_matches, view_allows, view_of. rewrite Hget.
simpl negb. cbv iota.
unfold students. erewrite login_required_view_pass by done.
run_view.
set (q := Py.strip (args_get req "q" "")).
set (query := if Py.is_empty q then rows (tbl_student d) else _).
destruct (order_by_asc_spec (fun r : Z * Student.t => Student.full_name r.2)
            query) as [Hsorted Hperm].
eexists. split; [reflexivity|]. split; [exact Hsorted|].
assert (Hquery : forall id s, (id, s) ∈ query <->
          tbl_student d !! id = Some s
          /\ (q = "" \/ Sql.ilike (Student.full_name s) ("%" +:+ q +:+ "%")
                        = true)).
{ intros id s. unfold query, rows.
  destruct (Py.is_empty q) eqn:Hq.
  - apply is_empty_true in Hq. rewrite elem_of_map_to_list.
    split; [intros Hs; split; [done|by left]|by intros [Hs _]].
  - assert (q <> "") by (intros Hq'%is_empty_true; congruence).
    rewrite list_elem_of_filter, elem_of_map_to_list. simpl.
    rewrite Is_true_true.
    split; [intros [Hl Hs]; split; [done|by right]|].
    intros [Hs [Hq'|Hl]]; [done|by split]. }
assert (Hends : no_wildcards (Sql.c_str q) = true -> Sql.c_str q <> q ->
          forall id s, (id, s) ∈ query <->
            tbl_student d !! id = Some s
            /\ ends_nocase (Sql.c_str (Student.full_name s)) (Sql.c_str q)).
{ intros Hplain Hnul id s. rewrite Hquery.
  rewrite (ilike_contains _ q Hplain), decide_False by done.
  split; [intros [Hs [Hq|Hl]]; [|by split]|].
  - by rewrite Hq in Hnul.
  - intros [Hs Hl]. split; [done|by right]. }
split; [|split; [|split; [|split; [|split]]]].
- rewrite Hperm. unfold query, rows.
  destruct (Py.is_empty q); [|apply NoDup_filter]; apply NoDup_map_to_list.
- intros id s. rewrite Hperm, Hquery. tauto.
- intros Hq id s Hs. rewrite Hperm, Hquery. split; [done|].
  destruct Hq as [Hq|Hq]; [by left|right]. rewrite Hq.
  unfold Sql.ilike. change (Sql.lower ("%" +:+ "%" +:+ "%")) with "%%%".
  change (Sql.c_str "%%%") with "%%%".
  apply like_percent_spec. eexists "", _. split; [reflexivity|].
  apply like_percent_spec. eexists "", _. split; [reflexivity|].
  apply like_any.
- intros Hne Hplain Hnul id s. rewrite Hperm, Hquery.
  rewrite (ilike_contains _ q), decide_True by (done || by rewrite Hnul).
  split; [intros [Hs [Hq|Hl]]; [done|by split]|].
  intros [Hs Hl]. split; [done|by right].
- intros Hplain Hnul id s. rewrite Hperm. by apply Hends.
- intros Hcut Hne id s Hs. rewrite Hperm.
  apply Hends; [by rewrite Hcut|by rewrite Hcut|]. split; [done|].
  exists (Sql.c_str (Student.full_name s)), "".
  split; [by rewrite append_empty_r|by rewrite Hcut].
Qed.

Lemma students_search_witness :
  (exists rows,
     serve_view sample_env sample_db (Some 1) R_students (get [("q", " LO ")])
     = ViewOutcome (RenderView (StudentsHtml rows "LO")) [] sample_db (Some 1)
     /\ forall id s, (id, s) ∈ rows <->
          tbl_student sample_db !! id = Some s
          /\ contains_nocase (Sql.c_str (Student.full_name s)) "LO")
  /\ exists rows,
       serve_view sample_env sample_db (Some 1) R_students
         (get [("q", String "000" "")])
       = ViewOutcome (RenderView (StudentsHtml rows (String "000" ""))) []
           sample_db (Some 1)
       /\ forall id s, tbl_student sample_db !! id = Some s -> (id, s) ∈ rows.
Proof.
split.
- destruct (students_search sample_env sample_db 1 sample_user
              (get [("q", " LO ")]))
    as (rows & Hpage & _ & _ & _ & _ & Hrows & _);
    [reflexivity|reflexivity|vm_compute; discriminate|].
  exists rows. split; [exact Hpage|].
  apply Hrows; [discriminate|reflexivity|reflexivity].
- destruct (students_search sample_env sample_db 1 sample_user
              (get [("q", String "000" "")]))
    as (rows & Hpage & _ & _ & _ & _ & _ & _ & Hall);
    [reflexivity|reflexivity|vm_compute; discriminate|].
  exists rows. split; [exact Hpage|].
  apply Hall; [reflexivity|discriminate].
Defined.

Section DigitStrings.

Lemma isdigit_char_cases (c : ascii) :
  isdigit_char c = true ->
  Py.int_isspace c = false /\ (c =? "_")%char = false
  /\ c <> "-"%char /\ c <> "+"%char
  /\ ((48 <=? Py.code c) && (Py.code c <=? 57) = true
        /\ Py.digit_val c = Some (Py.code c - 48) /\ 0 <= Py.code c - 48
      \/ (48 <=? Py.code c) && (Py.code c <=? 57) = false
         /\ Py.digit_val c = None).
Proof.
destruct c as [[] [] [] [] [] [] [] []]; intros H; try discriminate H;
  (repeat split; try done); (by left) || (by right).
Qed.

Lemma int_rstrip_digits (s : string) :
  all_digits s = true -> Py.int_rstrip s = s.
Proof.
induction s as [|c s IH]; [done|]. simpl.
intros [Hc Hs]%andb_prop. rewrite (IH Hs).
by destruct (isdigit_char_cases c Hc) as (-> & _).
Qed.

Lemma int_strip_digits (s : string) :
  all_digits s = true -> Py.int_rstrip (Py.int_lstrip s) = s.
Proof.
intros Hs.
assert (Hl : Py.int_lstrip s = s).
{ destruct s as [|c s]; [done|]. simpl in Hs |- *.
  apply andb_prop in Hs as [Hc _].
  by destruct (isdigit_char_cases c Hc) as (-> & _). }
rewrite Hl. by apply int_rstrip_digits.
Qed.

Lemma digit_count_ascii (s : string) :
  ascii_digits s = true -> Py.digit_count s = Z.of_nat (String.length s).
Proof.
induction s as [|c s IH]; [done|].
cbn [ascii_digits Py.digit_count String.length].
intros [Hc Hs]%andb_prop. unfold Py.digit_val. rewrite Hc, (IH Hs). lia.
Qed.

Lemma int_digits_ascii (s : string) (acc : Z) :
  all_digits s = true -> ascii_digits s = true -> 0 <= acc ->
  exists a, 0 <= a /\ Py.int_digits acc s = Some a.
Proof.
revert acc. induction s as [|c s IH]; intros acc Hd Ha Hacc.
- by exists acc.
- simpl in Hd, Ha. apply andb_prop in Hd as [Hc Hd].
  apply andb_prop in Ha as [Hc' Ha].
  destruct (isdigit_char_cases c Hc) as (_ & Hu & _ & _ & Hcase).
  destruct Hcase as [(_ & Hv & Hpos)|[Hno _]]; [|congruence].
  simpl. rewrite Hu, Hv. apply IH; [done|done|lia].
Qed.

Lemma int_digits_other (s : string) (acc : Z) :
  all_digits s = true -> ascii_digits s = false ->
  Py.int_digits acc s = None.
Proof.
revert acc. induction s as [|c s IH]; intros acc Hd Ha; [done|].
simpl in Hd, Ha. apply andb_prop in Hd as [Hc Hd].
destruct (isdigit_char_cases c Hc) as (_ & Hu & _ & _ & Hcase).
simpl. rewrite Hu.
destruct Hcase as [(Hyes & Hv & _)|[_ Hv]]; rewrite Hv; [|done].
rewrite Hyes in Ha. by apply IH.
Qed.

(** [int] on a string [isdigit] accepts: the number, when the digits are
    all among 0..9 and no more than 4300, and ValueError otherwise. *)
Lemma int_of_isdigit (s : string) :
  isdigit s = true ->
  if ascii_digits s && (Z.of_nat (String.length s) <=? 4300)
  then exists a, 0 <= a /\ Py.int_of_str s = Py.Ok a
  else Py.int_of_str s = Py.Raise Py.ValueError.
Proof.
unfold isdigit. intros [Hne Hd]%andb_prop.
unfold Py.int_of_str. rewrite (int_strip_digits s Hd).
pose proof (digit_count_ascii s) as Hcount.
set (n := Z.of_nat (String.length s)) in *. clearbody n.
destruct s as [|c s]; [done|]. clear Hne.
cbn [all_digits] in Hd. apply andb_prop in Hd as [Hc Hd].
destruct (isdigit_char_cases c Hc) as (_ & _ & Hm & Hp & Hcase).
assert (Hbody :
  match String c s with
  | String "-" s' => option_map Z.opp (Py.int_unsigned s')
  | String "+" s' => Py.int_unsigned s'
  | s' => Py.int_unsigned s'
  end = Py.int_unsigned (String c s)).
{ clear -Hm Hp. by destruct c as [[] [] [] [] [] [] [] []]. }
rewrite Hbody. unfold Py.int_unsigned, Py.int_max_str_digits.
cbn [ascii_digits] in Hcount |- *.
destruct Hcase as [(Hyes & Hv & Hpos)|[Hno Hv]]; rewrite Hv.
- rewrite Hyes in Hcount |- *. cbn [andb] in Hcount |- *.
  destruct (ascii_digits s) eqn:Ha.
  + rewrite (Hcount eq_refl). cbn [andb].
    destruct (n <=? 4300); [|done].
    destruct (int_digits_ascii s (Py.code c - 48) Hd Ha Hpos)
      as (a & Ha0 & ->). by exists a.
  + cbn [andb]. rewrite (int_digits_other s _ Hd Ha).
    by destruct (Py.digit_count _ <=? 4300).
- by rewrite Hno.
Qed.

End DigitStrings.

(** X21. The activity list: a logged-in GET lists the activities in
    ascending order of title.  When the age parameter is not made of digits
    (absent, empty, signed or with spaces) every activity is listed.  When
    it is made of at most 4300 of the digits 0..9, which is as many as
    [int] reads, it is a number [a] from 0 and, if [a] fits 64 bits,
    exactly the activities with [age_min <= a <= age_max] are listed.  A superscript digit passes [isdigit] and then [int] raises
    ValueError: the answer is a 500.  Nothing is stored in any case. *)
Theorem activities_filter (e : env) (d : database) (uid : Z) (u : User.t)
    (req : request) :
  tbl_user d !! uid = Some u -> method req = GET ->
  let age := args_get req "age" "" in
  let o := serve_view e d (Some uid) R_activities req in
  let by_title := ascending (fun r : Z * Activity.t => Activity.title r.2) in
  v_db_after o = d /\ v_login_after o = Some uid /\ v_flashed o = []
  /\ (isdigit age = false ->
      exists rows,
        v_resp o = RenderView (ActivitiesHtml rows age)
        /\ Sorted by_title rows /\ rows ≡ₚ map_to_list (tbl_activity d))
  /\ (isdigit age = true -> ascii_digits age = true ->
      Z.of_nat (String.length age) <= 4300 ->
      exists a, 0 <= a /\ Py.int_of_str age = Py.Ok a
        /\ (sqlite_integer a ->
            exists rows,
              v_resp o = RenderView (ActivitiesHtml rows age)
              /\ Sorted by_title rows /\ NoDup rows
              /\ forall id x, (id, x) ∈ rows <->
                   tbl_activity d !! id = Some x /\ suits_age a x))
  /\ (isdigit age = true -> ascii_digits age = false ->
      v_resp o = Basic (InternalServerError Py.ValueError)).
Proof.
intros Hu Hget. cbv zeta.
unfold serve_view, view_url_matches, view_allows, view_of. rewrite Hget.
simpl negb. cbv iota.
unfold activities. erewrite login_required_view_pass by done.
set (age := args_get req "age" "").
pose proof (int_of_isdigit age) as Hint.
destruct (isdigit age) eqn:Hdig.
- specialize (Hint eq_refl). destruct (ascii_digits age) eqn:Hascii;
    [destruct (Z.of_nat (String.length age) <=? 4300) eqn:Hlen|];
    cbn [andb] in Hint.
  + destruct Hint as (a & Ha0 & Ha). run_view. rewrite Ha. simpl.
    destruct (Sql.int_ok a) eqn:Hok; simpl.
    * do 3 (split; [done|]). split; [done|]. split; [|done].
      intros _ _ _. exists a. split; [done|]. split; [done|]. intros _.
      match goal with
      | |- context [Sql.order_by_asc ?col ?l] =>
          destruct (order_by_asc_spec col l) as [Hsorted Hperm]
      end.
      eexists. split; [reflexivity|]. split; [exact Hsorted|]. split.
      { rewrite Hperm. apply NoDup_filter, NoDup_map_to_list. }
      intros id x. rewrite Hperm. unfold rows, suits_age.
      rewrite list_elem_of_filter, elem_of_map_to_list. simpl.
      split; [intros [Hr Hx]; split; [done|lia]|].
      intros [Hx Hr]. split; [lia|done].
    * do 3 (split; [done|]). split; [done|]. split; [|done].
      intros _ _ _. exists a. split; [done|]. split; [done|].
      intros Hfit%int_ok_spec. congruence.
  + run_view. rewrite Hint. simpl. do 3 (split; [done|]).
    split; [done|]. split; [|done].
    intros _ _ Hle. apply Z.leb_gt in Hlen. lia.
  + run_view. rewrite Hint. simpl. do 3 (split; [done|]).
    split; [done|]. split; [done|]. done.
- run_view. do 3 (split; [done|]). split; [|done]. intros _.
  match goal with
  | |- context [Sql.order_by_asc ?col ?l] =>
      destruct (order_by_asc_spec col l) as [Hsorted Hperm]
  end.
  eexists. split; [reflexivity|]. by split.
Qed.

Lemma activities_filter_witness :
  isdigit (String (ascii_of_N 178) "") = true
  /\ v_resp (serve_view sample_env sample_db (Some 1) R_activities
               (get [("age", String (ascii_of_N 178) "")]))
     = Basic (InternalServerError Py.ValueError).
Proof.
split; [reflexivity|].
destruct (activities_filter sample_env sample_db 1 sample_user
            (get [("age", String (ascii_of_N 178) "")]))
  as (_ & _ & _ & _ & _ & Hcrash); [reflexivity|reflexivity|].
apply Hcrash; reflexivity.
Defined.

(** ** Dashboard, reports and the printable profile *)

(** X22. The guard of the second group of views (dashboard, the two
    listings, the two log forms, reports and the printable profile): a
    request without the session of an existing user is answered with a
    redirect to the login page and the Flask-Login message, whatever it
    carries, and nothing is stored. *)
Theorem anonymous_view_refused (e : env) (d : database) (who : option Z)
    (r : view_route) (req : request) :
  anonymous d who ->
  view_url_matches r = true -> view_allows r (method req) = true ->
  serve_view e d who r req
  = ViewOutcome (Basic (Redirect EpLogin)) [flash_login_required] d who.
Proof.
intros Hanon Hurl Hallow. unfold serve_view. rewrite Hurl, Hallow.
simpl negb. cbv iota.
destruct r; unfold view_of, dashboard, students, activities, behavior_new,
  activitylog_new, reports, print_student;
  by rewrite login_required_view_refuses.
Qed.

Lemma anonymous_view_refused_witness :
  serve_view sample_env sample_db None R_behavior_new
    (post [("student_id", "1")])
  = ViewOutcome (Basic (Redirect EpLogin)) [flash_login_required]
      sample_db None.
Proof.
apply anonymous_view_refused; [exact I|reflexivity|reflexivity].
Defined.

(** X23. From the form to the dashboard: the dashboard shows the sizes of
    the student and activity tables and the number of behaviour logs dated
    today.  After a behaviour log was recorded ([int] having read the id and
    the three scores, the date having parsed and the four integers fitting
    64 bits) the first two are what they were, and the third is one more if
    the log is dated today, as it is when the date field is absent or empty,
    and the same otherwise. *)
Theorem dashboard_after_behavior_new (e : env) (d : database) (uid : Z)
    (u : User.t) (req req' : request) (v : string)
    (sid mood focus social : Z) (dt : Py.date) :
  tbl_user d !! uid = Some u -> method req = POST ->
  form req !! "student_id" = Some v -> Py.int_of_str v = Py.Ok sid ->
  submitted_date e req "log_date" = Py.Ok dt ->
  Py.int_or (form_get req "mood" "3") 3 = Py.Ok mood ->
  Py.int_or (form_get req "focus" "3") 3 = Py.Ok focus ->
  Py.int_or (form_get req "social" "3") 3 = Py.Ok social ->
  sqlite_integer sid -> sqlite_integer mood -> sqlite_integer focus ->
  sqlite_integer social ->
  method req' = GET ->
  let d' := v_db_after (serve_view e d (Some uid) R_behavior_new req) in
  exists k,
    v_resp (serve_view e d (Some uid) R_dashboard req')
    = RenderView
        (DashboardHtml (size (tbl_student d)) (size (tbl_activity d)) k)
    /\ v_resp (serve_view e d' (Some uid) R_dashboard req')
       = RenderView
           (DashboardHtml (size (tbl_student d)) (size (tbl_activity d))
              (if decide (dt = today e) then S k else k))
    /\ (form req !! "log_date" = None \/ form req !! "log_date" = Some ""
        -> dt = today e).
Proof.
intros Hu Hpost Hv Hsid Hdt Hmood Hfocus Hsocial Hi1 Hi2 Hi3 Hi4 Hget.
cbv zeta.
rewrite (behavior_new_post e d uid u req v sid mood focus social dt)
  by done.
assert (Hok : forallb Sql.int_ok [sid; mood; focus; social] = true).
{ simpl. rewrite !(proj2 (int_ok_spec _)) by done. reflexivity. }
rewrite Hok. cbn [v_db_after].
unfold serve_view, view_url_matches, view_allows, view_of. rewrite Hget.
simpl negb. cbv iota. unfold dashboard.
erewrite !login_required_view_pass by done.
run_view. eexists. split; [reflexivity|]. split.
- do 2 f_equal. unfold rows.
  rewrite map_to_list_insert by apply next_id_fresh.
  rewrite fmap_cons, filter_cons. simpl.
  destruct (decide (dt = today e)); reflexivity.
- unfold submitted_date in Hdt.
  intros [Hf|Hf]; rewrite Hf in Hdt; simpl in Hdt; congruence.
Qed.

Lemma dashboard_after_behavior_new_witness :
  v_resp
    (serve_view sample_env
       (v_db_after
          (serve_view sample_env sample_db (Some 1) R_behavior_new
             (post [("student_id", "2"); ("log_date", "")])))
       (Some 1) R_dashboard (get []))
  = RenderView (DashboardHtml 2 1 1).
Proof.
destruct (dashboard_after_behavior_new sample_env sample_db 1 sample_user
            (post [("student_id", "2"); ("log_date", "")]) (get [])
            "2" 2 3 3 3 (today sample_env))
  as (k & Hbefore & Hafter & _);
  [reflexivity|reflexivity|reflexivity|reflexivity
  |reflexivity|reflexivity
  |reflexivity|reflexivity|unfold sqlite_integer; lia
  |unfold sqlite_integer; lia|unfold sqlite_integer; lia
  |unfold sqlite_integer; lia|reflexivity|].
rewrite Hafter. vm_compute in Hbefore. injection Hbefore as <-.
reflexivity.
Defined.

(** X24. The printable profile shows what the detail page shows: for the
    same database, session and request the two answer alike (the login
    redirect, 404 for an id that is not a student's or is negative, a 500
    for a missing id beyond 64 bits, 405 for a POST), and when the detail
    page renders student [s] with logs [logs] and activity logs [acts], the
    profile renders the same three, without the recommended activities.
    Neither stores anything. *)
Theorem print_student_matches_detail (e : env) (d : database)
    (who : option Z) (sid : Z) (req : request) :
  let o := serve e d who (R_student_detail sid) req in
  let o' := serve_view e d who (R_print_student sid) req in
  v_resp o'
  = match resp o with
    | Render (StudentDetailHtml s logs acts _) =>
        RenderView (PrintStudentHtml s logs acts)
    | r => Basic r
    end
  /\ v_flashed o' = flashed o
  /\ v_db_after o' = d /\ db_after o = d
  /\ v_login_after o' = who /\ login_after o = who.
Proof.
cbv zeta.
unfold serve, serve_view, url_matches, view_url_matches, allows,
  view_allows, view, view_of.
destruct (negb (0 <=? sid)); [done|].
destruct (method req); simpl; [|done].
unfold student_detail, print_student, login_required, login_required_view,
  current_user.
run_view.
destruct who as [uid|]; simpl; [|done].
destruct (tbl_user d !! uid); simpl; [|done].
destruct (tbl_student d !! sid); simpl; [done|].
destruct (Sql.int_ok sid); simpl; done.
Qed.

(** X25. The reports page lists what the student list shows without a
    search term: for the same database and session, a GET to /reports
    renders the rows that a GET to /students with an absent or blank [q]
    renders, in the same order; an anonymous request gets the same answer
    from both. *)
Theorem reports_lists_all_students (e : env) (d : database) (who : option Z)
    (req req' : request) :
  method req = GET -> method req' = GET ->
  Py.strip (args_get req' "q" "") = "" ->
  let o := serve_view e d who R_reports req in
  let o' := serve_view e d who R_students req' in
  v_resp o
  = match v_resp o' with
    | RenderView (StudentsHtml rows _) => RenderView (ReportsHtml rows)
    | r => r
    end
  /\ (logged_in d who ->
      exists rows,
        v_resp o = RenderView (ReportsHtml rows)
        /\ Sorted (ascending (fun r => Student.full_name r.2)) rows
        /\ rows ≡ₚ map_to_list (tbl_student d))
  /\ v_db_after o = d /\ v_login_after o = who.
Proof.
intros Hget Hget' Hq. cbv zeta.
unfold serve_view, view_url_matches, view_allows, view_of.
rewrite Hget, Hget'. simpl negb. cbv iota.
unfold reports, students, login_required_view, current_user.
run_view. rewrite Hq. simpl.
destruct (order_by_asc_spec (fun r : Z * Student.t => Student.full_name r.2)
            (rows (tbl_student d))) as [Hsorted Hperm].
destruct who as [uid|]; simpl.
- destruct (tbl_user d !! uid) eqn:Hu; simpl.
  + split; [done|]. split; [|done]. intros _. eexists. by split.
  + split; [done|]. split; [|done].
    intros (uid' & u & [= <-] & Hu'). congruence.
- split; [done|]. split; [|done]. by intros (uid' & u & [=] & _).
Qed.

Lemma reports_lists_all_students_witness :
  exists rows,
    v_resp (serve_view sample_env sample_db (Some 1) R_reports (get []))
    = RenderView (ReportsHtml rows)
    /\ rows ≡ₚ map_to_list (tbl_student sample_db).
Proof.
destruct (reports_lists_all_students sample_env sample_db (Some 1)
            (get []) (get [("q", "  ")]))
  as (_ & Hrows & _); [reflexivity|reflexivity|reflexivity|].
destruct Hrows as (rows & Hpage & _ & Hperm).
- exists 1, sample_user. split; reflexivity.
- exists rows. split; [exact Hpage|exact Hperm].
Defined.

(** ** Editing an activity *)

Section ActivityEdit.
Variables (e : env) (d : database) (uid : Z) (u : User.t) (req : request).
Variables (aid : Z) (item : Activity.t).
Hypothesis Huser : tbl_user d !! uid = Some u.
Hypothesis Haid : 0 <= aid.
Hypothesis Hitem : tbl_activity d !! aid = Some item.

(** What /activities/<aid>/edit does with an id of the table. *)
Lemma activity_edit_found :
  serve e d (Some uid) (R_activity_edit aid) req =
    match method req with
    | GET => Outcome (Render (ActivityFormHtml (Some item))) [] d (Some uid)
    | POST =>
        match Py.int_or (form_get req "age_min" "6") 6,
              Py.int_or (form_get req "age_max" "12") 12 with
        | Py.Ok lo, Py.Ok hi =>
            if Sql.int_ok lo && Sql.int_ok hi then
              Outcome (Redirect EpActivities) [flash_activity_edited]
                (with_activities d
                   (<[aid := Activity.mk (Py.strip (form_get req "title" ""))
                               (form_get req "description" "")
                               (form_get req "category" "") lo hi
                               (Activity.created_by item)]> (tbl_activity d)))
                (Some uid)
            else Outcome (InternalServerError Py.OverflowError) [] d (Some uid)
        | Py.Raise x, _ | Py.Ok _, Py.Raise x =>
            Outcome (InternalServerError x) [] d (Some uid)
        end
    end.
Proof.
unfold serve, url_matches, allows, view.
rewrite (proj2 (Z.leb_le 0 aid)) by done. simpl negb. cbv iota.
unfold activity_edit. erewrite login_required_pass by done.
unfold mbind, M_bind at 1. unfold get_or_404, mbind, M_bind at 1.
simpl. rewrite Hitem. simpl. unfold is_post.
destruct (method req); [reflexivity|].
unfold mbind, M_bind, assign_activity, get_db, put_db. simpl.
destruct (Py.int_or (form_get req "age_min" "6") 6) as [lo|x]; simpl;
  [|reflexivity].
destruct (Py.int_or (form_get req "age_max" "12") 12) as [hi|x]; simpl;
  [|reflexivity].
unfold commit_ints. cbn [forallb].
destruct (Sql.int_ok lo), (Sql.int_ok hi); simpl; try reflexivity.
unfold with_activities. simpl. by rewrite !insert_insert_eq.
Qed.

End ActivityEdit.

(** X26. Activity edit, for a logged-in user and an id in the table.  A
    GET renders the form with the stored row.  A POST whose two ages [int]
    reads and which fit 64 bits stores the stripped title (blank or not:
    the title is never tested), description, category and the ages (6 and
    12 for an absent or empty field) over the old row, keeps who created
    it, and leaves every other row and table alone.  A POST whose age is
    not a number (ValueError) or does not fit 64 bits (OverflowError) is
    answered with a 500 and stores nothing, although the title was already
    assigned when the exception was raised. *)
Theorem activity_edit_saves (e : env) (d : database) (uid : Z) (u : User.t)
    (req : request) (aid : Z) (item : Activity.t) :
  tbl_user d !! uid = Some u -> 0 <= aid ->
  tbl_activity d !! aid = Some item ->
  let o := serve e d (Some uid) (R_activity_edit aid) req in
  (method req = GET ->
   o = Outcome (Render (ActivityFormHtml (Some item))) [] d (Some uid))
  /\ (forall lo hi, method req = POST ->
      Py.int_or (form_get req "age_min" "6") 6 = Py.Ok lo ->
      Py.int_or (form_get req "age_max" "12") 12 = Py.Ok hi ->
      sqlite_integer lo -> sqlite_integer hi ->
      o = Outcome (Redirect EpActivities) [flash_activity_edited]
            (with_activities d
               (<[aid := Activity.mk (Py.strip (form_get req "title" ""))
                           (form_get req "description" "")
                           (form_get req "category" "") lo hi
                           (Activity.created_by item)]> (tbl_activity d)))
            (Some uid)
      /\ forall j, j <> aid ->
           tbl_activity (db_after o) !! j = tbl_activity d !! j)
  /\ (forall x, method req = POST ->
      Py.int_or (form_get req "age_min" "6") 6 = Py.Raise x
      \/ (exists lo, Py.int_or (form_get req "age_min" "6") 6 = Py.Ok lo)
         /\ Py.int_or (form_get req "age_max" "12") 12 = Py.Raise x ->
      o = Outcome (InternalServerError x) [] d (Some uid))
  /\ (forall lo hi, method req = POST ->
      Py.int_or (form_get req "age_min" "6") 6 = Py.Ok lo ->
      Py.int_or (form_get req "age_max" "12") 12 = Py.Ok hi ->
      ~ (sqlite_integer lo /\ sqlite_integer hi) ->
      o = Outcome (InternalServerError Py.OverflowError) [] d (Some uid)).
Proof.
intros Hu Haid Hitem. cbv zeta.
rewrite (activity_edit_found e d uid u req aid item Hu Haid Hitem).
split; [|split; [|split]].
- by intros ->.
- intros lo hi -> -> -> Hlo%int_ok_spec Hhi%int_ok_spec. rewrite Hlo, Hhi.
  split; [reflexivity|].
  intros j Hj. simpl. by apply lookup_insert_ne.
- intros x -> [->|[[lo ->] ->]]; reflexivity.
- intros lo hi -> -> -> Hfit.
  destruct (Sql.int_ok lo) eqn:Hlo; [destruct (Sql.int_ok hi) eqn:Hhi|];
    try reflexivity.
  destruct Hfit. split; by apply int_ok_spec.
Qed.

Lemma activity_edit_saves_witness :
  serve sample_env sample_db (Some 1) (R_activity_edit 1)
    (post [("title", "Reading aloud"); ("age_min", "seven")])
  = Outcome (InternalServerError Py.ValueError) [] sample_db (Some 1)
  /\ serve sample_env sample_db (Some 1) (R_activity_edit 1)
       (post [("title", "Reading aloud"); ("age_min", "7")])
     = Outcome (Redirect EpActivities) [flash_activity_edited]
         (with_activities sample_db
            (<[1 := Activity.mk "Reading aloud" "" "" 7 12 (Some 1)]>
               (tbl_activity sample_db)))
         (Some 1)
  /\ serve sample_env sample_db (Some 1) (R_activity_edit 1)
       (post [("title", "Reading aloud");
              ("age_max", "9223372036854775808")])
     = Outcome (InternalServerError Py.OverflowError) [] sample_db (Some 1).
Proof.
split; [|split].
- destruct (activity_edit_saves sample_env sample_db 1 sample_user
              (post [("title", "Reading aloud"); ("age_min", "seven")])
              1 (Activity.mk "Reading" "picture books" "language" 6 8 (Some 1)))
    as (_ & _ & Hcrash & _); [reflexivity|lia|reflexivity|].
  apply Hcrash; [reflexivity|left; reflexivity].
- destruct (activity_edit_saves sample_env sample_db 1 sample_user
              (post [("title", "Reading aloud"); ("age_min", "7")])
              1 (Activity.mk "Reading" "picture books" "language" 6 8 (Some 1)))
    as (_ & Hsave & _); [reflexivity|lia|reflexivity|].
  apply (Hsave 7 12);
    [reflexivity|reflexivity|reflexivity|unfold sqlite_integer; lia
    |unfold sqlite_integer; lia].
- destruct (activity_edit_saves sample_env sample_db 1 sample_user
              (post [("title", "Reading aloud");
                     ("age_max", "9223372036854775808")])
              1 (Activity.mk "Reading" "picture books" "language" 6 8 (Some 1)))
    as (_ & _ & _ & Hover); [reflexivity|lia|reflexivity|].
  apply (Hover 6 (2 ^ 63)); [reflexivity|reflexivity|reflexivity|].
  unfold sqlite_integer. lia.
Defined.

(** ** The order of the labels *)

Section KeyOrder.

Lemma compare_app (p1 p2 r1 r2 : string) :
  String.length p1 = String.length p2 ->
  String.compare (p1 +:+ r1) (p2 +:+ r2)
  = match String.compare p1 p2 with
    | Eq => String.compare r1 r2
    | c => c
    end.
Proof.
revert p2. induction p1 as [|c1 p1 IH]; intros [|c2 p2] Hlen; try done.
injection Hlen as Hlen. rewrite !app_cons_string. simpl.
destruct (Ascii.compare c1 c2); [by apply IH|done|done].
Qed.

Lemma compare_cons (c : ascii) (r1 r2 : string) :
  String.compare (String c r1) (String c r2) = String.compare r1 r2.
Proof. simpl. unfold Ascii.compare. by rewrite N.compare_refl. Qed.

Lemma digit_char_compare (a b : Z) :
  Ascii.compare (Py.digit_char a) (Py.digit_char b)
  = (a mod 10 ?= b mod 10).
Proof.
unfold Ascii.compare, Py.digit_char.
pose proof (Z.mod_pos_bound a 10 ltac:(lia)).
pose proof (Z.mod_pos_bound b 10 ltac:(lia)).
rewrite !N_ascii_embedding by lia.
rewrite Z2N.inj_compare by lia.
apply Z.add_compare_mono_l.
Qed.

Lemma zero_pad_compare (w : nat) (a b : Z) :
  0 <= a < 10 ^ Z.of_nat w -> 0 <= b < 10 ^ Z.of_nat w ->
  String.compare (Py.zero_pad w a) (Py.zero_pad w b) = (a ?= b).
Proof.
revert a b. induction w as [|w IH]; intros a b Ha Hb.
- simpl in Ha, Hb. assert (a = 0) by lia. assert (b = 0) by lia. by subst.
- rewrite Nat2Z.inj_succ, Z.pow_succ_r in Ha, Hb by lia.
  change (Py.zero_pad (S w) a)
    with (Py.zero_pad w (a / 10) +:+ String (Py.digit_char a) "").
  change (Py.zero_pad (S w) b)
    with (Py.zero_pad w (b / 10) +:+ String (Py.digit_char b) "").
  rewrite compare_app by (by rewrite !zero_pad_length).
  rewrite IH by (split; [apply Z.div_pos; lia
                        |apply Z.div_lt_upper_bound; lia]).
  simpl. rewrite digit_char_compare.
  pose proof (Z.div_mod a 10 ltac:(lia)).
  pose proof (Z.div_mod b 10 ltac:(lia)).
  pose proof (Z.mod_pos_bound a 10 ltac:(lia)).
  pose proof (Z.mod_pos_bound b 10 ltac:(lia)).
  destruct (Z.compare_spec (a / 10) (b / 10)) as [Hq|Hq|Hq].
  + destruct (Z.compare_spec (a mod 10) (b mod 10)) as [Hr|Hr|Hr];
      symmetry; [apply Z.compare_eq_iff|apply Z.compare_lt_iff
                |apply Z.compare_gt_iff]; lia.
  + symmetry. apply Z.compare_lt_iff. lia.
  + symmetry. apply Z.compare_gt_iff. lia.
Qed.

Lemma date_leb_spec (a b : Py.date) :
  date_leb a b = true <->
  Py.year a < Py.year b
  \/ Py.year a = Py.year b
     /\ (Py.month a < Py.month b
         \/ Py.month a = Py.month b /\ Py.day a <= Py.day b).
Proof.
unfold date_leb.
rewrite !orb_true_iff, !andb_true_iff, !orb_true_iff, !andb_true_iff.
rewrite !Z.ltb_lt, !Z.eqb_eq, Z.leb_le. tauto.
Qed.

Lemma str_le_compare (s t : string) :
  Py.str_le s t <-> String.compare s t <> Gt.
Proof.
unfold Py.str_le, String.leb. destruct (String.compare s t); simpl;
  split; (done || tauto || congruence).
Qed.

(** The three keys of a date, compared as strings, from the year 1000
    on. *)
Lemma bucket_key_compare (period : string) (a b : Py.date) :
  PyDate.valid a -> PyDate.valid b ->
  1000 <= Py.year a -> 1000 <= Py.year b ->
  String.compare (bucket_key period a) (bucket_key period b)
  = match Py.year a ?= Py.year b with
    | Eq =>
        if (period =? "daily")%string then
          match Py.month a ?= Py.month b with
          | Eq => Py.day a ?= Py.day b
          | c => c
          end
        else if (period =? "monthly")%string then
          Py.month a ?= Py.month b
        else Eq
    | c => c
    end.
Proof.
destruct a as [ya ma da], b as [yb mb db]. unfold PyDate.valid. simpl.
intros (Hya & Hma & Hda) (Hyb & Hmb & Hdb) Hfa Hfb.
pose proof (proj1 (year_str_four ya Hfa)) as Hsa.
pose proof (proj1 (year_str_four yb Hfb)) as Hsb.
assert (Hdays : forall y m, PyDate.days_in_month y m <= 31).
{ intros y m. unfold PyDate.days_in_month. repeat case_match; lia. }
pose proof (Hdays ya ma). pose proof (Hdays yb mb).
assert (Hy : String.compare (Py.zero_pad 4 ya) (Py.zero_pad 4 yb)
             = (ya ?= yb)) by (apply zero_pad_compare; simpl; lia).
assert (Hm : String.compare (Py.zero_pad 2 ma) (Py.zero_pad 2 mb)
             = (ma ?= mb)) by (apply zero_pad_compare; simpl; lia).
assert (Hd : String.compare (Py.zero_pad 2 da) (Py.zero_pad 2 db)
             = (da ?= db)) by (apply zero_pad_compare; simpl; lia).
unfold bucket_key.
destruct (period =? "daily")%string;
  [|destruct (period =? "monthly")%string].
- change (Py.strftime (Py.Date ya ma da) "%Y-%m-%d")
    with (Py.year_str ya +:+
          String "-" (Py.zero_pad 2 ma +:+
                      String "-" (Py.zero_pad 2 da +:+ ""))).
  change (Py.strftime (Py.Date yb mb db) "%Y-%m-%d")
    with (Py.year_str yb +:+
          String "-" (Py.zero_pad 2 mb +:+
                      String "-" (Py.zero_pad 2 db +:+ ""))).
  rewrite Hsa, Hsb, compare_app, Hy by (by rewrite !zero_pad_length).
  destruct (ya ?= yb); try done. rewrite compare_cons.
  rewrite compare_app, Hm by (by rewrite !zero_pad_length).
  destruct (ma ?= mb); [|done|done]. rewrite compare_cons.
  exact Hd.
- change (Py.strftime (Py.Date ya ma da) "%Y-%m")
    with (Py.year_str ya +:+ String "-" (Py.zero_pad 2 ma +:+ "")).
  change (Py.strftime (Py.Date yb mb db) "%Y-%m")
    with (Py.year_str yb +:+ String "-" (Py.zero_pad 2 mb +:+ "")).
  rewrite Hsa, Hsb, compare_app, Hy by (by rewrite !zero_pad_length).
  destruct (ya ?= yb); [|done|done]. rewrite compare_cons.
  exact Hm.
- change (Py.strftime (Py.Date ya ma da) "%Y")
    with (Py.year_str ya +:+ "").
  change (Py.strftime (Py.Date yb mb db) "%Y")
    with (Py.year_str yb +:+ "").
  rewrite Hsa, Hsb, compare_app, Hy by (by rewrite !zero_pad_length).
  by destruct (ya ?= yb).
Qed.

End KeyOrder.

(** X27. Sorting the labels as strings sorts them by time: for calendar
    dates from the year 1000 on, where [%Y] writes four digits, an earlier
    date never has a later key, whatever the period; and for the daily
    chart the order of the keys is exactly the order of the dates, two
    dates having the same key only if they are the same date. *)
Theorem label_order_is_chronological (period : string) (a b : Py.date) :
  PyDate.valid a -> PyDate.valid b ->
  1000 <= Py.year a -> 1000 <= Py.year b ->
  (date_leb a b = true ->
   Py.str_le (bucket_key period a) (bucket_key period b))
  /\ (period = "daily" ->
      (Py.str_le (bucket_key period a) (bucket_key period b) ->
       date_leb a b = true)
      /\ (bucket_key period a = bucket_key period b -> a = b)).
Proof.
intros Ha Hb Hfa Hfb.
pose proof (bucket_key_compare period a b Ha Hb Hfa Hfb) as Hcmp.
rewrite str_le_compare, date_leb_spec.
destruct a as [ya ma da], b as [yb mb db].
cbn [Py.year Py.month Py.day] in *.
split.
- intros Hle. rewrite Hcmp.
  destruct (Z.compare_spec ya yb); [|done|lia].
  destruct (period =? "daily")%string;
    [|destruct (period =? "monthly")%string; [|done]].
  + destruct (Z.compare_spec ma mb); [|done|lia].
    destruct (Z.compare_spec da db); [done|done|lia].
  + destruct (Z.compare_spec ma mb); [done|done|lia].
- intros ->. change ("daily" =? "daily")%string with true in Hcmp.
  cbv iota in Hcmp. split.
  + rewrite Hcmp.
    destruct (Z.compare_spec ya yb); [|lia|done].
    destruct (Z.compare_spec ma mb); [|lia|done].
    destruct (Z.compare_spec da db); [lia|lia|done].
  + intros Hkey. rewrite Hkey, string_compare_refl in Hcmp.
    destruct (Z.compare_spec ya yb); [|done|done].
    destruct (Z.compare_spec ma mb); [|done|done].
    destruct (Z.compare_spec da db); [|done|done].
    by subst.
Qed.

Lemma label_order_is_chronological_witness :
  Py.str_le (bucket_key "monthly" (Py.Date 2023 12 31))
    (bucket_key "monthly" (Py.Date 2024 1 1)).
Proof.
apply (label_order_is_chronological "monthly" (Py.Date 2023 12 31)
         (Py.Date 2024 1 1)).
- unfold PyDate.valid. repeat split; vm_compute; discriminate.
- unfold PyDate.valid. repeat split; vm_compute; discriminate.
- simpl. lia.
- simpl. lia.
- reflexivity.
Defined.


(** ** The user table over both groups of views *)

(** No view of the second group writes the user table. *)
Lemma serve_view_keeps_users (e : env) (d : database) (who : option Z)
    (r : view_route) (req : request) :
  tbl_user (v_db_after (serve_view e d who r req)) = tbl_user d.
Proof.
assert (Hcases : r = R_behavior_new \/ r <> R_behavior_new)
  by (destruct r; (by left) || (by right)).
destruct Hcases as [->|Hr].
- destruct (behavior_new_cases e d who req) as [_ Hcases].
  cbv zeta in Hcases. by destruct Hcases as [[-> _]|(row & -> & _)].
- unfold serve_view.
  destruct (negb (view_url_matches r)); [done|].
  destruct (negb (view_allows r (method req))); [done|].
  destruct r; try done;
    unfold view_of, dashboard, students, activities, activitylog_new, reports,
      print_student;
    rewrite ?date_field_lift; run_more;
    repeat (case_match; run_more; simplify_eq); done.
Qed.

(** A new account whose lower-case address no stored account has keeps
    the addresses lower-case and distinct. *)
Lemma add_user_keeps_distinct (d : database) (u0 : User.t) :
  emails_normalized d -> emails_distinct d ->
  Py.lower (User.email u0) = User.email u0 ->
  user_by_email d (User.email u0) = None ->
  let d' := with_users d (<[next_id (tbl_user d) := u0]> (tbl_user d)) in
  emails_normalized d' /\ emails_distinct d'.
Proof.
intros Hnorm Hdist Hlow Hfree. cbv zeta. split.
- unfold emails_normalized. simpl. by apply map_Forall_insert_2.
- rewrite user_by_email_None in Hfree.
  intros i j u v. unfold with_users. simpl.
  rewrite !lookup_insert_Some.
  intros [[<- <-]|[Hi Hu]] [[<- <-]|[Hj Hv]] Heq; [done| | |by eauto].
  + exfalso. apply (Hfree j v Hv).
    by rewrite <- (Hnorm j v Hv), <- Heq, Hlow.
  + exfalso. apply (Hfree i u Hu).
    by rewrite <- (Hnorm i u Hu), Heq, Hlow.
Qed.

(** X28. The accounts stay apart: if every stored address is in lower case
    and no two accounts share an address up to letter case, the same holds
    after any request to any view of either group and after [initdb]; the
    handlers themselves never store a second account for an address, in
    whatever case it is typed. *)
Theorem accounts_stay_distinct (e : env) (d : database) (who : option Z)
    (req : request) :
  emails_normalized d -> emails_distinct d ->
  (forall r, emails_normalized (db_after (serve e d who r req))
             /\ emails_distinct (db_after (serve e d who r req)))
  /\ (forall r, emails_normalized (v_db_after (serve_view e d who r req))
                /\ emails_distinct (v_db_after (serve_view e d who r req)))
  /\ emails_normalized (after_initdb e d)
  /\ emails_distinct (after_initdb e d).
Proof.
intros Hnorm Hdist. split; [|split].
- intros r.
  assert (Hcase : r = R_register \/ r <> R_register)
    by (destruct r; (by left) || (by right)).
  destruct Hcase as [->|Hr].
  + destruct (method req) eqn:Hm.
    { unfold serve, view, register, is_post. rewrite Hm. done. }
    rewrite (register_post e d who req Hm). cbv zeta.
    destruct (Py.is_empty _ || _ || _); [done|].
    destruct (user_by_email d _) eqn:Hfree; [done|].
    apply (add_user_keeps_distinct d); [done|done|apply lower_idem|done].
  + unfold emails_normalized, emails_distinct.
    by rewrite serve_keeps_users.
- intros r. unfold emails_normalized, emails_distinct.
  by rewrite serve_view_keeps_users.
- rewrite after_initdb_eq. cbv zeta.
  assert (Hadmin :
    let d1 := match user_by_email d "admin@kidanta.local" with
              | None =>
                  with_users d
                    (<[next_id (tbl_user d) := admin_user e]> (tbl_user d))
              | Some _ => d
              end in
    emails_normalized d1 /\ emails_distinct d1).
  { cbv zeta. destruct (user_by_email d "admin@kidanta.local") eqn:Hfree;
      [done|].
    by apply (add_user_keeps_distinct d (admin_user e)). }
  cbv zeta in Hadmin. by case_bool_decide.
Qed.

Lemma sample_emails_distinct : emails_distinct sample_db.
Proof.
intros i j u v. unfold sample_db. simpl. rewrite !lookup_insert_Some.
intros [[<- _]|[_ Hi]] [[<- _]|[_ Hj]] _; done.
Qed.

Lemma accounts_stay_distinct_witness :
  emails_distinct
    (db_after
       (serve sample_env sample_db None R_register
          (post [("name", "Kru Noi"); ("email", " Mali@Kidanta.Local ");
                 ("password", "pw")]))).
Proof.
destruct (accounts_stay_distinct sample_env sample_db None
            (post [("name", "Kru Noi"); ("email", " Mali@Kidanta.Local ");
                   ("password", "pw")]))
  as (Hserve & _);
  [apply sample_emails_normalized|apply sample_emails_distinct|].
apply Hserve.
Defined.
